(** * BartGadget: the script orchestrator of the Gadgetron/BART bridge

    A shallow embedding of [bartgadget.cpp], [bartgadget.h] and
    [bart_api.h], and the properties of the natural-language
    specification that concern them.

    Conventions.
    - [std::string] is [string]; positions are [size_type] values, modelled
      as [Z] in the range [0 .. 2^64-1], with [npos = 2^64-1] and the
      unsigned wrap-around of [pos_end - pos] written out.
    - [long], [size_t] and [uint16_t] are [Z] with the conversions written
      out ([to_long], [to_size_t], [to_u16]).
    - The external engine ([in_mem_bart_main]) is opaque: it is a Section
      variable.  The in-memory CFL registry behind [bart_api.h] is not part
      of the sources; it is modelled from the documentation of its
      declarations. *)

From Stdlib Require Import ZArith List Bool Ascii String Lia.
From Stdlib Require Import Numbers.DecimalString.
From Stdlib Require DecimalPos.
Import ListNotations.

Local Open Scope string_scope.
Local Open Scope Z_scope.

(* ================================================================== *)
(** * Machine integers *)

Definition to_u16 (z : Z) : Z := z mod 2 ^ 16.
Definition to_size_t (z : Z) : Z := z mod 2 ^ 64.
Definition to_long (z : Z) : Z := (z + 2 ^ 63) mod 2 ^ 64 - 2 ^ 63.

(** [std::to_string] and [operator<<] on an integer: signed decimal. *)
Definition to_string (z : Z) : string := NilZero.string_of_int (Z.to_int z).

(* ================================================================== *)
(** * [std::string] primitives *)

Module StdString.

Definition npos : Z := 2 ^ 64 - 1.

Definition size (s : string) : Z := Z.of_nat (String.length s).

Fixpoint take (n : nat) (s : string) : string :=
  match n, s with
  | S n', String a s' => String a (take n' s')
  | _, _ => EmptyString
  end.

Fixpoint drop (n : nat) (s : string) : string :=
  match n, s with
  | S n', String _ s' => drop n' s'
  | _, _ => s
  end.

(** Index of the first [c] in [s], where the head of [s] has index
    [off]; [npos] when there is none. *)
Fixpoint find_first (c : ascii) (s : string) (off : Z) : Z :=
  match s with
  | EmptyString => npos
  | String a s' => if Ascii.eqb a c then off else find_first c s' (off + 1)
  end.

(** [s.find(c, pos)] *)
Definition find (s : string) (c : ascii) (pos : Z) : Z :=
  if size s <=? pos then npos
  else find_first c (drop (Z.to_nat pos) s) pos.

(** [s.substr(pos, n)], for [pos <= s.size()] (beyond that the library
    throws [std::out_of_range]; the only caller passes a position that
    [find] has just returned). *)
Definition substr (s : string) (pos n : Z) : string :=
  take (Z.to_nat (Z.min n (size s - pos))) (drop (Z.to_nat pos) s).

(** [s.erase(pos, n)] *)
Definition erase (s : string) (pos n : Z) : string :=
  take (Z.to_nat pos) s ++
  drop (Z.to_nat (pos + Z.min n (size s - pos))) s.

(** [s.replace(pos, n, t)] *)
Definition replace (s : string) (pos n : Z) (t : string) : string :=
  take (Z.to_nat pos) s ++ t ++
  drop (Z.to_nat (pos + Z.min n (size s - pos))) s.

End StdString.

(* ================================================================== *)
(** * Parameter substitution: [BartGadget::replace_default_parameters] *)

(** [struct Default_parameters]: ten [uint16_t] fields. *)
Record Default_parameters := {
  recon_matrix_x : Z;
  recon_matrix_y : Z;
  recon_matrix_z : Z;
  FOV_x : Z;
  FOV_y : Z;
  FOV_z : Z;
  acc_factor_PE1 : Z;
  acc_factor_PE2 : Z;
  reference_lines_PE1 : Z;
  reference_lines_PE2 : Z
}.

(** Messages of the logging macros. *)
Inductive LogMsg :=
| GERROR (msg : string)
| GDEBUG (msg : string)
| GINFO (msg : string).

Definition unknown_parameter_msg : string :=
  "Unknown default parameter, please see the complete list of available parameters...".

(** The [if ... else if ...] chain of the loop body: the field whose name
    is [tmp], read as the [uint16_t] it is; [None] is the final [else]. *)
Definition default_parameter (dp : Default_parameters) (tmp : string) : option Z :=
  if String.eqb tmp "recon_matrix_x" then Some (to_u16 (recon_matrix_x dp))
  else if String.eqb tmp "recon_matrix_y" then Some (to_u16 (recon_matrix_y dp))
  else if String.eqb tmp "recon_matrix_z" then Some (to_u16 (recon_matrix_z dp))
  else if String.eqb tmp "FOV_x" then Some (to_u16 (FOV_x dp))
  else if String.eqb tmp "FOV_y" then Some (to_u16 (FOV_y dp))
  else if String.eqb tmp "FOV_z" then Some (to_u16 (FOV_z dp))
  else if String.eqb tmp "acc_factor_PE1" then Some (to_u16 (acc_factor_PE1 dp))
  else if String.eqb tmp "acc_factor_PE2" then Some (to_u16 (acc_factor_PE2 dp))
  else if String.eqb tmp "reference_lines_PE1" then Some (to_u16 (reference_lines_PE1 dp))
  else if String.eqb tmp "reference_lines_PE2" then Some (to_u16 (reference_lines_PE2 dp))
  else None.

(** One iteration of the [while] loop, entered with [pos] already set to
    the position of a ['$']: the new string, the new [pos] and the
    message logged, if any. *)
Definition replace_step (dp : Default_parameters) (str : string) (pos : Z)
  : string * Z * list LogMsg :=
  let pos_end := StdString.find str " "%char pos in
  let pos_diff := (pos_end - pos) mod 2 ^ 64 in
  let tmp := StdString.erase (StdString.substr str pos pos_diff) 0 1 in
  match default_parameter dp tmp with
  | Some v => (StdString.replace str pos pos_diff (to_string v), pos_end, [])
  | None => (str, pos_end, [GERROR unknown_parameter_msg])
  end.

(** The [while] loop, with the number of iterations bounded by [fuel];
    [None] when the bound is reached. *)
Fixpoint replace_loop (fuel : nat) (dp : Default_parameters)
         (str : string) (pos : Z) (log : list LogMsg)
  : option (string * list LogMsg) :=
  match fuel with
  | O => None
  | S fuel' =>
      let pos' := StdString.find str "$"%char pos in
      if pos' =? StdString.npos then Some (str, log)
      else
        let '(str', pos_end, msgs) := replace_step dp str pos' in
        replace_loop fuel' dp str' pos_end (log ++ msgs)
  end.

(** A string of [n] characters is scanned in at most [n] iterations
    ([replace_loop_total] below), so this bound is never reached. *)
Definition replace_fuel (str : string) : nat := S (String.length str).

Definition replace_default_parameters (dp : Default_parameters) (str : string)
  : string * list LogMsg :=
  match replace_loop (replace_fuel str) dp str 0 [] with
  | Some r => r
  | None => (str, [])
  end.

(* ================================================================== *)
(** * Splitting on the space character *)

(** The tokens of [s] for the single delimiter [' ']: maximal runs of
    characters other than the space, in order.  This is what both
    [strtok(., " ")] and [boost::tokenizer] with [char_separator(" ")]
    (which drops empty tokens) enumerate.  [cur] is the token being read,
    in reverse. *)
Fixpoint rev_string (acc s : string) : string :=
  match s with
  | EmptyString => acc
  | String a s' => rev_string (String a acc) s'
  end.

Definition flush_token (cur : string) (toks : list string) : list string :=
  match cur with
  | EmptyString => toks
  | _ => rev_string EmptyString cur :: toks
  end.

Fixpoint split_spaces (s cur : string) : list string :=
  match s with
  | EmptyString => flush_token cur []
  | String a s' =>
      if Ascii.eqb a " "%char then flush_token cur (split_spaces s' EmptyString)
      else split_spaces s' (String a cur)
  end.

Definition tokens (s : string) : list string := split_spaces s EmptyString.

(** [internal::get_output_filename]: the tokens are pushed into a vector
    and [outputFile.back()] is returned.  [back()] of an empty vector is
    undefined behaviour: [None]. *)
Fixpoint back (v : list string) : option string :=
  match v with
  | [] => None
  | [x] => Some x
  | _ :: v' => back v'
  end.

Definition get_output_filename (bartCommandLine : string) : option string :=
  back (tokens bartCommandLine).

(* ================================================================== *)
(** * Tokenisation in [BartGadget::call_BART] *)

Definition MAX_ARGS : Z := 256.

(** [strcpy(cmdline_s.get(), cmdline.c_str())]: the copy ends at the
    first NUL character. *)
Fixpoint c_str (s : string) : string :=
  match s with
  | EmptyString => EmptyString
  | String a s' => if Ascii.eqb a zero then EmptyString else String a (c_str s')
  end.

(** The loop [while (p2 && argc < MAX_ARGS-1) { argv[argc++] = p2; p2 =
    strtok(0, " "); }], [pending] being the tokens [strtok] has yet to
    return ([p2] is its head, or null when it is empty). *)
Fixpoint argv_loop (pending : list string) (argc : Z) (argv : list string)
  : Z * list string :=
  match pending with
  | [] => (argc, argv)
  | p2 :: rest =>
      if argc <? MAX_ARGS - 1 then argv_loop rest (argc + 1) (argv ++ [p2])
      else (argc, argv)
  end.

(** [argc] and the filled part of [argv] that reach [in_mem_bart_main]. *)
Definition tokenize (cmdline : string) : Z * list string :=
  argv_loop (tokens (c_str cmdline)) 0 [].

(* ================================================================== *)
(** * The in-memory CFL registry of [bart_api.h] *)

(** Memory handed to the registry.  [RbitRef it] and [RbitData it] are the
    reference and raw-data arrays of element [it] of [rbit_], which belong
    to the pipeline; [EngineBuf] stands for storage the engine allocates. *)
Inductive Ptr :=
| RbitRef (it : nat)
| RbitData (it : nat)
| EngineBuf (id : nat).

(** How the registry releases an entry: [free], [delete[]], or not at all. *)
Inductive Ownership := OwnedMalloc | OwnedNew | NonManaged.

Record Entry := {
  e_name : string;
  e_D : Z;                 (* the [unsigned int D] argument *)
  e_dims : list Z;         (* the [D] values read from [dimensions] *)
  e_ptr : Ptr;
  e_own : Ownership
}.

Definition Registry := list Entry.

(** Modelled from the spec: the registry behind [bart_api.h] is declared
    but not defined in the sources.  Following the documentation of the
    three declarations, registration records the name, the dimensions and
    the pointer; [register_mem_cfl_malloc] and [register_mem_cfl_new] take
    ownership, [register_mem_cfl_non_managed] does not.  A name registered
    again shadows the earlier entry (the policy is left open). *)
Definition register_mem_cfl (own : Ownership) (name : string) (D : Z)
           (dimensions : list Z) (ptr : Ptr) (reg : Registry) : Registry :=
  {| e_name := name; e_D := D;
     e_dims := firstn (Z.to_nat D) dimensions;
     e_ptr := ptr; e_own := own |} :: reg.

Definition register_mem_cfl_malloc := register_mem_cfl OwnedMalloc.
Definition register_mem_cfl_new := register_mem_cfl OwnedNew.
Definition register_mem_cfl_non_managed := register_mem_cfl NonManaged.

(** An entry that the registry owns. *)
Definition is_owned (e : Entry) : bool :=
  match e_own e with NonManaged => false | _ => true end.

(** Modelled from the spec: [deallocate_all_mem_cfl] frees every owned
    entry with its own strategy, drops the entries that are not managed
    without freeing them, and empties the table.  The result is the
    memory freed and the table left. *)
Definition deallocate_all_mem_cfl (reg : Registry) : list Ptr * Registry :=
  (map e_ptr (filter is_owned reg), []).

(** The entry registered last under [name]. *)
Fixpoint lookup (name : string) (reg : Registry) : option Entry :=
  match reg with
  | [] => None
  | e :: reg' => if String.eqb (e_name e) name then Some e else lookup name reg'
  end.

(** [dims] in [D] slots, the unused trailing ones set to zero. *)
Definition pad (D : nat) (dims : list Z) : list Z :=
  firstn D (dims ++ repeat 0 D).

(** Modelled from the spec: [load_mem_cfl] looks the name up and writes
    the stored shape into the caller's [D] slots, zero-padding the unused
    trailing axes; for an unknown name nothing is written and the
    pointer returned is null. *)
Definition load_mem_cfl (name : string) (D : Z) (dimensions : list Z)
           (reg : Registry) : option Ptr * list Z :=
  match lookup name reg with
  | Some e => (Some (e_ptr e), pad (Z.to_nat D) (e_dims e))
  | None => (None, dimensions)
  end.

(* ================================================================== *)
(** * The state a call of [process] works on *)

Inductive Event :=
| EvLog (m : LogMsg)
| EvCreateDirectories (dir : string) (ok : bool)
| EvSystem (cmd : string) (status : Z)
| EvRegister (own : Ownership) (name : string) (D : Z) (ptr : Ptr)
| EvEngine (argc : Z) (argv : list string) (ret : Z)
| EvLoad (name : string)
| EvRemoveAll (path : string)
| EvDeallocateAll (freed : list Ptr)
| EvCreateImageArray (dims : list Z).

Record State := {
  registry : Registry;
  workspace : bool;        (* the directory [outputFolderPath] exists *)
  is_active_ : bool;       (* the member of [cleanup_guard] *)
  trace : list Event       (* what has been done, oldest first *)
}.

Definition emit (ev : Event) (s : State) : State :=
  {| registry := registry s; workspace := workspace s;
     is_active_ := is_active_ s; trace := trace s ++ [ev] |}.

Definition set_registry (reg : Registry) (s : State) : State :=
  {| registry := reg; workspace := workspace s;
     is_active_ := is_active_ s; trace := trace s |}.

Definition set_workspace (b : bool) (s : State) : State :=
  {| registry := registry s; workspace := b;
     is_active_ := is_active_ s; trace := trace s |}.

Definition set_is_active (b : bool) (s : State) : State :=
  {| registry := registry s; workspace := workspace s;
     is_active_ := b; trace := trace s |}.

(** [internal::cleanup]: [boost::filesystem::remove_all]. *)
Definition cleanup (createdFiles : string) (s : State) : State :=
  set_workspace false (emit (EvRemoveAll createdFiles) s).

(** [ScopeGuard::dismiss] *)
Definition dismiss (s : State) : State := set_is_active false s.

(** [ScopeGuard::~ScopeGuard] *)
Definition ScopeGuard_dtor (p_ : string) (s : State) : State :=
  let s := if is_active_ s then cleanup p_ s else s in
  let '(freed, reg) := deallocate_all_mem_cfl (registry s) in
  set_registry reg (emit (EvDeallocateAll freed) s).

(** How a call of [process] ends: one of its [return]s, the abort of a
    failed [assert], or undefined behaviour. *)
Inductive Status := GADGET_OK | GADGET_FAIL.
Inductive Exit := Return (r : Status) | Aborted | Undefined.

(** Statements that may leave the function: a state transformer that
    either goes on with a value or stops with an [Exit]. *)
Inductive Step (A : Type) :=
| Go (a : A)
| Stop (e : Exit).
Arguments Go {A} a.
Arguments Stop {A} e.

Definition M (A : Type) : Type := State -> Step A * State.

Definition mret {A} (a : A) : M A := fun s => (Go a, s).
Definition mstop {A} (e : Exit) : M A := fun s => (Stop e, s).
Definition bind {A B} (c : M A) (k : A -> M B) : M B :=
  fun s => match c s with
           | (Go a, s') => k a s'
           | (Stop e, s') => (Stop e, s')
           end.
Definition lift (f : State -> State) : M unit := fun s => (Go tt, f s).
Definition get_state : M State := fun s => (Go s, s).

Declare Scope gadget_scope.
Delimit Scope gadget_scope with gadget.
Notation "x <- c ;; k" := (bind c (fun x => k))
  (at level 61, c at next level, right associativity) : gadget_scope.
Notation "c ;;; k" := (bind c (fun _ => k))
  (at level 61, right associativity) : gadget_scope.
Local Open Scope gadget_scope.

Definition log (m : LogMsg) : M unit := lift (emit (EvLog m)).

(** [v[i]] on a [std::vector]: undefined behaviour out of range. *)
Definition index (v : list Z) (i : nat) : M Z :=
  match nth_error v i with
  | Some x => mret x
  | None => mstop Undefined
  end.

(* ================================================================== *)
(** * Reading the command script *)

(** [std::isspace] in the "C" locale. *)
Definition isspace (a : ascii) : bool :=
  let n := nat_of_ascii a in
  (Nat.eqb n 32 || (Nat.leb 9 n && Nat.leb n 13))%bool.

(** [internal::ltrim], [internal::rtrim], [internal::trim] *)
Fixpoint ltrim (str : string) : string :=
  match str with
  | EmptyString => EmptyString
  | String a str' => if isspace a then ltrim str' else str
  end.

Fixpoint rtrim (str : string) : string :=
  match str with
  | EmptyString => EmptyString
  | String a str' =>
      match rtrim str' with
      | EmptyString => if isspace a then EmptyString else String a EmptyString
      | r => String a r
      end
  end.

Definition trim (str : string) : string := rtrim (ltrim str).

(** [Line.substr(0, Line.find_first_of("#"))] followed by [trim]. *)
Definition crop_comment (Line : string) : string :=
  trim (StdString.substr Line 0 (StdString.find Line "#"%char 0)).

(** [Line.empty() || Line.compare(0, 4, "bart") != 0]: the line is
    skipped. *)
Definition skipped (Line : string) : bool :=
  (String.eqb Line "" || negb (String.eqb (StdString.substr Line 0 4) "bart"))%bool.

(* ================================================================== *)
(** * Inputs of [process] *)

(** A [hoNDArray]: its dimensions and where its data lives.
    [get_size(i)] is the [i]-th dimension, and 1 past the last one. *)
Record hoNDArray := { dimensions_ : list Z; data_ptr : Ptr }.

Definition get_size (a : hoNDArray) (i : nat) : Z := nth i (dimensions_ a) 1.

(** One element of [rbit_]: the reference buffer and the data buffer. *)
Record ReconBit := { ref_ : hoNDArray; data_ : hoNDArray }.

(** The message: [m1->getObjectPtr()->rbit_], element [it] carrying the
    arrays [RbitRef it] and [RbitData it]. *)
Definition rbit_of (it : nat) (dims_ref dims : list Z) : ReconBit :=
  {| ref_ := {| dimensions_ := dims_ref; data_ptr := RbitRef it |};
     data_ := {| dimensions_ := dims; data_ptr := RbitData it |} |}.

(** The gadget properties read by [process]. *)
Record Properties := {
  BartWorkingDirectory_path : string;
  AbsoluteBartCommandScript_path : string;
  BartCommandScript_name : string;
  isBartFileBeingStored : bool;
  isBartFolderBeingCachedToVM : bool;
  AllocateMemorySizeInMegabytes : Z
}.

(** What the operating system answers during one call. *)
Record Env := {
  script_exists : bool;          (* [boost::filesystem::exists(CommandScript)] *)
  chmod_res : Z;                 (* result of [chmod]; the permissions it
                                    sets are not part of the state *)
  time_id : string;              (* [strftime] text and the random number *)
  threadNumber : Z;
  create_directories_ok : bool;  (* what [boost::filesystem::create_directories]
                                    returns; a call that ends in an exception
                                    is not modelled *)
  is_active_indeterminate : bool;(* what the member [is_active_], which no
                                    constructor initialises, happens to hold *)
  system_status : Z;             (* result of [system(mount ...)] *)
  script_lines : option (list string)
                                 (* the lines [getline] yields, or [None]
                                    when the file cannot be opened *)
}.

(* ================================================================== *)
(** * [BartGadget::process] and what it calls *)

Fixpoint dims_eqb (v1 v2 : list Z) : bool :=
  match v1, v2 with
  | [], [] => true
  | x :: v1', y :: v2' => (x =? y) && dims_eqb v1' v2'
  | _, _ => false
  end.

(** The seven [emplace_back(a.get_size(i))] into a [std::vector<long>]. *)
Definition emplace_sizes (v : list Z) (a : hoNDArray) : list Z :=
  v ++ map (fun i => to_long (get_size a i)) (seq 0 7).

(** Lines 1009-1017: the shape of the image array, the fifth axis being
    [DIMS_OUT[4] / header[4]] on [long]s, stored as [size_t].  [None] is
    the failure of [assert(header[4] > 0)]. *)
Definition data_dims_Final (DIMS_OUT header : list Z) : option (list Z) :=
  if 0 <? nth 4 header 0 then
    Some [ to_size_t (nth 0 DIMS_OUT 0);
           to_size_t (nth 1 DIMS_OUT 0);
           to_size_t (nth 2 DIMS_OUT 0);
           to_size_t (nth 3 DIMS_OUT 0);
           to_size_t (Z.quot (nth 4 DIMS_OUT 0) (nth 4 header 0));
           to_size_t (nth 5 DIMS_OUT 0);
           to_size_t (nth 6 DIMS_OUT 0) ]
  else None.

(** The header of the innermost copy loop (line 1025),
    [for (uint16_t n = 0; n < data_dims[4]; n += header[4])]: the values
    of [n] for which the body runs.  [n] has 16 bits, so a loop that has
    not ended after 65536 iterations never ends: [None]. *)
Fixpoint frame_loop (fuel : nat) (n d4 h4 : Z) : option (list Z) :=
  match fuel with
  | O => None
  | S fuel' =>
      if n <? d4 then option_map (cons n) (frame_loop fuel' (to_u16 (n + h4)) d4 h4)
      else Some []
  end.

Definition frames (DIMS_OUT header : list Z) : option (list Z) :=
  frame_loop (S (Z.to_nat 65536)) 0 (to_size_t (nth 4 DIMS_OUT 0)) (nth 4 header 0).

Section Gadget.

(** [in_mem_bart_main(argc, argv, out)]: the exit code, the text left in
    [out] and the registry as the command leaves it.  The engine is a
    black box; what it does may depend on everything done so far. *)
Variable engine :
  list Event -> Registry -> Z -> list string -> Z * string * Registry.

Variable P : Properties.
Variable dp : Default_parameters.
Variable E : Env.

(** [BartGadget::call_BART] *)
Definition call_BART (cmdline : string) : M bool :=
  log (GDEBUG ("Executing BART command: " ++ cmdline)) ;;;
  s <- get_state ;;
  let '(argc, argv) := tokenize cmdline in
  let '(ret, out_str, reg) := engine (trace s) (registry s) argc argv in
  lift (fun s => set_registry reg (emit (EvEngine argc argv ret) s)) ;;;
  if ret =? 0 then
    (if String.eqb (c_str out_str) "" then mret tt
     else log (GINFO (c_str out_str))) ;;;
    mret true
  else
    log (GERROR ("BART command failed with return code: " ++ to_string ret)) ;;;
    mret false.

Definition register_non_managed (name : string) (D : Z) (dims : list Z)
           (ptr : Ptr) : M unit :=
  lift (fun s =>
          set_registry (register_mem_cfl_non_managed name D dims ptr (registry s))
                       (emit (EvRegister NonManaged name D ptr) s)).

(** The loop over [rbit_] (lines 869-903).  [DIMS_ref] and [DIMS] are
    declared before the loop and grow by seven entries per element. *)
Fixpoint register_loop (rbits : list ReconBit) (DIMS_ref DIMS : list Z)
  : M (list Z * list Z) :=
  match rbits with
  | [] => mret (DIMS_ref, DIMS)
  | recon_bit :: rest =>
      let data_ref := ref_ recon_bit in
      let DIMS_ref := emplace_sizes DIMS_ref data_ref in
      let data := data_ recon_bit in
      let DIMS := emplace_sizes DIMS data in
      (if negb (dims_eqb DIMS_ref DIMS) then
         register_non_managed "meas_gadgetron_ref" (Z.of_nat (List.length DIMS))
                              DIMS_ref (data_ptr data_ref)
       else mret tt) ;;;
      register_non_managed "meas_gadgetron" (Z.of_nat (List.length DIMS))
                           DIMS (data_ptr data) ;;;
      register_loop rest DIMS_ref DIMS
  end.

Fixpoint logs (msgs : list LogMsg) : M unit :=
  match msgs with
  | [] => mret tt
  | m :: msgs' => log m ;;; logs msgs'
  end.

(** [if (!call_BART(cmd)) return GADGET_FAIL;] *)
Definition call_or_fail (cmdline : string) : M unit :=
  ok <- call_BART cmdline ;;
  if ok then mret tt else mstop (Return GADGET_FAIL).

(** Lines 856-863: the optional tmpfs mount over the workspace. *)
Definition mount_workspace (generatedFilesFolder : string) : M unit :=
  s <- get_state ;;
  if workspace s && isBartFolderBeingCachedToVM P
     && negb (isBartFileBeingStored P)
  then
    let cmd := "mount -t tmpfs -o size"
               ++ to_string (AllocateMemorySizeInMegabytes P)
               ++ "M, mode=0755 tmpfs " ++ generatedFilesFolder in
    lift (emit (EvSystem cmd (system_status E))) ;;;
    if system_status E =? 0 then mret tt else mstop (Return GADGET_FAIL)
  else mret tt.

Definition sp : string := " ".

(** Lines 865-925: registration of the input and the two preparatory
    commands. *)
Definition prepare_input (rbits : list ReconBit) : M unit :=
  dd <- register_loop rbits [] [] ;;
  let '(DIMS_ref, DIMS) := dd in
  (if negb (dims_eqb DIMS_ref DIMS) then
     d0 <- index DIMS 0 ;; d1 <- index DIMS 1 ;; d2 <- index DIMS 2 ;;
     call_or_fail ("bart resize -c 0 " ++ to_string d0 ++ " 1 "
                   ++ to_string d1 ++ " 2 " ++ to_string d2
                   ++ " meas_gadgetron_ref reference_data")
   else mret tt) ;;;
  d4 <- index DIMS 4 ;;
  cmd2 <- (if negb (d4 =? 1) then
             d0 <- index DIMS 0 ;; d1 <- index DIMS 1 ;;
             d2 <- index DIMS 2 ;; d3 <- index DIMS 3 ;;
             d5 <- index DIMS 5 ;; d6 <- index DIMS 6 ;;
             mret ("bart reshape 1023 " ++ to_string d0 ++ sp ++ to_string d1
                   ++ sp ++ to_string d2 ++ sp ++ to_string d3 ++ " 1 1 1 "
                   ++ to_string d5 ++ sp ++ to_string d6 ++ sp ++ to_string d4
                   ++ " meas_gadgetron input_data")
           else mret "bart scale 1.0 meas_gadgetron input_data") ;;
  call_or_fail cmd2.

(** The [while (getline(inputFile, Line))] loop (lines 933-952); its
    value is [Commands_Line] when the file is exhausted. *)
Fixpoint script_loop (lines : list string) (Commands_Line : string) : M string :=
  match lines with
  | [] => mret Commands_Line
  | Line :: rest =>
      let Line := crop_comment Line in
      if skipped Line then script_loop rest Commands_Line
      else
        let '(Line, msgs) := replace_default_parameters dp Line in
        logs msgs ;;;
        log (GDEBUG Line) ;;;
        call_or_fail Line ;;;
        script_loop rest Line
  end.

(** The path of the script file. *)
Definition CommandScript : string :=
  AbsoluteBartCommandScript_path P ++ "/" ++ BartCommandScript_name P.

(** Lines 929-959: the script file, opened or not. *)
Definition run_script : M string :=
  match script_lines E with
  | Some lines => script_loop lines ""
  | None => log (GERROR ("Unable to open " ++ CommandScript)) ;;;
            mstop (Return GADGET_FAIL)
  end.

Definition load (name : string) (D : Z) (dimensions : list Z)
  : M (option Ptr * list Z) :=
  lift (emit (EvLoad name)) ;;;
  s <- get_state ;;
  mret (load_mem_cfl name D dimensions (registry s)).

(** Lines 968-982: the result, whose shape is [header], is reshaped and
    looked up again; the value is [header] and [DIMS_OUT]. *)
Definition reshape_output (outputFile : string) (header : list Z)
  : M (list Z * list Z) :=
  let outputFileReshape := outputFile ++ "_reshape" in
  let h i := to_string (nth i header 0) in
  let cmd3 := "bart reshape 1023 " ++ h 0%nat ++ sp ++ h 1%nat ++ sp ++ h 2%nat
              ++ sp ++ h 3%nat ++ sp
              ++ to_string (to_long (nth 9 header 0 * nth 4 header 0))
              ++ sp ++ h 5%nat ++ sp ++ h 6%nat ++ sp ++ h 7%nat ++ sp ++ h 8%nat
              ++ " 1 " ++ outputFile ++ sp ++ outputFileReshape in
  call_or_fail cmd3 ;;;
  ld <- load (c_str outputFileReshape) 16 (repeat 0 16%nat) ;;
  let '(data, DIMS_OUT) := ld in
  match data with
  | None =>
      log (GERROR "Failed to retrieve data from in-memory CFL file!") ;;;
      mstop (Return GADGET_FAIL)
  | Some _ => mret (header, DIMS_OUT)
  end.

(** Lines 961-982: the result is looked up under the last token of
    [Commands_Line], then reshaped. *)
Definition fetch_output (Commands_Line : string) : M (list Z * list Z) :=
  outputFile <-
    match get_output_filename Commands_Line with
    | Some f => mret f
    | None => mstop Undefined
    end ;;
  hd <- load (c_str outputFile) 16 (repeat 0 16%nat) ;;
  reshape_output outputFile (snd hd).

(** Lines 988-1053: the workspace is removed or the guard dismissed,
    and the image array is shaped.  The loops that copy the frames into
    the image array and the hand-over to the next gadget are left out:
    no property stated here is about the data. *)
Definition finish (outputFolderPath : string) (header DIMS_OUT : list Z)
  : M Status :=
  (if negb (isBartFileBeingStored P) then lift (cleanup outputFolderPath)
   else lift dismiss) ;;;
  match data_dims_Final DIMS_OUT header with
  | None => mstop Aborted
  | Some dims =>
      lift (emit (EvCreateImageArray dims)) ;;;
      mret GADGET_OK
  end.

(** From the construction of [cleanup_guard] (line 853) to line 982. *)
Definition before_finish (rbits : list ReconBit) (outputFolderPath : string)
  : M (list Z * list Z) :=
  mount_workspace (outputFolderPath ++ "/") ;;;
  prepare_input rbits ;;;
  Commands_Line <- run_script ;;
  fetch_output Commands_Line.

(** From the construction of [cleanup_guard] on; the value is what
    [process] returns when no [return] is taken earlier. *)
Definition body (rbits : list ReconBit) (outputFolderPath : string) : M Status :=
  hd <- before_finish rbits outputFolderPath ;;
  finish outputFolderPath (fst hd) (snd hd).

(** [BartGadget::process].  [s0] is the state on entry; the guard is
    constructed once the workspace directory exists, and its destructor
    runs when the function returns. *)
Definition process (rbits : list ReconBit) (s0 : State) : Exit * State :=
  if negb (script_exists E) then
    (Return GADGET_FAIL,
     emit (EvLog (GERROR ("Can't find bart commands script: " ++ CommandScript))) s0)
  else if negb (chmod_res E =? 0) then
    (Return GADGET_FAIL,
     emit (EvLog (GERROR "Error changing the permission of the command script.")) s0)
  else if String.eqb (BartWorkingDirectory_path P) "" then
    (Return GADGET_FAIL,
     emit (EvLog (GERROR "Error: No BART working directory provided!")) s0)
  else
    let outputFolderPath :=
      BartWorkingDirectory_path P ++ "bart_" ++ time_id E ++ "_"
      ++ to_string (threadNumber E) in
    let created :=
      if workspace s0 then Some s0
      else if create_directories_ok E then
        Some (emit (EvLog (GDEBUG ("Folder to store *.hdr & *.cfl files is "
                                   ++ outputFolderPath)))
                (set_workspace true
                   (emit (EvCreateDirectories outputFolderPath true) s0)))
      else None in
    match created with
    | None =>
        (Return GADGET_FAIL,
         emit (EvLog (GERROR "Folder to store *.hdr & *.cfl files doesn't exist..."))
              (emit (EvCreateDirectories outputFolderPath false) s0))
    | Some s1 =>
        let s2 := set_is_active (is_active_indeterminate E) s1 in
        match body rbits outputFolderPath s2 with
        | (Go r, s3) => (Return r, ScopeGuard_dtor outputFolderPath s3)
        | (Stop (Return r), s3) => (Return r, ScopeGuard_dtor outputFolderPath s3)
        | (Stop e, s3) => (e, s3)
        end
    end.

End Gadget.

(* ================================================================== *)
(** * Sample inputs *)

Definition dp0 : Default_parameters :=
  {| recon_matrix_x := 256; recon_matrix_y := 256; recon_matrix_z := 1;
     FOV_x := 300; FOV_y := 300; FOV_z := 6;
     acc_factor_PE1 := 2; acc_factor_PE2 := 1;
     reference_lines_PE1 := 24; reference_lines_PE2 := 0 |}.

Definition is_engine_event (ev : Event) : bool :=
  match ev with EvEngine _ _ _ => true | _ => false end.

Definition engine_calls (tr : list Event) : list Event := filter is_engine_event tr.

(** A stand-in for the engine: every command succeeds, except the one
    with number [fail_at] (counting from 0), which returns 1; a command
    that succeeds leaves a buffer of shape [dims] under the name that
    is its last argument. *)
Definition sample_engine (fail_at : option nat) (dims : list Z)
  : list Event -> Registry -> Z -> list string -> Z * string * Registry :=
  fun tr reg argc argv =>
    let n := List.length (engine_calls tr) in
    if match fail_at with Some k => Nat.eqb k n | None => false end
    then (1, "", reg)
    else match back argv with
         | Some name => (0, "", register_mem_cfl_malloc name 16 dims (EngineBuf n) reg)
         | None => (0, "", reg)
         end.

Definition sample_dims : list Z := [128; 128; 1; 1; 2; 1; 1; 1; 1; 4; 1; 1; 1; 1; 1; 1].

Definition sample_properties (stored : bool) : Properties :=
  {| BartWorkingDirectory_path := "/tmp/gadgetron/";
     AbsoluteBartCommandScript_path := "/usr/local/share/gadgetron/bart";
     BartCommandScript_name := "recon.sh";
     isBartFileBeingStored := stored;
     isBartFolderBeingCachedToVM := false;
     AllocateMemorySizeInMegabytes := 50 |}.

Definition sample_env (active : bool) (script : list string) : Env :=
  {| script_exists := true; chmod_res := 0;
     time_id := "12_00_00__42"; threadNumber := 7;
     create_directories_ok := true;
     is_active_indeterminate := active;
     system_status := 0;
     script_lines := Some script |}.

Definition sample_script : list string :=
  [ "#!/bin/bash";
    "";
    "  bart fft -u 7 input_data kspace   # centred FFT";
    "bart rss 8 kspace ims" ].

Definition sample_rbits : list ReconBit :=
  [ rbit_of 0 [128; 128; 1; 8; 4; 1; 1] [128; 128; 1; 8; 4; 1; 1] ].

Definition initial_state : State :=
  {| registry := []; workspace := false; is_active_ := false; trace := [] |}.

(* ================================================================== *)
(** * Auxiliary definitions used in the statements *)

(** The decimal text of [v] has at most five characters; [all_short n v]
    checks it for the [n] integers from [v] on. *)
Definition short_text (v : Z) : bool :=
  Nat.leb (String.length (to_string v)) 5.

Fixpoint all_short (n : nat) (v : Z) : bool :=
  match n with
  | O => true
  | S n' => short_text v && all_short n' (v + 1)
  end.

(** [n] copies of [s], one after the other. *)
Fixpoint repeat_string (n : nat) (s : string) : string :=
  match n with
  | O => EmptyString
  | S n' => s ++ repeat_string n' s
  end.

(** A command line of 257 arguments. *)
Definition many_args : string := "bart" ++ repeat_string 256 " x".

(** An event other than a registration that hands memory over to the
    registry. *)
Definition gadget_event (ev : Event) : Prop :=
  match ev with
  | EvRegister own _ _ _ => own = NonManaged
  | _ => True
  end.

(** [sat R Q c]: whatever the state [c] starts in, the state it leaves is
    related to it by [R], and an exit it takes satisfies [Q]. *)
Definition sat {A} (R : State -> State -> Prop) (Q : Exit -> Prop) (c : M A) : Prop :=
  forall s, R s (snd (c s)) /\
            match fst (c s) with Stop e => Q e | Go _ => True end.

(** The workspace and the guard are left as they are. *)
Definition same_frame (s s' : State) : Prop :=
  workspace s' = workspace s /\ is_active_ s' = is_active_ s.

(** The trace grows by events of the gadget's own kind. *)
Definition extends_trace (s s' : State) : Prop :=
  exists new, trace s' = (trace s ++ new)%list /\ Forall gadget_event new.

(** [process] gets as far as constructing [cleanup_guard]: the script is
    there, its permissions could be set, a working directory is
    configured and the workspace directory exists or could be created. *)
Definition reaches_guard (P : Properties) (E : Env) (s0 : State) : bool :=
  script_exists E && (chmod_res E =? 0)
  && negb (String.eqb (BartWorkingDirectory_path P) "")
  && (workspace s0 || create_directories_ok E).

(** The path of the workspace directory. *)
Definition workspace_path (P : Properties) (E : Env) : string :=
  BartWorkingDirectory_path P ++ "bart_" ++ time_id E ++ "_"
  ++ to_string (threadNumber E).

(** The state in which [cleanup_guard] is constructed. *)
Definition guarded_state (P : Properties) (E : Env) (s0 : State) : State :=
  set_is_active (is_active_indeterminate E)
    (if workspace s0 then s0
     else emit (EvLog (GDEBUG ("Folder to store *.hdr & *.cfl files is "
                               ++ workspace_path P E)))
            (set_workspace true
               (emit (EvCreateDirectories (workspace_path P E) true) s0))).

(** A call of [process] on the sample message: [stored] is
    [isBartFileBeingStored], [active] what [is_active_] holds when the
    guard is constructed, [fail_at] the command the engine fails on. *)
Definition sample_run (stored active : bool) (fail_at : option nat)
           (script : list string) : Exit * State :=
  process (sample_engine fail_at sample_dims) (sample_properties stored) dp0
          (sample_env active script) sample_rbits initial_state.

(** An exit other than [return GADGET_OK]. *)
Definition not_ok (e : Exit) : Prop := e <> Return GADGET_OK.

(** A message of three reconstruction bits, none with a separate
    reference scan. *)
Definition three_rbits : list ReconBit :=
  [ rbit_of 0 [128; 128; 1; 8; 4; 1; 1] [128; 128; 1; 8; 4; 1; 1];
    rbit_of 1 [128; 128; 1; 8; 4; 1; 1] [128; 128; 1; 8; 4; 1; 1];
    rbit_of 2 [128; 128; 1; 8; 4; 1; 1] [128; 128; 1; 8; 4; 1; 1] ].

(** The dimension counts passed to the registry, in order. *)
Fixpoint registered_D (tr : list Event) : list Z :=
  match tr with
  | [] => []
  | EvRegister _ _ D _ :: tr' => D :: registered_D tr'
  | _ :: tr' => registered_D tr'
  end.

(** Every character of [s] is a space; no character of [s] is. *)
Fixpoint all_spaces (s : string) : bool :=
  match s with
  | EmptyString => true
  | String a s' => Ascii.eqb a " "%char && all_spaces s'
  end.

Fixpoint no_space (s : string) : bool :=
  match s with
  | EmptyString => true
  | String a s' => negb (Ascii.eqb a " "%char) && no_space s'
  end.

(** [name] is the trailing space-delimited token of [line]: a non-empty
    run of characters other than the space that is followed by spaces
    only and is preceded by nothing or by a space. *)
Definition trailing_token (line name : string) : Prop :=
  name <> "" /\ no_space name = true /\
  exists before after,
    line = before ++ name ++ after /\ all_spaces after = true /\
    (before = "" \/ exists b, before = b ++ " ").

(** A line of the script file is a command: it is not skipped. *)
Definition is_command (Line : string) : bool := negb (skipped (crop_comment Line)).

(** The command lines of a script, as they are executed. *)
Definition commands (dp : Default_parameters) (lines : list string) : list string :=
  map (fun Line => fst (replace_default_parameters dp (crop_comment Line)))
      (filter is_command lines).

(** An engine output whose fifth axis, of length 5, holds groups of
    [maps_count = 2]. *)
Definition uneven_DIMS_OUT : list Z := [128; 128; 1; 1; 5; 1; 1; 1; 1; 1; 1; 1; 1; 1; 1; 1].
Definition two_maps_header : list Z := [128; 128; 1; 1; 2; 1; 1; 1; 1; 1; 1; 1; 1; 1; 1; 1].



(** A script without a command line. *)
Definition idle_script : list string :=
  [ "#!/bin/bash"; ""; "# bart fft -u 7 input_data kspace"; "echo done" ].

Definition two_parameters_line : string := "bart $recon_matrix_x $FOV_x out".

(* ================================================================== *)
(** * Further definitions used in the statements *)

(** [c] occurs in [s]. *)
Fixpoint has_char (c : ascii) (s : string) : bool :=
  match s with
  | EmptyString => false
  | String a s' => Ascii.eqb a c || has_char c s'
  end.

(** Every character of [s] is white space for [std::isspace]. *)
Fixpoint all_ws (s : string) : bool :=
  match s with
  | EmptyString => true
  | String a s' => isspace a && all_ws s'
  end.

(** The first, respectively the last, character of [s] is white space. *)
Definition starts_ws (s : string) : bool :=
  match s with
  | EmptyString => false
  | String a _ => isspace a
  end.

Fixpoint ends_ws (s : string) : bool :=
  match s with
  | EmptyString => false
  | String a EmptyString => isspace a
  | String _ s' => ends_ws s'
  end.

(** A token: not empty and without a space. *)
Definition is_token (t : string) : bool :=
  negb (String.eqb t "") && no_space t.

(** The strings of [l] with one space between neighbours. *)
Fixpoint join (l : list string) : string :=
  match l with
  | [] => EmptyString
  | [t] => t
  | t :: l' => t ++ " " ++ join l'
  end.

(** The exit codes of the engine commands of a trace, in order. *)
Fixpoint engine_rets (tr : list Event) : list Z :=
  match tr with
  | [] => []
  | EvEngine _ _ ret :: tr' => ret :: engine_rets tr'
  | _ :: tr' => engine_rets tr'
  end.

(** Every engine command returned zero; every one but the last did. *)
Definition all_succeeded (tr : list Event) : bool :=
  forallb (Z.eqb 0) (engine_rets tr).

Definition only_last_failed (tr : list Event) : bool :=
  forallb (Z.eqb 0) (removelast (engine_rets tr)).

(** [c] stops at the first engine command that fails: while it goes on
    every command has succeeded, and when it stops after a failed
    command, that command is the last one and the exit is
    [return GADGET_FAIL]. *)
Definition fail_fast {A} (c : M A) : Prop :=
  forall s, exists new,
    trace (snd (c s)) = (trace s ++ new)%list /\
    match fst (c s) with
    | Go _ => all_succeeded new = true
    | Stop e => only_last_failed new = true /\
                (all_succeeded new = true \/ e = Return GADGET_FAIL)
    end.

(** [f] adds events to the trace, none of them an engine command. *)
Definition quiet (f : State -> State) : Prop :=
  forall s, exists evs, trace (f s) = (trace s ++ evs)%list /\ engine_rets evs = [].

(** The names under which buffers were registered, in order. *)
Fixpoint registered_names (tr : list Event) : list string :=
  match tr with
  | [] => []
  | EvRegister _ name _ _ :: tr' => name :: registered_names tr'
  | _ :: tr' => registered_names tr'
  end.

(** The script file is missing. *)
Definition absent_script_env : Env :=
  {| script_exists := false; chmod_res := 0;
     time_id := "12_00_00__42"; threadNumber := 7;
     create_directories_ok := true;
     is_active_indeterminate := false;
     system_status := 0;
     script_lines := None |}.

(** The workspace is to be cached in memory, and [mount] fails. *)
Definition cached_properties : Properties :=
  {| BartWorkingDirectory_path := "/tmp/gadgetron/";
     AbsoluteBartCommandScript_path := "/usr/local/share/gadgetron/bart";
     BartCommandScript_name := "recon.sh";
     isBartFileBeingStored := false;
     isBartFolderBeingCachedToVM := true;
     AllocateMemorySizeInMegabytes := 50 |}.

Definition failed_mount_env (active : bool) : Env :=
  {| script_exists := true; chmod_res := 0;
     time_id := "12_00_00__42"; threadNumber := 7;
     create_directories_ok := true;
     is_active_indeterminate := active;
     system_status := 256;
     script_lines := Some sample_script |}.

(** The reference array of [rb] has the shape of its data array. *)
Definition same_shape (rb : ReconBit) : Prop :=
  forall i, (i < 7)%nat -> get_size (ref_ rb) i = get_size (data_ rb) i.

(** A reconstruction bit whose reference scan is a buffer of its own,
    of the shape of the data. *)
Definition separate_reference_rbits : list ReconBit :=
  [ {| ref_ := {| dimensions_ := [128; 128; 1; 8; 1; 1; 1]; data_ptr := RbitRef 5 |};
       data_ := {| dimensions_ := [128; 128; 1; 8; 1; 1; 1]; data_ptr := RbitData 0 |} |} ].

(** [k] numbers from [n] on, in steps of [h]. *)
Fixpoint multiples (k : nat) (n h : Z) : list Z :=
  match k with
  | O => []
  | S k' => n :: multiples k' (n + h) h
  end.

(** A result whose fifth axis is longer than a 16-bit counter can count. *)
Definition long_DIMS_OUT : list Z :=
  [128; 128; 1; 1; 65536; 1; 1; 1; 1; 1; 1; 1; 1; 1; 1; 1].

(* ================================================================== *)
(** * Header files: [write_BART_hdr] and [read_BART_hdr] *)

(** The files there are: the text of each file that can be opened for
    reading. *)
Definition Files : Type := string -> option string.

Definition store (path text : string) (fs : Files) : Files :=
  fun p => if String.eqb p path then Some text else fs p.

Definition nl : ascii := "010"%char.

Definition MAX_DIMS : Z := 16.

(** [std::copy(v.cbegin(), v.cend(), std::ostream_iterator<size_t>(pFile, " "))]:
    every entry is followed by a space. *)
Fixpoint stream_items (v : list Z) : string :=
  match v with
  | [] => ""
  | d :: v' => to_string d ++ " " ++ stream_items v'
  end.

(** [write_BART_hdr]: [writable] tells which files can be opened for
    writing.  [None] is the failure of [assert(DIMS.size() < MAX_DIMS)].
    When the file cannot be opened the error is logged and nothing is
    written; the second argument of that [GERROR] is a [std::string]
    passed through an ellipsis, so only the format is kept here. *)
Definition write_BART_hdr (writable : string -> bool) (filename : string)
           (DIMS : list Z) (fs : Files) : option (Files * list LogMsg) :=
  if Z.of_nat (List.length DIMS) <? MAX_DIMS then
    let v := (map to_size_t DIMS
              ++ repeat 1 (Z.to_nat MAX_DIMS - List.length DIMS))%list in
    if writable (filename ++ ".hdr") then
      Some (store (filename ++ ".hdr")
                  ("# Dimensions" ++ String nl "" ++ stream_items v) fs, [])
    else Some (fs, [GERROR "Failed to write into header file: %s"])
  else None.

(** [while (std::getline(in, line, delim))]: the pieces of [s] that end
    at a delimiter, and what follows the last delimiter unless it is
    empty.  [line] is what has been read of the current piece. *)
Fixpoint getline_loop (delim : ascii) (s line : string) : list string :=
  match s with
  | EmptyString => if String.eqb line "" then [] else [line]
  | String c s' =>
      if Ascii.eqb c delim then line :: getline_loop delim s' ""
      else getline_loop delim s' (line ++ String c "")
  end.

Definition getlines (delim : ascii) (s : string) : list string :=
  getline_loop delim s "".

Definition isdigit (a : ascii) : bool :=
  let n := nat_of_ascii a in (Nat.leb 48 n && Nat.leb n 57)%bool.

(** The longest run of decimal digits at the start of [s]. *)
Fixpoint digits (s : string) : string :=
  match s with
  | EmptyString => EmptyString
  | String c s' => if isdigit c then String c (digits s') else EmptyString
  end.

Definition read_sign (s : string) : bool * string :=
  match s with
  | EmptyString => (false, s)
  | String c s' =>
      if Ascii.eqb c "-" then (true, s')
      else if Ascii.eqb c "+" then (false, s')
      else (false, s)
  end.

Inductive Thrown := invalid_argument | out_of_range.

(** [std::stoi(str)], which is [strtol] in base 10 followed by a range
    check: white space is skipped, a sign is read, then the longest run
    of digits; what follows the digits is ignored.  Without a digit
    [std::invalid_argument] is thrown, and [std::out_of_range] when the
    value is not an [int]. *)
Definition stoi (str : string) : Thrown + Z :=
  let '(negative, s) := read_sign (ltrim str) in
  match NilZero.uint_of_string (digits s) with
  | None => inl invalid_argument
  | Some d =>
      let v := if negative then - Z.of_uint d else Z.of_uint d in
      if ((- 2 ^ 31 <=? v) && (v <? 2 ^ 31))%bool then inr v else inl out_of_range
  end.

(** How a call ends that may throw or index a vector out of range. *)
Inductive Outcome (A : Type) :=
| Returns (a : A)
| Throws (t : Thrown)
| OutOfRange.
Arguments Returns {A} a.
Arguments Throws {A} t.
Arguments OutOfRange {A}.

(** [while (getline(ss, items, ' ')) DIMS.push_back(std::stoi(items));]
    the [int] that [stoi] returns becomes a [size_t]. *)
Fixpoint parse_items (items : list string) (DIMS : list Z) : Outcome (list Z) :=
  match items with
  | [] => Returns DIMS
  | item :: rest =>
      match stoi item with
      | inr v => parse_items rest (DIMS ++ [to_size_t v])
      | inl t => Throws t
      end
  end.

(** [read_BART_hdr]: the dimensions are read from the second line of
    the file, [tokens[1]], whether or not there is one. *)
Definition read_BART_hdr (fs : Files) (filename : string)
  : Outcome (list Z) * list LogMsg :=
  match fs (filename ++ ".hdr") with
  | Some text =>
      let tokens := getlines nl text in
      match nth_error tokens 1 with
      | Some line => (parse_items (getlines " " line) [], [])
      | None => (OutOfRange, [])
      end
  | None => (Returns [], [GERROR ("Failed to header of file: " ++ filename)])
  end.

(** Every character of [s] is a decimal digit. *)
Fixpoint all_digits (s : string) : bool :=
  match s with
  | EmptyString => true
  | String c s' => (isdigit c && all_digits s')%bool
  end.

(** No file at all, and every file writable. *)
Definition no_files : Files := fun _ => None.
Definition all_writable : string -> bool := fun _ => true.

(** The trailing token in the words of the specification, white space
    being what [std::isspace] accepts: [name] is a non-empty run of
    characters other than white space that is followed by white space
    only and is preceded by nothing or by a white-space character. *)
Fixpoint no_whitespace (s : string) : bool :=
  match s with
  | EmptyString => true
  | String a s' => negb (isspace a) && no_whitespace s'
  end.

Definition trailing_whitespace_token (line name : string) : Prop :=
  name <> "" /\ no_whitespace name = true /\
  exists before after,
    line = before ++ name ++ after /\ all_ws after = true /\
    (before = "" \/ exists b c, before = b ++ String c "" /\ isspace c = true).

(** A script whose last command has a tabulator before its last word. *)
Definition tab : ascii := "009"%char.
Definition tab_line : string := "bart rss 8 kspace" ++ String tab "ims".
Definition tab_name : string := "kspace" ++ String tab "ims".
Definition tab_script : list string :=
  [ "bart fft -u 7 input_data kspace"; tab_line ].

(** The registry is released or the workspace removed. *)
Definition release_event (ev : Event) : bool :=
  match ev with
  | EvDeallocateAll _ => true
  | EvRemoveAll _ => true
  | _ => false
  end.

(* ================================================================== *)
(** * Facts about the string primitives *)

Module StdStringFacts.
Import StdString.

Lemma length_app (s t : string) :
  String.length (s ++ t) = (String.length s + String.length t)%nat.
Proof. induction s as [|a s IH]; simpl; [reflexivity | now rewrite IH]. Qed.

Lemma length_take (n : nat) (s : string) :
  String.length (take n s) = Nat.min n (String.length s).
Proof.
  revert s; induction n as [|n IH]; intros [|a s]; simpl; auto.
Qed.

Lemma length_drop (n : nat) (s : string) :
  String.length (drop n s) = (String.length s - n)%nat.
Proof.
  revert s; induction n as [|n IH]; intros [|a s]; simpl; auto.
Qed.

Lemma get_drop (n k : nat) (s : string) :
  String.get k (drop n s) = String.get (n + k) s.
Proof.
  revert s; induction n as [|n IH]; intros [|a s]; simpl; auto.
Qed.

Lemma size_nonneg (s : string) : 0 <= size s.
Proof. unfold size; lia. Qed.

Lemma find_first_range (c : ascii) (s : string) (off r : Z) :
  find_first c s off = r -> r <> npos -> off <= r < off + size s.
Proof.
  revert off; induction s as [|a s IH]; simpl; intros off Hr Hn.
  - congruence.
  - unfold size in *; simpl String.length.
    destruct (Ascii.eqb a c).
    + lia.
    + specialize (IH _ Hr Hn). lia.
Qed.

Lemma find_first_char (c : ascii) (s : string) (off r : Z) :
  find_first c s off = r -> r <> npos ->
  String.get (Z.to_nat (r - off)) s = Some c.
Proof.
  revert off; induction s as [|a s IH]; simpl; intros off Hr Hn.
  - congruence.
  - destruct (Ascii.eqb_spec a c) as [->|Hac].
    + subst r. now rewrite Z.sub_diag.
    + pose proof (find_first_range _ _ _ _ Hr Hn) as Hrange.
      specialize (IH _ Hr Hn).
      replace (Z.to_nat (r - off)) with (S (Z.to_nat (r - (off + 1)))) by lia.
      exact IH.
Qed.

Lemma find_range (s : string) (c : ascii) (pos r : Z) :
  0 <= pos -> find s c pos = r -> r <> npos -> pos <= r < size s.
Proof.
  unfold find; intros Hpos Hr Hn.
  destruct (Z.leb_spec (size s) pos) as [Hle|Hlt]; [congruence|].
  pose proof (find_first_range _ _ _ _ Hr Hn) as H.
  unfold size in *. rewrite length_drop in H. lia.
Qed.

Lemma find_char (s : string) (c : ascii) (pos r : Z) :
  0 <= pos -> find s c pos = r -> r <> npos ->
  String.get (Z.to_nat r) s = Some c.
Proof.
  intros Hpos Hr Hn.
  pose proof (find_range _ _ _ _ Hpos Hr Hn) as Hrange.
  unfold find in Hr.
  destruct (Z.leb_spec (size s) pos) as [Hle|Hlt]; [congruence|].
  pose proof (find_first_char _ _ _ _ Hr Hn) as H.
  rewrite get_drop in H.
  replace (Z.to_nat pos + Z.to_nat (r - pos))%nat with (Z.to_nat r) in H by lia.
  exact H.
Qed.

Lemma find_past_end (s : string) (c : ascii) (pos : Z) :
  size s <= pos -> find s c pos = npos.
Proof.
  unfold find; intros H.
  destruct (Z.leb_spec (size s) pos); [reflexivity | lia].
Qed.

End StdStringFacts.


(* ================================================================== *)
(** * The substitution loop terminates *)

Module SubstitutionFacts.
Import StdString StdStringFacts.

Lemma all_short_spec (n : nat) (v k : Z) :
  all_short n v = true -> v <= k < v + Z.of_nat n -> short_text k = true.
Proof.
  revert v; induction n as [|n IH]; simpl all_short; intros v H Hk.
  - lia.
  - apply andb_prop in H. destruct H as [H1 H2].
    destruct (Z.eq_dec k v) as [->|Hne]; [exact H1|].
    apply (IH (v + 1)); [exact H2 | lia].
Qed.

Lemma u16_texts_short : all_short (Z.to_nat 65536) 0 = true.
Proof. vm_compute. reflexivity. Qed.

(** The text of a [uint16_t] is shorter than any [$name] token. *)
Lemma to_string_u16_length (v : Z) :
  0 <= v < 2 ^ 16 -> (String.length (to_string v) <= 5)%nat.
Proof.
  intros Hv.
  apply Nat.leb_le.
  apply (all_short_spec _ _ _ u16_texts_short).
  rewrite Z2Nat.id by lia. change (2 ^ 16) with 65536 in Hv. lia.
Qed.

Lemma default_parameter_some (dp : Default_parameters) (tmp : string) (v : Z) :
  default_parameter dp tmp = Some v ->
  (5 <= String.length tmp)%nat /\ 0 <= v < 2 ^ 16.
Proof.
  unfold default_parameter.
  repeat match goal with
         | |- context [String.eqb tmp ?n] =>
             destruct (String.eqb_spec tmp n) as [->|_]
         end;
    intros H; inversion H; subst; clear H;
    (split; [simpl; lia | unfold to_u16; apply Z.mod_pos_bound; lia]).
Qed.

Lemma size_substr (s : string) (pos n : Z) :
  0 <= pos <= size s -> 0 <= n ->
  size (substr s pos n) = Z.min n (size s - pos).
Proof.
  intros Hpos Hn. unfold substr, size in *.
  rewrite length_take, length_drop. lia.
Qed.

Lemma size_erase_head (s : string) :
  size (erase s 0 1) = Z.max 0 (size s - 1).
Proof.
  unfold erase, size. rewrite length_app, length_take, length_drop.
  lia.
Qed.

Lemma size_replace (s : string) (pos n : Z) (t : string) :
  0 <= pos <= size s -> 0 <= n ->
  size (replace s pos n t) = size s - Z.min n (size s - pos) + size t.
Proof.
  intros Hpos Hn. unfold replace, size in *.
  rewrite !length_app, length_take, length_drop. lia.
Qed.

(** One iteration started at a ['$'] moves [pos] forward by more than
    the string may have shrunk. *)
Lemma replace_step_progress (dp : Default_parameters) (str : string) (p : Z)
      (str' : string) (pos_end : Z) (msgs : list LogMsg) :
  size str <= npos -> 0 <= p < size str ->
  String.get (Z.to_nat p) str = Some "$"%char ->
  replace_step dp str p = (str', pos_end, msgs) ->
  size str' <= npos /\ 0 <= pos_end /\
  (pos_end = npos \/ size str' - pos_end < size str - p).
Proof.
  intros Hsize Hp Hget. unfold replace_step.
  remember (find str " "%char p) as q eqn:Hq. symmetry in Hq.
  assert (Hqr : q = npos \/ p < q < size str).
  { destruct (Z.eq_dec q npos) as [?|Hn]; [now left | right].
    pose proof (find_range _ _ _ _ (proj1 Hp) Hq Hn) as Hr.
    pose proof (find_char _ _ _ _ (proj1 Hp) Hq Hn) as Hc.
    destruct (Z.eq_dec q p) as [->|?]; [|lia].
    rewrite Hget in Hc. discriminate. }
  assert (Hnpos : npos = 2 ^ 64 - 1) by reflexivity.
  set (pos_diff := (q - p) mod 2 ^ 64).
  assert (Hdiff : 0 <= pos_diff /\
                  Z.min pos_diff (size str - p) = (if Z.eq_dec q npos then size str - p else q - p)).
  { subst pos_diff. destruct (Z.eq_dec q npos) as [->|Hn].
    - rewrite Z.mod_small by lia. lia.
    - destruct Hqr as [?|Hqr]; [contradiction|].
      rewrite Z.mod_small by lia. lia. }
  destruct Hdiff as [Hdiff0 Hmin].
  destruct (default_parameter dp _) as [v|] eqn:Hdp; intros Heq;
    inversion Heq; subst str' pos_end msgs; clear Heq.
  - apply default_parameter_some in Hdp. destruct Hdp as [Hlen Hv].
    apply to_string_u16_length in Hv.
    assert (Htmp : 5 <= size (erase (substr str p pos_diff) 0 1)) by (unfold size; lia).
    rewrite size_erase_head, size_substr, Hmin in Htmp by lia.
    rewrite size_replace, Hmin by lia.
    assert (Hsv : size (to_string v) <= 5) by (unfold size; lia).
    destruct (Z.eq_dec q npos) as [->|Hn].
    + split; [lia|]. split; [lia|]. now left.
    + destruct Hqr as [?|Hqr]; [contradiction|].
      split; [lia|]. split; [lia|]. right. lia.
  - split; [lia|].
    destruct Hqr as [->|Hqr]; [split; [lia | now left]|].
    split; [lia|]. right. lia.
Qed.

(** The loop over a string of [n] characters ends within [n]
    iterations after the one that finds no ['$']. *)
Lemma replace_loop_total (dp : Default_parameters) (fuel : nat) :
  forall (str : string) (pos : Z) (log : list LogMsg),
    size str <= npos -> 0 <= pos ->
    (Z.to_nat (size str - pos) < fuel)%nat ->
    exists r, replace_loop fuel dp str pos log = Some r.
Proof.
  induction fuel as [|fuel IH]; intros str pos log Hsize Hpos Hfuel; [lia|].
  simpl replace_loop. cbv zeta.
  remember (find str "$"%char pos) as p eqn:Hp. symmetry in Hp.
  destruct (Z.eqb_spec p npos) as [_|Hn]; [eexists; reflexivity|].
  pose proof (find_range _ _ _ _ Hpos Hp Hn) as Hr.
  pose proof (find_char _ _ _ _ Hpos Hp Hn) as Hc.
  destruct (replace_step dp str p) as [[str' pos_end] msgs] eqn:Hstep.
  destruct (replace_step_progress _ _ _ _ _ _ Hsize (conj (Z.le_trans _ _ _ Hpos (proj1 Hr)) (proj2 Hr)) Hc Hstep)
    as (Hs' & Hpe & Hdec).
  apply IH; [exact Hs' | exact Hpe |].
  destruct Hdec as [->|Hdec]; lia.
Qed.

Lemma replace_default_parameters_total (dp : Default_parameters) (str : string) :
  size str <= npos ->
  replace_loop (replace_fuel str) dp str 0 [] = Some (replace_default_parameters dp str).
Proof.
  intros Hsize. unfold replace_default_parameters.
  destruct (replace_loop_total dp (replace_fuel str) str 0 [] Hsize (Z.le_refl 0)) as [r Hr].
  - unfold replace_fuel, size. lia.
  - now rewrite Hr.
Qed.

End SubstitutionFacts.

(* ================================================================== *)
(** * Tokenisation *)

Module TokenFacts.

Lemma argv_loop_spec (pending : list string) :
  forall (argc : Z) (argv : list string),
    argv_loop pending argc argv =
      (argc + Z.of_nat (List.length (firstn (Z.to_nat (MAX_ARGS - 1 - argc)) pending)),
       (argv ++ firstn (Z.to_nat (MAX_ARGS - 1 - argc)) pending)%list).
Proof.
  induction pending as [|p2 rest IH]; intros argc argv.
  - simpl argv_loop. rewrite firstn_nil, app_nil_r. simpl List.length.
    now rewrite Z.add_0_r.
  - change (argv_loop (p2 :: rest) argc argv)
      with (if argc <? MAX_ARGS - 1
            then argv_loop rest (argc + 1) (argv ++ [p2]) else (argc, argv)).
    destruct (Z.ltb_spec argc (MAX_ARGS - 1)) as [Hlt|Hge].
    + rewrite IH.
      replace (Z.to_nat (MAX_ARGS - 1 - argc))
        with (S (Z.to_nat (MAX_ARGS - 1 - (argc + 1)))) by lia.
      rewrite firstn_cons, <- app_assoc. simpl List.length.
      f_equal. lia.
    + replace (Z.to_nat (MAX_ARGS - 1 - argc)) with 0%nat by lia.
      rewrite firstn_O, app_nil_r. simpl List.length.
      now rewrite Z.add_0_r.
Qed.

Lemma tokenize_spec (cmdline : string) :
  tokenize cmdline =
    (Z.of_nat (List.length (firstn (Z.to_nat (MAX_ARGS - 1)) (tokens (c_str cmdline)))),
     firstn (Z.to_nat (MAX_ARGS - 1)) (tokens (c_str cmdline))).
Proof.
  unfold tokenize. rewrite argv_loop_spec.
  now rewrite Z.sub_0_r, Z.add_0_l, app_nil_l.
Qed.

End TokenFacts.

(* ================================================================== *)
(** * Reasoning about the statements of [process] *)

Module GadgetFacts.

Section Invariant.

Variable engine :
  list Event -> Registry -> Z -> list string -> Z * string * Registry.
Variable P : Properties.
Variable dp : Default_parameters.
Variable E : Env.

Variable R : State -> State -> Prop.
Variable Q : Exit -> Prop.
Hypothesis R_refl : forall s, R s s.
Hypothesis R_trans : forall s1 s2 s3, R s1 s2 -> R s2 s3 -> R s1 s3.
Hypothesis R_emit : forall s ev, gadget_event ev -> R s (emit ev s).
Hypothesis R_set_registry : forall s reg, R s (set_registry reg s).
Hypothesis Q_fail : Q (Return GADGET_FAIL).
Hypothesis Q_undefined : Q Undefined.

Lemma sat_mret {A} (a : A) : sat R Q (mret a).
Proof. intros s; simpl; auto. Qed.

Lemma sat_mstop {A} (e : Exit) : Q e -> sat R Q (@mstop A e).
Proof. intros He s; simpl; auto. Qed.

Lemma sat_bind {A B} (c : M A) (k : A -> M B) :
  sat R Q c -> (forall a, sat R Q (k a)) -> sat R Q (bind c k).
Proof.
  intros Hc Hk s. unfold bind.
  destruct (Hc s) as [HR HQ].
  destruct (c s) as [[a|e] s1]; simpl in *.
  - destruct (Hk a s1) as [HR' HQ']. split; [eauto | exact HQ'].
  - auto.
Qed.

Lemma sat_get_state : sat R Q get_state.
Proof. intros s; simpl; auto. Qed.

Lemma sat_lift (f : State -> State) : (forall s, R s (f s)) -> sat R Q (lift f).
Proof. intros Hf s; simpl; auto. Qed.

Lemma sat_emit (ev : Event) : gadget_event ev -> sat R Q (lift (emit ev)).
Proof. intros Hev. apply sat_lift. auto. Qed.

Lemma sat_log (m : LogMsg) : sat R Q (log m).
Proof. apply sat_emit. exact I. Qed.

Lemma sat_index (v : list Z) (i : nat) : sat R Q (index v i).
Proof.
  unfold index. destruct (nth_error v i); [apply sat_mret | now apply sat_mstop].
Qed.

Ltac sat_step :=
  first
    [ apply sat_mret
    | apply sat_mstop; assumption
    | apply sat_get_state
    | apply sat_log
    | apply sat_index
    | apply sat_emit; exact I
    | apply sat_bind; [| intros ?]
    | match goal with
      | |- sat _ _ (if ?b then _ else _) => destruct b
      | |- sat _ _ (match ?x with _ => _ end) => destruct x
      end ].

Lemma sat_call_BART (cmdline : string) : sat R Q (call_BART engine cmdline).
Proof.
  unfold call_BART.
  repeat sat_step.
  apply sat_lift. intros st.
  eapply R_trans; [| apply R_set_registry]. apply R_emit. exact I.
Qed.

Lemma sat_call_or_fail (cmdline : string) : sat R Q (call_or_fail engine cmdline).
Proof.
  unfold call_or_fail. apply sat_bind; [apply sat_call_BART | intros ?].
  repeat sat_step.
Qed.

Lemma sat_register_non_managed (name : string) (D : Z) (dims : list Z) (ptr : Ptr) :
  sat R Q (register_non_managed name D dims ptr).
Proof.
  apply sat_lift. intros s.
  eapply R_trans; [| apply R_set_registry]. apply R_emit. reflexivity.
Qed.

Lemma sat_register_loop (rbits : list ReconBit) :
  forall DIMS_ref DIMS, sat R Q (register_loop rbits DIMS_ref DIMS).
Proof.
  induction rbits as [|recon_bit rest IH]; intros DIMS_ref DIMS; simpl register_loop.
  - apply sat_mret.
  - cbv zeta.
    apply sat_bind; [| intros ?].
    + destruct (negb _); [apply sat_register_non_managed | apply sat_mret].
    + apply sat_bind; [apply sat_register_non_managed | intros ?]. apply IH.
Qed.

Lemma sat_mount_workspace (folder : string) : sat R Q (mount_workspace P E folder).
Proof. unfold mount_workspace. repeat sat_step. Qed.

Lemma sat_prepare_input (rbits : list ReconBit) :
  sat R Q (prepare_input engine rbits).
Proof.
  unfold prepare_input.
  apply sat_bind; [apply sat_register_loop | intros [DIMS_ref DIMS]].
  repeat first [ apply sat_call_or_fail | sat_step ].
Qed.

Lemma sat_logs (msgs : list LogMsg) : sat R Q (logs msgs).
Proof. induction msgs; simpl logs; repeat sat_step. exact IHmsgs. Qed.

Lemma sat_script_loop (lines : list string) :
  forall Commands_Line, sat R Q (script_loop engine dp lines Commands_Line).
Proof.
  induction lines as [|Line rest IH]; intros Commands_Line; simpl script_loop.
  - apply sat_mret.
  - cbv zeta. destruct (skipped _); [apply IH|].
    destruct (replace_default_parameters dp _) as [Line' msgs].
    repeat first [ apply sat_call_or_fail | apply sat_logs | apply IH | sat_step ].
Qed.

Lemma sat_run_script : sat R Q (run_script engine P dp E).
Proof.
  unfold run_script. destruct (script_lines E).
  - apply sat_script_loop.
  - repeat sat_step.
Qed.

Lemma sat_load (name : string) (D : Z) (dimensions : list Z) :
  sat R Q (load name D dimensions).
Proof. unfold load. repeat sat_step. Qed.

Lemma sat_reshape_output (outputFile : string) (header : list Z) :
  sat R Q (reshape_output engine outputFile header).
Proof.
  unfold reshape_output. cbv zeta.
  apply sat_bind; [apply sat_call_or_fail | intros _].
  apply sat_bind; [apply sat_load | intros [data DIMS_OUT]].
  destruct data; repeat sat_step.
Qed.

Lemma sat_fetch_output (Commands_Line : string) :
  sat R Q (fetch_output engine Commands_Line).
Proof.
  unfold fetch_output.
  apply sat_bind; [destruct (get_output_filename Commands_Line); repeat sat_step
                  | intros outputFile].
  apply sat_bind; [apply sat_load | intros hd].
  apply sat_reshape_output.
Qed.

(** Everything between the construction of the guard and the statements
    that remove the workspace or dismiss the guard. *)
Lemma sat_before_finish (rbits : list ReconBit) (outputFolderPath : string) :
  sat R Q (before_finish engine P dp E rbits outputFolderPath).
Proof.
  unfold before_finish.
  repeat first [ apply sat_mount_workspace | apply sat_prepare_input
               | apply sat_run_script | apply sat_fetch_output
               | apply sat_bind; [| intros ?] ].
Qed.

End Invariant.

End GadgetFacts.

(* ================================================================== *)
(** * Cleanup on the exit paths of [process] *)

Module CleanupFacts.
Import GadgetFacts.

Lemma same_frame_refl (s : State) : same_frame s s.
Proof. split; reflexivity. Qed.

Lemma same_frame_trans (s1 s2 s3 : State) :
  same_frame s1 s2 -> same_frame s2 s3 -> same_frame s1 s3.
Proof. unfold same_frame; intros [? ?] [? ?]; split; congruence. Qed.

Lemma same_frame_emit (s : State) (ev : Event) :
  gadget_event ev -> same_frame s (emit ev s).
Proof. split; reflexivity. Qed.

Lemma same_frame_set_registry (s : State) (reg : Registry) :
  same_frame s (set_registry reg s).
Proof. split; reflexivity. Qed.

Section Process.

Variable engine :
  list Event -> Registry -> Z -> list string -> Z * string * Registry.
Variable P : Properties.
Variable dp : Default_parameters.
Variable E : Env.

(** Up to line 982 nothing touches the workspace or the guard, and the
    only [return]s are failures. *)
Lemma before_finish_frame (rbits : list ReconBit) (path : string) :
  sat same_frame not_ok (before_finish engine P dp E rbits path).
Proof.
  apply sat_before_finish;
    auto using same_frame_refl, same_frame_emit, same_frame_set_registry;
    try discriminate.
  exact same_frame_trans.
Qed.

Lemma dtor_registry (p_ : string) (s : State) :
  registry (ScopeGuard_dtor p_ s) = [].
Proof. unfold ScopeGuard_dtor. destruct (is_active_ s); reflexivity. Qed.

Lemma dtor_trace (p_ : string) (s : State) :
  exists tr freed, trace (ScopeGuard_dtor p_ s) = (tr ++ [EvDeallocateAll freed])%list.
Proof.
  unfold ScopeGuard_dtor. destruct (is_active_ s); simpl; eauto.
Qed.

Lemma dtor_workspace (p_ : string) (s : State) :
  workspace (ScopeGuard_dtor p_ s) = if is_active_ s then false else workspace s.
Proof. unfold ScopeGuard_dtor. destruct (is_active_ s); reflexivity. Qed.

(** Once the guard exists, [process] is its body followed, on a
    [return], by the destructor of the guard. *)
Lemma process_guarded (rbits : list ReconBit) (s0 : State) :
  reaches_guard P E s0 = true ->
  process engine P dp E rbits s0 =
    match body engine P dp E rbits (workspace_path P E) (guarded_state P E s0) with
    | (Go r, s3) => (Return r, ScopeGuard_dtor (workspace_path P E) s3)
    | (Stop (Return r), s3) => (Return r, ScopeGuard_dtor (workspace_path P E) s3)
    | (Stop e, s3) => (e, s3)
    end.
Proof.
  unfold reaches_guard, process, guarded_state, workspace_path.
  intros H.
  apply andb_prop in H. destruct H as [H Hdir].
  apply andb_prop in H. destruct H as [H Hwd].
  apply andb_prop in H. destruct H as [Hscript Hchmod].
  rewrite Hscript, Hchmod. simpl negb. cbv iota.
  destruct (String.eqb (BartWorkingDirectory_path P) ""); [discriminate|].
  destruct (workspace s0); [reflexivity|].
  simpl in Hdir. rewrite Hdir. reflexivity.
Qed.

(** A call that does not get as far as the guard returns [GADGET_FAIL]
    and leaves the registry and the workspace as they were. *)
Lemma early_return_keeps_registry (rbits : list ReconBit) (s0 : State) :
  reaches_guard P E s0 = false ->
  fst (process engine P dp E rbits s0) = Return GADGET_FAIL /\
  registry (snd (process engine P dp E rbits s0)) = registry s0 /\
  workspace (snd (process engine P dp E rbits s0)) = workspace s0.
Proof.
  unfold reaches_guard, process. intros H.
  destruct (script_exists E); simpl negb; cbv iota; [| now repeat split].
  destruct (chmod_res E =? 0); simpl negb; cbv iota; [| now repeat split].
  destruct (String.eqb (BartWorkingDirectory_path P) ""); [now repeat split |].
  simpl in H. apply orb_false_elim in H. destruct H as [Hw Hc].
  rewrite Hw, Hc. simpl. now rewrite Hw.
Qed.

Lemma guarded_state_workspace (s0 : State) :
  reaches_guard P E s0 = true -> workspace (guarded_state P E s0) = true.
Proof.
  unfold guarded_state. intros _.
  destruct (workspace s0) eqn:Hw; simpl; auto.
Qed.

(** What [body] leaves when it runs to its end. *)
Lemma body_go (rbits : list ReconBit) (path : string) (s2 s3 : State) (r : Status) :
  body engine P dp E rbits path s2 = (Go r, s3) ->
  r = GADGET_OK /\
  if isBartFileBeingStored P
  then is_active_ s3 = false /\ workspace s3 = workspace s2
  else workspace s3 = false.
Proof.
  unfold body, bind.
  destruct (before_finish_frame rbits path s2) as [[Hw Ha] _].
  destruct (before_finish engine P dp E rbits path s2) as [[hd|e] s2'];
    simpl in Hw, Ha; [|discriminate].
  unfold finish, bind, lift.
  destruct (isBartFileBeingStored P); simpl negb; cbv iota;
    destruct (data_dims_Final (snd hd) (fst hd)); simpl;
    intros H; inversion H; subst; simpl; auto.
Qed.

Lemma body_stop (rbits : list ReconBit) (path : string) (s2 s3 : State) (e : Exit) :
  body engine P dp E rbits path s2 = (Stop e, s3) -> e <> Return GADGET_OK.
Proof.
  unfold body, bind.
  destruct (before_finish_frame rbits path s2) as [_ HQ].
  destruct (before_finish engine P dp E rbits path s2) as [[hd|e'] s2'];
    simpl in HQ.
  - unfold finish, bind, lift.
    destruct (isBartFileBeingStored P); simpl negb; cbv iota;
      destruct (data_dims_Final (snd hd) (fst hd)); simpl;
      intros H; inversion H; discriminate.
  - intros H; inversion H; subst. exact HQ.
Qed.

End Process.

End CleanupFacts.

(** C1 (as amended): in every call of [process] that gets as far as
    constructing the scope guard, that is, once the workspace directory
    exists, every [return] is followed by [deallocate_all_mem_cfl], which
    leaves the registry empty; and when the call returns [GADGET_OK] the
    workspace directory is gone unless [isBartFileBeingStored] is set, in
    which case it is still there. *)
Theorem C1_flush_on_every_return
        (engine : list Event -> Registry -> Z -> list string -> Z * string * Registry)
        (P : Properties) (dp : Default_parameters) (E : Env)
        (rbits : list ReconBit) (s0 : State) (r : Status) (s' : State) :
  reaches_guard P E s0 = true ->
  process engine P dp E rbits s0 = (Return r, s') ->
  registry s' = [] /\
  (exists tr freed, trace s' = (tr ++ [EvDeallocateAll freed])%list) /\
  (r = GADGET_OK -> workspace s' = isBartFileBeingStored P).
Proof.
  intros Hg Hp.
  rewrite (CleanupFacts.process_guarded engine P dp E rbits s0 Hg) in Hp.
  pose proof (CleanupFacts.guarded_state_workspace P E s0 Hg) as Hw.
  destruct (body engine P dp E rbits (workspace_path P E) (guarded_state P E s0))
    as [[r0|e] s3] eqn:Hb.
  - inversion Hp; subst r0 s'; clear Hp.
    split; [apply CleanupFacts.dtor_registry|].
    split; [apply CleanupFacts.dtor_trace|].
    intros _. rewrite CleanupFacts.dtor_workspace.
    apply CleanupFacts.body_go in Hb. destruct Hb as [_ Hb].
    destruct (isBartFileBeingStored P).
    + destruct Hb as [Ha Hws]. rewrite Ha. congruence.
    + rewrite Hb. destruct (is_active_ s3); reflexivity.
  - pose proof (CleanupFacts.body_stop _ _ _ _ _ _ _ _ _ Hb) as Hne.
    destruct e as [r0| |]; try discriminate.
    inversion Hp; subst r0 s'; clear Hp.
    split; [apply CleanupFacts.dtor_registry|].
    split; [apply CleanupFacts.dtor_trace|].
    intros ->. contradiction.
Qed.

Lemma C1_flush_on_every_return_witness :
  registry (snd (sample_run false true None sample_script)) = [] /\
  (exists tr freed,
      trace (snd (sample_run false true None sample_script))
      = (tr ++ [EvDeallocateAll freed])%list) /\
  (GADGET_OK = GADGET_OK ->
   workspace (snd (sample_run false true None sample_script)) = false).
Proof.
  apply (C1_flush_on_every_return
           (sample_engine None sample_dims) (sample_properties false) dp0
           (sample_env true sample_script) sample_rbits initial_state).
  - reflexivity.
  - vm_compute. reflexivity.
Defined.

(** C1 fails as stated, whatever the uninitialised [is_active_] holds: if
    it holds [true], a failed engine command removes the workspace
    although [isBartFileBeingStored] asks for it to be kept; if it holds
    [false], a failed engine command leaves the workspace in place
    although nothing asks for it to be kept. *)
Lemma C1_counterexample :
  (fst (sample_run true true (Some 1%nat) sample_script) = Return GADGET_FAIL /\
   workspace (snd (sample_run true true (Some 1%nat) sample_script)) = false) /\
  (fst (sample_run false false (Some 1%nat) sample_script) = Return GADGET_FAIL /\
   workspace (snd (sample_run false false (Some 1%nat) sample_script)) = true).
Proof. vm_compute. repeat split. Qed.

(* ================================================================== *)
(** * Failure of an engine command *)

Module FailFastFacts.
Import GadgetFacts CleanupFacts.

Section Script.

Variable engine :
  list Event -> Registry -> Z -> list string -> Z * string * Registry.
Variable P : Properties.
Variable dp : Default_parameters.
Variable E : Env.

Lemma bind_assoc {A B C} (c : M A) (k : A -> M B) (h : B -> M C) (s : State) :
  bind (bind c k) h s = bind c (fun a => bind (k a) h) s.
Proof. unfold bind. destruct (c s) as [[a|e] s1]; reflexivity. Qed.

Lemma bind_ext {A B} (c : M A) (k k' : A -> M B) (s : State) :
  (forall a s1, k a s1 = k' a s1) -> bind c k s = bind c k' s.
Proof. intros H. unfold bind. destruct (c s) as [[a|e] s1]; auto. Qed.

(** Running a script is running its first part and then, from the
    [Commands_Line] and the state this leaves, the rest. *)
Lemma script_loop_app (l1 l2 : list string) :
  forall (Commands_Line : string) (s : State),
    script_loop engine dp (l1 ++ l2) Commands_Line s =
    bind (script_loop engine dp l1 Commands_Line) (script_loop engine dp l2) s.
Proof.
  induction l1 as [|Line rest IH]; intros cl s.
  - reflexivity.
  - simpl app. simpl script_loop. cbv zeta.
    destruct (skipped (crop_comment Line)); [apply IH|].
    destruct (replace_default_parameters dp (crop_comment Line)) as [Line' msgs].
    rewrite bind_assoc. apply bind_ext. intros _ s1.
    rewrite bind_assoc. apply bind_ext. intros _ s2.
    rewrite bind_assoc. apply bind_ext. intros _ s3.
    apply IH.
Qed.

(** Fail-fast: once a part of the script has stopped, what follows it in
    the script is of no consequence. *)
Lemma script_loop_fail_fast (l1 l2 : list string) (Commands_Line : string)
      (s : State) (e : Exit) :
  fst (script_loop engine dp l1 Commands_Line s) = Stop e ->
  script_loop engine dp (l1 ++ l2) Commands_Line s =
  script_loop engine dp l1 Commands_Line s.
Proof.
  intros H. rewrite script_loop_app. unfold bind.
  destruct (script_loop engine dp l1 Commands_Line s) as [[cl|e'] s1];
    [discriminate | reflexivity].
Qed.

(** A command line on which the engine returns a non-zero code stops the
    script with [GADGET_FAIL]. *)
Lemma engine_failure_stops (Line : string) (rest : list string)
      (Commands_Line : string) (s : State) :
  skipped (crop_comment Line) = false ->
  (forall tr reg,
      fst (fst (engine tr reg
                       (fst (tokenize (fst (replace_default_parameters dp (crop_comment Line)))))
                       (snd (tokenize (fst (replace_default_parameters dp (crop_comment Line)))))))
      <> 0) ->
  fst (script_loop engine dp (Line :: rest) Commands_Line s) = Stop (Return GADGET_FAIL).
Proof.
  intros Hsk Hfail. simpl script_loop. cbv zeta. rewrite Hsk.
  destruct (replace_default_parameters dp (crop_comment Line)) as [Line' msgs].
  simpl fst in Hfail.
  assert (Hlogs : forall m st, fst (logs m st) = Go tt).
  { induction m as [|m0 m IHm]; intros st; [reflexivity|].
    simpl logs. unfold bind, log, lift. simpl. apply IHm. }
  unfold bind at 1.
  specialize (Hlogs msgs s).
  destruct (logs msgs s) as [[[]|e] s1]; [|discriminate].
  unfold bind, log, lift, call_or_fail, call_BART, get_state, bind.
  simpl.
  destruct (tokenize Line') as [argc argv]. simpl in Hfail.
  match goal with
  | |- context [engine ?tr ?reg argc argv] =>
      specialize (Hfail tr reg); destruct (engine tr reg argc argv) as [[ret out_str] reg']
  end.
  simpl in Hfail. simpl.
  destruct (Z.eqb_spec ret 0) as [->|_]; [contradiction | reflexivity].
Qed.

(** With the guard active, a failed call of [process] leaves no
    workspace behind. *)
Lemma failure_removes_workspace_when_active (rbits : list ReconBit) (s0 s' : State) :
  reaches_guard P E s0 = true ->
  is_active_indeterminate E = true ->
  process engine P dp E rbits s0 = (Return GADGET_FAIL, s') ->
  workspace s' = false.
Proof.
  intros Hg Hact Hp.
  rewrite (process_guarded engine P dp E rbits s0 Hg) in Hp.
  destruct (body engine P dp E rbits (workspace_path P E) (guarded_state P E s0))
    as [[r0|e] s3] eqn:Hb.
  - apply body_go in Hb. destruct Hb as [-> _]. discriminate.
  - unfold body, bind in Hb.
    destruct (before_finish_frame engine P dp E rbits (workspace_path P E)
                                  (guarded_state P E s0)) as [[_ Ha] _].
    destruct (before_finish engine P dp E rbits (workspace_path P E)
                            (guarded_state P E s0)) as [[hd|e'] s2'].
    + exfalso. revert Hb. unfold finish, bind, lift.
      destruct (isBartFileBeingStored P); simpl negb; cbv iota;
        destruct (data_dims_Final (snd hd) (fst hd)); simpl;
        intros H; inversion H; subst; discriminate.
    + inversion Hb; subst e' s2'; clear Hb.
      destruct e as [r0| |]; try discriminate.
      inversion Hp; subst r0 s'.
      rewrite dtor_workspace. simpl in Ha. rewrite Ha.
      unfold guarded_state. simpl. now rewrite Hact.
Qed.

End Script.

End FailFastFacts.

(** The run in which the engine fails on the first line of the sample
    script while [is_active_] holds [false]: the second line is never
    executed, the registry is flushed, the workspace is still there. *)
Example failed_first_line_run :
  fst (sample_run false false (Some 1%nat) sample_script) = Return GADGET_FAIL /\
  engine_calls (trace (snd (sample_run false false (Some 1%nat) sample_script))) =
    [ EvEngine 15 ["bart"; "reshape"; "1023"; "128"; "128"; "1"; "8"; "1"; "1";
                   "1"; "1"; "1"; "4"; "meas_gadgetron"; "input_data"] 0;
      EvEngine 6 ["bart"; "fft"; "-u"; "7"; "input_data"; "kspace"] 1 ] /\
  registry (snd (sample_run false false (Some 1%nat) sample_script)) = [] /\
  workspace (snd (sample_run false false (Some 1%nat) sample_script)) = true.
Proof. vm_compute. repeat split. Qed.

(** C4 fails on the code: no constructor of the guard initialises
    [is_active_], and whenever it holds [false] a call of [process] that
    fails after the workspace was created, on an engine command of the
    script in particular, returns with the registry flushed but with the
    workspace directory still in place. *)
Theorem C4_failed_call_leaves_workspace
        (engine : list Event -> Registry -> Z -> list string -> Z * string * Registry)
        (P : Properties) (dp : Default_parameters) (E : Env)
        (rbits : list ReconBit) (s0 s' : State) :
  reaches_guard P E s0 = true ->
  is_active_indeterminate E = false ->
  process engine P dp E rbits s0 = (Return GADGET_FAIL, s') ->
  workspace s' = true /\ registry s' = [].
Proof.
  intros Hg Hact Hp.
  rewrite (CleanupFacts.process_guarded engine P dp E rbits s0 Hg) in Hp.
  pose proof (CleanupFacts.guarded_state_workspace P E s0 Hg) as Hw.
  destruct (body engine P dp E rbits (workspace_path P E) (guarded_state P E s0))
    as [[r0|e] s3] eqn:Hb.
  - apply CleanupFacts.body_go in Hb. destruct Hb as [-> _]. discriminate.
  - unfold body, bind in Hb.
    destruct (CleanupFacts.before_finish_frame engine P dp E rbits (workspace_path P E)
                (guarded_state P E s0)) as [[Hws Ha] _].
    destruct (before_finish engine P dp E rbits (workspace_path P E)
                            (guarded_state P E s0)) as [[hd|e'] s2'].
    + exfalso. revert Hb. unfold finish, bind, lift.
      destruct (isBartFileBeingStored P); simpl negb; cbv iota;
        destruct (data_dims_Final (snd hd) (fst hd)); simpl;
        intros H; inversion H; subst; discriminate.
    + inversion Hb; subst e' s2'; clear Hb.
      destruct e as [r0| |]; try discriminate.
      inversion Hp; subst r0 s'.
      split; [| apply CleanupFacts.dtor_registry].
      rewrite CleanupFacts.dtor_workspace.
      simpl snd in Ha, Hws. rewrite Ha.
      unfold guarded_state at 1. unfold set_is_active. simpl is_active_.
      rewrite Hact. congruence.
Qed.

Lemma C4_failed_call_leaves_workspace_witness :
  workspace (snd (sample_run false false (Some 1%nat) sample_script)) = true /\
  registry (snd (sample_run false false (Some 1%nat) sample_script)) = [].
Proof.
  apply (C4_failed_call_leaves_workspace
           (sample_engine (Some 1%nat) sample_dims) (sample_properties false) dp0
           (sample_env false sample_script) sample_rbits initial_state).
  - reflexivity.
  - reflexivity.
  - vm_compute. reflexivity.
Defined.

(* ================================================================== *)
(** * Registration of the input arrays *)

Module RegistrationFacts.
Import GadgetFacts CleanupFacts.

Lemma emplace_sizes_length (v : list Z) (a : hoNDArray) :
  List.length (emplace_sizes v a) = (List.length v + 7)%nat.
Proof. unfold emplace_sizes. now rewrite length_app, length_map, length_seq. Qed.

Lemma extends_trace_refl (s : State) : extends_trace s s.
Proof. exists []. now rewrite app_nil_r. Qed.

Lemma extends_trace_trans (s1 s2 s3 : State) :
  extends_trace s1 s2 -> extends_trace s2 s3 -> extends_trace s1 s3.
Proof.
  intros (n1 & H1 & F1) (n2 & H2 & F2).
  exists (n1 ++ n2)%list. split.
  - now rewrite H2, H1, app_assoc.
  - apply Forall_app; auto.
Qed.

Lemma extends_trace_emit (s : State) (ev : Event) :
  gadget_event ev -> extends_trace s (emit ev s).
Proof. intros H. exists [ev]. split; [reflexivity | auto]. Qed.

Lemma extends_trace_same (s s' : State) :
  trace s' = trace s -> extends_trace s s'.
Proof. intros H. exists []. now rewrite app_nil_r. Qed.

Section Process.

Variable engine :
  list Event -> Registry -> Z -> list string -> Z * string * Registry.
Variable P : Properties.
Variable dp : Default_parameters.
Variable E : Env.


Ltac solve_extends :=
  unfold extends_trace; simpl; rewrite <- ?app_assoc;
  first [ exists []; split; [now rewrite app_nil_r | constructor]
        | eexists; split; [reflexivity | repeat constructor] ].

Lemma finish_trace (path : string) (header DIMS_OUT : list Z) (s : State) :
  extends_trace s (snd (finish P path header DIMS_OUT s)).
Proof.
  unfold finish, bind, lift.
  destruct (isBartFileBeingStored P); simpl negb; cbv iota;
    destruct (data_dims_Final DIMS_OUT header); solve_extends.
Qed.


Lemma dtor_extends (p_ : string) (s : State) :
  extends_trace s (ScopeGuard_dtor p_ s).
Proof. unfold ScopeGuard_dtor. destruct (is_active_ s); solve_extends. Qed.




Lemma register_loop_cons (recon_bit : ReconBit) (rest : list ReconBit)
      (DIMS_ref DIMS : list Z) (s : State) :
  exists s1 tr,
    register_loop (recon_bit :: rest) DIMS_ref DIMS s =
    register_loop rest (emplace_sizes DIMS_ref (ref_ recon_bit))
                  (emplace_sizes DIMS (data_ recon_bit)) s1 /\
    trace s1 =
    (tr ++ [EvRegister NonManaged "meas_gadgetron"
              (Z.of_nat (List.length (emplace_sizes DIMS (data_ recon_bit))))
              (data_ptr (data_ recon_bit))])%list.
Proof.
  simpl register_loop. cbv zeta. unfold bind at 1 2.
  unfold register_non_managed, lift.
  destruct (negb _); simpl;
    eexists; eexists; split; [reflexivity | simpl; reflexivity
                             | reflexivity | simpl; reflexivity].
Qed.

(** The last registration of the loop is made with seven dimensions per
    element of [rbit_] seen so far. *)
Lemma register_loop_last_D (rbits : list ReconBit) :
  forall (DIMS_ref DIMS : list Z) (s : State),
    rbits <> [] ->
    exists tr ptr,
      trace (snd (register_loop rbits DIMS_ref DIMS s)) =
      (tr ++ [EvRegister NonManaged "meas_gadgetron"
                (Z.of_nat (List.length DIMS + 7 * List.length rbits)) ptr])%list.
Proof.
  induction rbits as [|recon_bit rest IH]; intros DIMS_ref DIMS s Hne;
    [contradiction|].
  destruct (register_loop_cons recon_bit rest DIMS_ref DIMS s) as (s1 & tr & Heq & Htr).
  rewrite Heq.
  destruct rest as [|recon_bit' rest'].
  - simpl register_loop. simpl snd. rewrite Htr, emplace_sizes_length.
    exists tr, (data_ptr (data_ recon_bit)).
    replace (7 * List.length [recon_bit])%nat with 7%nat by reflexivity.
    reflexivity.
  - destruct (IH (emplace_sizes DIMS_ref (ref_ recon_bit))
                 (emplace_sizes DIMS (data_ recon_bit)) s1 ltac:(discriminate))
      as (tr' & ptr & Htr').
    rewrite Htr', emplace_sizes_length.
    exists tr', ptr.
    replace (List.length DIMS + 7 * List.length (recon_bit :: recon_bit' :: rest'))%nat
      with (List.length DIMS + 7 + 7 * List.length (recon_bit' :: rest'))%nat
      by (simpl List.length; lia).
    reflexivity.
Qed.

End Process.

End RegistrationFacts.

(** The dimension counts of a message of three reconstruction bits. *)
Example three_rbits_dimension_counts :
  registered_D
    (trace (snd (process (sample_engine None sample_dims) (sample_properties false)
                         dp0 (sample_env true sample_script) three_rbits
                         initial_state)))
  = [7; 14; 21].
Proof. vm_compute. reflexivity. Qed.

(** C8 fails on the code: [DIMS] is declared before the loop over
    [rbit_] and never cleared, so it grows by seven entries per element
    and a message of three or more reconstruction bits has its last
    buffer registered with a dimension count beyond the sixteen that the
    registry allows. *)
Theorem C8_dimension_count_exceeds_maximum
        (rbits : list ReconBit) (s : State) :
  (3 <= List.length rbits)%nat ->
  exists tr ptr D,
    trace (snd (register_loop rbits [] [] s)) =
    (tr ++ [EvRegister NonManaged "meas_gadgetron" D ptr])%list /\
    16 < D.
Proof.
  intros Hlen.
  destruct (RegistrationFacts.register_loop_last_D rbits [] [] s) as (tr & ptr & Htr).
  - intros ->. simpl in Hlen. lia.
  - exists tr, ptr, (Z.of_nat (List.length (@nil Z) + 7 * List.length rbits)).
    split; [exact Htr|]. simpl List.length. lia.
Qed.

Lemma C8_dimension_count_exceeds_maximum_witness :
  exists tr ptr D,
    trace (snd (register_loop three_rbits [] [] initial_state)) =
    (tr ++ [EvRegister NonManaged "meas_gadgetron" D ptr])%list /\
    16 < D.
Proof.
  apply (C8_dimension_count_exceeds_maximum three_rbits initial_state).
  simpl. lia.
Defined.


(* ================================================================== *)
(** * Tokens and the output name *)

Module OutputNameFacts.

Lemma append_nil_r (s : string) : s ++ "" = s.
Proof. induction s as [|a s IH]; simpl; [reflexivity | now rewrite IH]. Qed.

Lemma append_assoc (s t u : string) : (s ++ t) ++ u = s ++ t ++ u.
Proof. induction s as [|a s IH]; simpl; [reflexivity | now rewrite IH]. Qed.

Lemma rev_string_acc (s acc : string) :
  rev_string acc s = rev_string "" s ++ acc.
Proof.
  revert acc; induction s as [|a s IH]; intros acc; simpl; [reflexivity|].
  rewrite (IH (String a acc)), (IH (String a "")), append_assoc. reflexivity.
Qed.

Lemma no_space_app (s t : string) :
  no_space (s ++ t) = (no_space s && no_space t)%bool.
Proof.
  induction s as [|a s IH]; simpl; [reflexivity|].
  now rewrite IH, andb_assoc.
Qed.

Lemma no_space_rev (s : string) : no_space (rev_string "" s) = no_space s.
Proof.
  induction s as [|a s IH]; simpl; [reflexivity|].
  rewrite rev_string_acc, no_space_app, IH. simpl.
  rewrite andb_true_r. apply andb_comm.
Qed.

Lemma rev_string_nonempty (a : ascii) (s : string) :
  rev_string "" (String a s) <> "".
Proof.
  simpl. rewrite rev_string_acc.
  destruct (rev_string "" s); discriminate.
Qed.

Lemma back_none (v : list string) : back v = None <-> v = [].
Proof.
  split; [| now intros ->].
  induction v as [|x v IH]; [reflexivity|].
  simpl. destruct v; [discriminate | intros H; specialize (IH H); discriminate].
Qed.

Lemma back_cons (x : string) (v : list string) :
  v <> [] -> back (x :: v) = back v.
Proof. destruct v; [contradiction | reflexivity]. Qed.

Lemma flush_token_nil (cur : string) (toks : list string) :
  flush_token cur toks = [] <-> cur = "" /\ toks = [].
Proof.
  destruct cur; simpl; split.
  - auto.
  - now intros [_ ->].
  - discriminate.
  - intros [? _]; discriminate.
Qed.

Lemma split_spaces_nil (s : string) :
  forall cur, split_spaces s cur = [] <-> cur = "" /\ all_spaces s = true.
Proof.
  induction s as [|a s IH]; intros cur; simpl.
  - rewrite flush_token_nil. tauto.
  - destruct (Ascii.eqb a " "%char); simpl.
    + rewrite flush_token_nil, IH. tauto.
    + rewrite IH. split; [intros [? _]; discriminate | intros [_ ?]; discriminate].
Qed.

Lemma tokens_nil (s : string) : tokens s = [] <-> all_spaces s = true.
Proof. unfold tokens. rewrite split_spaces_nil. tauto. Qed.

(** The extraction is defined exactly on the lines that hold a token. *)
Lemma get_output_filename_none (s : string) :
  get_output_filename s = None <-> all_spaces s = true.
Proof. unfold get_output_filename. now rewrite back_none, tokens_nil. Qed.

Lemma split_spaces_trailing (s : string) :
  forall cur t,
    no_space cur = true ->
    back (split_spaces s cur) = Some t ->
    t <> "" /\ no_space t = true /\
    exists before after,
      rev_string "" cur ++ s = before ++ t ++ after /\ all_spaces after = true /\
      (before = "" \/ exists b, before = b ++ " ").
Proof.
  induction s as [|a s IH]; intros cur t Hcur; simpl split_spaces.
  - destruct cur as [|c cur]; simpl flush_token; [discriminate|].
    intros H.
    assert (Ht : t = rev_string "" (String c cur)) by (now inversion H).
    subst t; clear H.
    split; [apply rev_string_nonempty|].
    split; [now rewrite no_space_rev|].
    exists "", "". rewrite append_nil_r. simpl. auto.
  - destruct (Ascii.eqb_spec a " "%char) as [->|Ha].
    + destruct (split_spaces s "") as [|x rest] eqn:Hrest.
      * apply split_spaces_nil in Hrest. destruct Hrest as [_ Hrest].
        destruct cur as [|c cur]; simpl flush_token; [discriminate|].
        intros H.
        assert (Ht : t = rev_string "" (String c cur)) by (now inversion H).
        subst t; clear H.
        split; [apply rev_string_nonempty|].
        split; [now rewrite no_space_rev|].
        exists "", (String " " s). simpl. rewrite Hrest. auto.
      * intros H.
        assert (Hb : back (x :: rest) = Some t).
        { destruct cur; simpl flush_token in H; [exact H|].
          rewrite back_cons in H by discriminate. exact H. }
        rewrite <- Hrest in Hb.
        destruct (IH "" t eq_refl Hb) as (Hne & Hns & before & after & Heq & Hafter & Hbefore).
        split; [exact Hne|]. split; [exact Hns|].
        exists (rev_string "" cur ++ " " ++ before), after.
        simpl in Heq. split; [| split; [exact Hafter|]].
        -- rewrite Heq, !append_assoc. reflexivity.
        -- right. destruct Hbefore as [->|[b ->]].
           ++ exists (rev_string "" cur). reflexivity.
           ++ exists (rev_string "" cur ++ " " ++ b).
              rewrite !append_assoc. reflexivity.
    + intros H.
      assert (Hcur' : no_space (String a cur) = true).
      { simpl. rewrite Hcur. apply Ascii.eqb_neq in Ha. now rewrite Ha. }
      destruct (IH (String a cur) t Hcur' H)
        as (Hne & Hns & before & after & Heq & Hafter & Hbefore).
      split; [exact Hne|]. split; [exact Hns|].
      exists before, after. split; [| auto].
      rewrite <- Heq. simpl rev_string.
      rewrite (rev_string_acc cur (String a "")), append_assoc. reflexivity.
Qed.

(** What [get_output_filename] returns is the trailing token. *)
Lemma get_output_filename_trailing (line name : string) :
  get_output_filename line = Some name -> trailing_token line name.
Proof.
  intros H. exact (split_spaces_trailing line "" name eq_refl H).
Qed.

Lemma split_spaces_pending (s : string) :
  forall cur, cur <> "" -> split_spaces s cur <> [].
Proof.
  intros cur Hne H. apply split_spaces_nil in H. tauto.
Qed.

(** A line that starts with a character other than the space has a
    trailing token. *)
Lemma get_output_filename_some (a : ascii) (s : string) :
  a <> " "%char -> exists name, get_output_filename (String a s) = Some name.
Proof.
  intros Ha. unfold get_output_filename.
  destruct (back (tokens (String a s))) as [name|] eqn:H; [eauto|].
  apply back_none, tokens_nil in H. simpl in H.
  apply Ascii.eqb_neq in Ha. rewrite Ha in H. discriminate.
Qed.

End OutputNameFacts.

(* ================================================================== *)
(** * One engine command *)

Module CallFacts.

Section Call.

Variable engine :
  list Event -> Registry -> Z -> list string -> Z * string * Registry.

(** [call_BART] always reaches the engine, with the arguments that
    [tokenize] gives, and reports whether the code returned is zero. *)
Lemma call_BART_run (cmdline : string) (s : State) :
  exists ret post,
    fst (call_BART engine cmdline s) = Go (ret =? 0) /\
    trace (snd (call_BART engine cmdline s)) =
      (trace s ++ [EvLog (GDEBUG ("Executing BART command: " ++ cmdline));
                   EvEngine (fst (tokenize cmdline)) (snd (tokenize cmdline)) ret]
               ++ post)%list /\
    engine_calls post = [].
Proof.
  unfold call_BART, bind, log, lift, get_state, mret. simpl.
  destruct (tokenize cmdline) as [argc argv]. simpl.
  destruct (engine _ _ argc argv) as [[ret out_str] reg]. simpl.
  exists ret.
  destruct (ret =? 0); [destruct (String.eqb (c_str out_str) "")|]; simpl;
    rewrite <- ?app_assoc; simpl; eexists; (split; [reflexivity|]);
    (split; [reflexivity | reflexivity]).
Qed.

Lemma call_or_fail_run (cmdline : string) (s : State) :
  exists ret post,
    fst (call_or_fail engine cmdline s) =
      (if ret =? 0 then Go tt else Stop (Return GADGET_FAIL)) /\
    trace (snd (call_or_fail engine cmdline s)) =
      (trace s ++ [EvLog (GDEBUG ("Executing BART command: " ++ cmdline));
                   EvEngine (fst (tokenize cmdline)) (snd (tokenize cmdline)) ret]
               ++ post)%list /\
    engine_calls post = [].
Proof.
  destruct (call_BART_run cmdline s) as (ret & post & Hres & Htr & Hpost).
  exists ret, post. unfold call_or_fail, bind.
  destruct (call_BART engine cmdline s) as [[ok|e] s1]; simpl in *; [|discriminate].
  inversion Hres; subst ok.
  destruct (ret =? 0); simpl; auto.
Qed.

End Call.

End CallFacts.

(** C7 (as amended): tokenisation splits the line on the space character
    and keeps at most 255 tokens, the first ones, in the 256 slots of
    [argv], the last slot holding the terminating null; the tokens beyond
    the 255th are dropped without any error, and the engine is called
    with those that were kept. *)
Theorem C7_tokenize_keeps_first_255
        (engine : list Event -> Registry -> Z -> list string -> Z * string * Registry)
        (cmdline : string) (s : State) :
  snd (tokenize cmdline) = firstn (Z.to_nat (MAX_ARGS - 1)) (tokens (c_str cmdline)) /\
  fst (tokenize cmdline) = Z.of_nat (List.length (snd (tokenize cmdline))) /\
  fst (tokenize cmdline) <= MAX_ARGS - 1 /\
  exists ret post,
    trace (snd (call_BART engine cmdline s)) =
    (trace s ++ [EvLog (GDEBUG ("Executing BART command: " ++ cmdline));
                 EvEngine (fst (tokenize cmdline)) (snd (tokenize cmdline)) ret]
             ++ post)%list.
Proof.
  destruct (CallFacts.call_BART_run engine cmdline s) as (ret & post & _ & Htr & _).
  split; [| split; [| split; [| eauto]]];
    rewrite TokenFacts.tokenize_spec; unfold fst, snd.
  - reflexivity.
  - reflexivity.
  - pose proof (firstn_le_length (Z.to_nat (MAX_ARGS - 1)) (tokens (c_str cmdline))).
    unfold MAX_ARGS in *. lia.
Qed.

(** C7 fails as stated: a line of 257 tokens is no error; [argv] gets
    the first 255 of them and the command is run. *)
Lemma C7_counterexample :
  List.length (tokens many_args) = 257%nat /\
  fst (tokenize many_args) = 255 /\
  fst (call_BART (sample_engine None sample_dims) many_args initial_state) = Go true.
Proof. vm_compute. repeat split. Qed.

(** C5 (as amended): the time axis of the image array is
    [DIMS_OUT[4] / header[4]], the truncating division of C, with
    [header[4]] the number of maps; nothing checks that the division is
    exact.  A number of maps that is not positive fails the assertion
    [header[4] > 0].  When the axis holds [n] groups of [header[4]]
    entries, which is what the reshape command before it asks of the
    engine, the result is [n]. *)
Theorem C5_time_axis_is_truncating_quotient (DIMS_OUT header : list Z) :
  (data_dims_Final DIMS_OUT header = None <-> nth 4 header 0 <= 0) /\
  (forall dims,
      data_dims_Final DIMS_OUT header = Some dims ->
      nth 4 dims 0 = to_size_t (Z.quot (nth 4 DIMS_OUT 0) (nth 4 header 0))) /\
  (forall n,
      0 < nth 4 header 0 -> 0 <= n < 2 ^ 64 ->
      nth 4 DIMS_OUT 0 = n * nth 4 header 0 ->
      exists dims, data_dims_Final DIMS_OUT header = Some dims /\ nth 4 dims 0 = n).
Proof.
  unfold data_dims_Final.
  destruct (Z.ltb_spec 0 (nth 4 header 0)) as [Hpos|Hle].
  - split; [split; [discriminate | lia]|].
    split.
    + intros dims H. inversion H. reflexivity.
    + intros n _ Hn Hd. eexists. split; [reflexivity|].
      simpl nth. rewrite Hd, Z.quot_mul by lia.
      unfold to_size_t. now apply Z.mod_small.
  - split; [split; [lia | reflexivity]|].
    split; [discriminate | intros; lia].
Qed.

Lemma C5_time_axis_is_truncating_quotient_witness :
  exists dims,
    data_dims_Final sample_dims two_maps_header = Some dims /\ nth 4 dims 0 = 1.
Proof.
  apply (proj2 (proj2 (C5_time_axis_is_truncating_quotient sample_dims two_maps_header)) 1).
  - reflexivity.
  - split; [lia | reflexivity].
  - reflexivity.
Defined.

(** With two maps and an axis of length five the copy loop takes the
    frames 0, 2 and 4. *)
Example uneven_frames : frames uneven_DIMS_OUT two_maps_header = Some [0; 2; 4].
Proof. vm_compute. reflexivity. Qed.

(** C5 fails as stated: with two maps and an axis of length five, which
    two does not divide, nothing fails and the time axis is two. *)
Lemma C5_counterexample :
  data_dims_Final uneven_DIMS_OUT two_maps_header = Some [128; 128; 1; 1; 2; 1; 1] /\
  5 mod 2 <> 0.
Proof. split; [reflexivity | discriminate]. Qed.

(* ================================================================== *)
(** * Substitution leaves the head of a command line alone *)

Module HeadFacts.
Import StdString StdStringFacts.

Lemma find_nonneg (s : string) (c : ascii) (pos : Z) :
  0 <= pos -> 0 <= find s c pos.
Proof.
  intros Hpos.
  destruct (Z.eq_dec (find s c pos) npos) as [->|Hn]; [unfold npos; lia|].
  pose proof (find_range s c pos _ Hpos eq_refl Hn). lia.
Qed.

Lemma find_after_head (a c : ascii) (s : string) (pos : Z) :
  a <> c -> 0 <= pos -> find (String a s) c pos <> npos ->
  1 <= find (String a s) c pos.
Proof.
  intros Hac Hpos Hn.
  pose proof (find_range _ c pos _ Hpos eq_refl Hn) as Hr.
  pose proof (find_char _ c pos _ Hpos eq_refl Hn) as Hc.
  destruct (Z.eq_dec (find (String a s) c pos) 0) as [H0|]; [|lia].
  rewrite H0 in Hc. simpl in Hc. congruence.
Qed.

Lemma replace_head (a : ascii) (s : string) (p n : Z) (t : string) :
  1 <= p -> exists s', replace (String a s) p n t = String a s'.
Proof.
  intros Hp. unfold replace.
  destruct (Z.to_nat p) as [|k] eqn:Hk; [lia|].
  simpl. eauto.
Qed.

Lemma replace_step_head (dp : Default_parameters) (a : ascii) (s : string) (p : Z) :
  1 <= p -> exists s', fst (fst (replace_step dp (String a s) p)) = String a s'.
Proof.
  intros Hp. unfold replace_step.
  destruct (default_parameter dp _); simpl; [apply replace_head; exact Hp | eauto].
Qed.

Lemma replace_loop_head (dp : Default_parameters) (a : ascii) (fuel : nat) :
  a <> "$"%char ->
  forall (s : string) (pos : Z) (log : list LogMsg) (r : string * list LogMsg),
    0 <= pos ->
    replace_loop fuel dp (String a s) pos log = Some r ->
    exists s', fst r = String a s'.
Proof.
  intros Ha. induction fuel as [|fuel IH]; intros s pos log r Hpos; simpl replace_loop;
    [discriminate|].
  cbv zeta.
  pose proof (find_after_head a "$"%char s pos Ha Hpos) as H1.
  remember (find (String a s) "$"%char pos) as p eqn:Hp.
  destruct (Z.eqb_spec p npos) as [_|Hn].
  - intros H; inversion H. simpl. eauto.
  - specialize (H1 Hn).
    destruct (replace_step_head dp a s p H1) as [s' Hs'].
    assert (Hend : 0 <= snd (fst (replace_step dp (String a s) p))).
    { unfold replace_step.
      destruct (default_parameter dp _); simpl; apply find_nonneg; lia. }
    destruct (replace_step dp (String a s) p) as [[str' pos_end] msgs].
    simpl in Hs', Hend. subst str'.
    now apply IH.
Qed.

(** A line that does not start with ['$'] starts with the same
    character after substitution. *)
Lemma replace_default_parameters_head (dp : Default_parameters) (a : ascii) (s : string) :
  a <> "$"%char ->
  exists s', fst (replace_default_parameters dp (String a s)) = String a s'.
Proof.
  intros Ha. unfold replace_default_parameters.
  destruct (replace_loop _ dp (String a s) 0 []) as [r|] eqn:Hr.
  - eapply replace_loop_head; eauto. lia.
  - simpl. eauto.
Qed.

(** A line that is not skipped starts with the "b" of "bart". *)
Lemma command_head (Line : string) :
  skipped Line = false -> exists s, Line = String "b" s.
Proof.
  unfold skipped. intros H.
  apply orb_false_elim in H. destruct H as [_ H].
  apply negb_false_iff, String.eqb_eq in H.
  destruct Line as [|a s]; [discriminate|].
  unfold substr in H.
  destruct (Z.to_nat (Z.min 4 (size (String a s) - 0))) as [|k]; simpl in H;
    [discriminate|].
  inversion H. eauto.
Qed.

End HeadFacts.

(* ================================================================== *)
(** * The script loop *)

Module ScriptFacts.
Import GadgetFacts CallFacts FailFastFacts OutputNameFacts HeadFacts RegistrationFacts.

Lemma last_cons_default {A} (x d : A) (l : list A) : last (x :: l) d = last l x.
Proof.
  revert x d; induction l as [|y l IH]; intros x d; [reflexivity|].
  change (last (x :: y :: l) d) with (last (y :: l) d).
  now rewrite !IH.
Qed.

Lemma app_cons_mid {A} (pre : list A) (x : A) (rest : list A) :
  (pre ++ x :: rest = (pre ++ [x]) ++ rest)%list.
Proof. now rewrite <- app_assoc. Qed.

Lemma last_In {A} (l : list A) (d : A) : l <> [] -> In (last l d) l.
Proof.
  induction l as [|x l IH]; [contradiction|]. intros _.
  destruct l as [|y l]; [now left|].
  right. apply IH. discriminate.
Qed.

Section Script.

Variable engine :
  list Event -> Registry -> Z -> list string -> Z * string * Registry.
Variable P : Properties.
Variable dp : Default_parameters.
Variable E : Env.

Lemma logs_go (msgs : list LogMsg) (s : State) :
  fst (logs msgs s) = Go tt.
Proof.
  revert s; induction msgs as [|m msgs IH]; intros s; [reflexivity|].
  simpl logs. unfold bind, log, lift. simpl. apply IH.
Qed.

(** A script without a command line runs no command and leaves
    [Commands_Line] as it was. *)
Lemma script_loop_no_command (lines : list string) (Commands_Line : string) (s : State) :
  filter is_command lines = [] ->
  script_loop engine dp lines Commands_Line s = (Go Commands_Line, s).
Proof.
  induction lines as [|Line rest IH]; intros H; [reflexivity|].
  simpl in H. unfold is_command at 1 in H.
  simpl script_loop. cbv zeta.
  destruct (skipped (crop_comment Line)); simpl in H; [auto | discriminate].
Qed.

Lemma commands_head (lines : list string) (c : string) :
  In c (commands dp lines) -> exists s, c = String "b" s.
Proof.
  unfold commands. rewrite in_map_iff.
  intros (Line & <- & Hin).
  apply filter_In in Hin. destruct Hin as [_ Hcmd].
  unfold is_command in Hcmd. apply negb_true_iff in Hcmd.
  destruct (command_head _ Hcmd) as [s ->].
  apply replace_default_parameters_head. discriminate.
Qed.

Lemma commands_cons (Line : string) (rest : list string) :
  commands dp (Line :: rest) =
  if skipped (crop_comment Line) then commands dp rest
  else fst (replace_default_parameters dp (crop_comment Line)) :: commands dp rest.
Proof.
  unfold commands. simpl filter. unfold is_command at 1.
  destruct (skipped (crop_comment Line)); reflexivity.
Qed.

Lemma commands_nil (lines : list string) :
  commands dp lines = [] -> filter is_command lines = [].
Proof. unfold commands. apply map_eq_nil. Qed.

(** When the loop runs to the end of the script, [Commands_Line] is the
    last command line as it was executed, and the last call of the
    engine ran that line and returned zero. *)
Lemma script_loop_go (lines : list string) :
  forall (cl0 : string) (s : State) (cl : string) (s' : State),
    script_loop engine dp lines cl0 s = (Go cl, s') ->
    cl = last (commands dp lines) cl0 /\
    (commands dp lines <> [] ->
     exists tr post,
       trace s' = (tr ++ EvEngine (fst (tokenize cl)) (snd (tokenize cl)) 0 :: post)%list /\
       engine_calls post = []).
Proof.
  induction lines as [|Line rest IH]; intros cl0 s cl s' Hrun.
  - inversion Hrun. split; [reflexivity | intros H; now contradiction H].
  - simpl script_loop in Hrun. cbv zeta in Hrun.
    rewrite commands_cons.
    destruct (skipped (crop_comment Line)) eqn:Hsk.
    + exact (IH _ _ _ _ Hrun).
    + destruct (replace_default_parameters dp (crop_comment Line)) as [Line' msgs].
      simpl fst.
      unfold bind at 1 in Hrun.
      pose proof (logs_go msgs s) as Hlogs.
      destruct (logs msgs s) as [[[]|e] s1]; [clear Hlogs | discriminate].
      unfold bind at 1 in Hrun. unfold log at 1, lift in Hrun.
      unfold bind at 1 in Hrun.
      destruct (call_or_fail_run engine Line' (emit (EvLog (GDEBUG Line')) s1))
        as (ret & post & Hres & Htr & Hpost).
      destruct (call_or_fail engine Line' (emit (EvLog (GDEBUG Line')) s1))
        as [[[]|e] s3]; simpl in Hres, Htr; [| discriminate].
      destruct (Z.eqb_spec ret 0) as [->|]; [| discriminate].
      destruct (IH _ _ _ _ Hrun) as [Hcl Hev].
      split; [now rewrite last_cons_default|].
      intros _.
      destruct (commands dp rest) as [|c cs] eqn:Hrest.
      * apply commands_nil in Hrest.
        rewrite (script_loop_no_command rest Line' s3 Hrest) in Hrun.
        inversion Hrun; subst cl s'.
        simpl last. eexists. exists post.
        split; [| exact Hpost].
        rewrite Htr, app_cons_mid. reflexivity.
      * apply Hev. discriminate.
Qed.

(** [fetch_output] starts by looking up the name that the extraction
    gives. *)
Lemma fetch_output_first_load (Commands_Line name : string) (s : State) :
  get_output_filename Commands_Line = Some name ->
  exists rest,
    trace (snd (fetch_output engine Commands_Line s))
    = (trace s ++ EvLoad (c_str name) :: rest)%list.
Proof.
  intros H. unfold fetch_output. rewrite H.
  unfold bind at 1. unfold mret at 1.
  unfold bind at 1. unfold load at 1. unfold bind at 1. unfold lift at 1.
  unfold bind at 1. unfold get_state at 1. unfold mret at 1.
  match goal with
  | |- context [reshape_output engine name ?h ?st] =>
      assert (Hsat : sat extends_trace (fun _ => True) (reshape_output engine name h))
        by (apply sat_reshape_output;
            auto using extends_trace_refl, extends_trace_emit;
            [exact extends_trace_trans
            | intros s1 reg; now apply extends_trace_same]);
      destruct (Hsat st) as [(new & Hnew & _) _]
  end.
  rewrite Hnew. simpl trace. rewrite <- app_assoc. simpl. eauto.
Qed.

End Script.

End ScriptFacts.

(** C10: the extraction of the output name has no result exactly on the
    lines that hold no token, the empty line among them; and a script
    without a line that starts with "bart" (comments and surrounding
    blanks aside) runs no command, leaves [Commands_Line] empty, and has
    the extraction index an empty vector, which is where such a call of
    [process] ends. *)
Theorem C10_output_name_needs_a_command
        (engine : list Event -> Registry -> Z -> list string -> Z * string * Registry)
        (P : Properties) (dp : Default_parameters) (E : Env)
        (rbits : list ReconBit) (lines : list string) :
  filter is_command lines = [] ->
  (forall line, get_output_filename line = None <-> tokens line = []) /\
  (forall s,
      script_loop engine dp lines "" s = (Go "", s) /\
      fetch_output engine "" s = (Stop Undefined, s)) /\
  (forall s0 s3,
      reaches_guard P E s0 = true ->
      script_lines E = Some lines ->
      (mount_workspace P E (workspace_path P E ++ "/") ;;; prepare_input engine rbits)%gadget
        (guarded_state P E s0) = (Go tt, s3) ->
      process engine P dp E rbits s0 = (Undefined, s3)).
Proof.
  intros Hidle.
  split; [intros line; apply OutputNameFacts.back_none|].
  split.
  - intros s. split; [now apply ScriptFacts.script_loop_no_command | reflexivity].
  - intros s0 s3 Hg Hlines Hprep.
    rewrite (CleanupFacts.process_guarded engine P dp E rbits s0 Hg).
    assert (Hb : body engine P dp E rbits (workspace_path P E) (guarded_state P E s0)
                 = (Stop Undefined, s3)).
    { unfold bind in Hprep. unfold body, before_finish, bind.
      destruct (mount_workspace P E (workspace_path P E ++ "/") (guarded_state P E s0))
        as [[[]|e] s2]; [|discriminate].
      rewrite Hprep. unfold run_script. rewrite Hlines.
      rewrite (ScriptFacts.script_loop_no_command engine dp lines "" s3 Hidle).
      reflexivity. }
    rewrite Hb. reflexivity.
Qed.

Lemma C10_output_name_needs_a_command_witness :
  process (sample_engine None sample_dims) (sample_properties false) dp0
          (sample_env true idle_script) sample_rbits initial_state
  = (Undefined,
     snd ((mount_workspace (sample_properties false) (sample_env true idle_script)
             (workspace_path (sample_properties false) (sample_env true idle_script) ++ "/") ;;;
           prepare_input (sample_engine None sample_dims) sample_rbits)%gadget
            (guarded_state (sample_properties false) (sample_env true idle_script)
                           initial_state))).
Proof.
  apply (proj2 (proj2 (C10_output_name_needs_a_command
                         (sample_engine None sample_dims) (sample_properties false) dp0
                         (sample_env true idle_script) sample_rbits idle_script
                         eq_refl))).
  - reflexivity.
  - reflexivity.
  - vm_compute. reflexivity.
Defined.

(** C6 (as amended): when every command line of the script has been
    executed, and there is at least one, [Commands_Line] is the last
    command line as it was executed, the engine returned zero on it, and
    the name under which [process] then looks the result up is the
    trailing space-delimited token of that line: the next thing
    [process] does is that lookup.  The space is the only delimiter;
    other white space is part of a token. *)
Theorem C6_output_name_is_trailing_token
        (engine : list Event -> Registry -> Z -> list string -> Z * string * Registry)
        (P : Properties) (dp : Default_parameters) (E : Env)
        (rbits : list ReconBit) (lines : list string)
        (s0 s3 : State) (Commands_Line : string) (s4 : State) :
  reaches_guard P E s0 = true ->
  script_lines E = Some lines ->
  (mount_workspace P E (workspace_path P E ++ "/") ;;; prepare_input engine rbits)%gadget
    (guarded_state P E s0) = (Go tt, s3) ->
  script_loop engine dp lines "" s3 = (Go Commands_Line, s4) ->
  commands dp lines <> [] ->
  Commands_Line = last (commands dp lines) "" /\
  (exists tr post,
      trace s4 = (tr ++ EvEngine (fst (tokenize Commands_Line))
                                 (snd (tokenize Commands_Line)) 0 :: post)%list /\
      engine_calls post = []) /\
  exists name,
    get_output_filename Commands_Line = Some name /\
    trailing_token Commands_Line name /\
    (exists rest,
        trace (snd (fetch_output engine Commands_Line s4))
        = (trace s4 ++ EvLoad (c_str name) :: rest)%list) /\
    exists rest,
      trace (snd (process engine P dp E rbits s0))
      = (trace s4 ++ EvLoad (c_str name) :: rest)%list.
Proof.
  intros Hg Hlines Hprep Hrun Hcmds.
  destruct (ScriptFacts.script_loop_go engine dp lines "" s3 Commands_Line s4 Hrun)
    as [Hcl Hev].
  split; [exact Hcl|]. split; [exact (Hev Hcmds)|].
  assert (Hin : In Commands_Line (commands dp lines))
    by (rewrite Hcl; now apply ScriptFacts.last_In).
  destruct (ScriptFacts.commands_head dp lines Commands_Line Hin) as [tl Htl].
  destruct (OutputNameFacts.get_output_filename_some "b" tl ltac:(discriminate))
    as [name Hname].
  rewrite <- Htl in Hname.
  exists name. split; [exact Hname|].
  split; [now apply OutputNameFacts.get_output_filename_trailing|].
  destruct (ScriptFacts.fetch_output_first_load engine Commands_Line name s4 Hname)
    as [rest0 Hrest0].
  split; [now exists rest0|].
  rewrite (CleanupFacts.process_guarded engine P dp E rbits s0 Hg).
  assert (Hbf : before_finish engine P dp E rbits (workspace_path P E)
                              (guarded_state P E s0)
                = fetch_output engine Commands_Line s4).
  { unfold bind in Hprep. unfold before_finish, bind.
    destruct (mount_workspace P E (workspace_path P E ++ "/") (guarded_state P E s0))
      as [[[]|e] s2]; [|discriminate].
    rewrite Hprep. unfold run_script. rewrite Hlines, Hrun. reflexivity. }
  assert (Hmore : forall s5 s6 : State,
             trace s5 = (trace s4 ++ EvLoad (c_str name) :: rest0)%list ->
             extends_trace s5 s6 ->
             exists rest, trace s6 = (trace s4 ++ EvLoad (c_str name) :: rest)%list).
  { intros s5 s6 H5 (n & H6 & _). exists (rest0 ++ n)%list.
    rewrite H6, H5, <- app_assoc. reflexivity. }
  unfold body, bind. rewrite Hbf.
  destruct (fetch_output engine Commands_Line s4) as [[hd|e] s5]; simpl snd in Hrest0.
  - assert (Hfin : extends_trace s5 (snd (finish P (workspace_path P E) (fst hd) (snd hd) s5)))
      by apply RegistrationFacts.finish_trace.
    destruct (finish P (workspace_path P E) (fst hd) (snd hd) s5) as [[r|e] s6];
      simpl snd in Hfin.
    + simpl snd. apply (Hmore s5 _ Hrest0).
      eapply RegistrationFacts.extends_trace_trans;
        [exact Hfin | apply RegistrationFacts.dtor_extends].
    + destruct e as [r| |]; simpl snd.
      * apply (Hmore s5 _ Hrest0).
        eapply RegistrationFacts.extends_trace_trans;
          [exact Hfin | apply RegistrationFacts.dtor_extends].
      * exact (Hmore s5 _ Hrest0 Hfin).
      * exact (Hmore s5 _ Hrest0 Hfin).
  - destruct e as [r| |]; simpl snd.
    + apply (Hmore s5 _ Hrest0). apply RegistrationFacts.dtor_extends.
    + apply (Hmore s5 _ Hrest0). apply RegistrationFacts.extends_trace_refl.
    + apply (Hmore s5 _ Hrest0). apply RegistrationFacts.extends_trace_refl.
Qed.

Lemma C6_output_name_is_trailing_token_witness :
  exists name,
    get_output_filename "bart rss 8 kspace ims" = Some name /\
    trailing_token "bart rss 8 kspace ims" name /\
    (exists rest,
        trace (snd (fetch_output (sample_engine None sample_dims) "bart rss 8 kspace ims"
                      (snd (script_loop (sample_engine None sample_dims) dp0 sample_script ""
                              (snd ((mount_workspace (sample_properties false)
                                       (sample_env true sample_script)
                                       (workspace_path (sample_properties false)
                                          (sample_env true sample_script) ++ "/") ;;;
                                     prepare_input (sample_engine None sample_dims)
                                                   sample_rbits)%gadget
                                      (guarded_state (sample_properties false)
                                         (sample_env true sample_script) initial_state)))))))
        = (trace (snd (script_loop (sample_engine None sample_dims) dp0 sample_script ""
                         (snd ((mount_workspace (sample_properties false)
                                  (sample_env true sample_script)
                                  (workspace_path (sample_properties false)
                                     (sample_env true sample_script) ++ "/") ;;;
                                prepare_input (sample_engine None sample_dims)
                                              sample_rbits)%gadget
                                 (guarded_state (sample_properties false)
                                    (sample_env true sample_script) initial_state)))))
           ++ EvLoad (c_str name) :: rest)%list) /\
    exists rest,
      trace (snd (sample_run false true None sample_script))
      = (trace (snd (script_loop (sample_engine None sample_dims) dp0 sample_script ""
                       (snd ((mount_workspace (sample_properties false)
                                (sample_env true sample_script)
                                (workspace_path (sample_properties false)
                                   (sample_env true sample_script) ++ "/") ;;;
                              prepare_input (sample_engine None sample_dims)
                                            sample_rbits)%gadget
                               (guarded_state (sample_properties false)
                                  (sample_env true sample_script) initial_state)))))
         ++ EvLoad (c_str name) :: rest)%list.
Proof.
  apply (proj2 (proj2 (C6_output_name_is_trailing_token
           (sample_engine None sample_dims) (sample_properties false) dp0
           (sample_env true sample_script) sample_rbits sample_script initial_state
           (snd ((mount_workspace (sample_properties false)
                    (sample_env true sample_script)
                    (workspace_path (sample_properties false)
                       (sample_env true sample_script) ++ "/") ;;;
                  prepare_input (sample_engine None sample_dims) sample_rbits)%gadget
                   (guarded_state (sample_properties false)
                      (sample_env true sample_script) initial_state)))
           "bart rss 8 kspace ims"
           (snd (script_loop (sample_engine None sample_dims) dp0 sample_script ""
                   (snd ((mount_workspace (sample_properties false)
                            (sample_env true sample_script)
                            (workspace_path (sample_properties false)
                               (sample_env true sample_script) ++ "/") ;;;
                          prepare_input (sample_engine None sample_dims)
                                        sample_rbits)%gadget
                           (guarded_state (sample_properties false)
                              (sample_env true sample_script) initial_state)))))
           eq_refl eq_refl
           ltac:(vm_compute; reflexivity) ltac:(vm_compute; reflexivity)
           ltac:(vm_compute; discriminate)))).
Defined.

(** The claim as it was stated, with tokens delimited by white space,
    fails on a line whose last word follows a tabulator: the last
    command of [tab_script] is [tab_line] and succeeds, its trailing
    white-space-delimited token is [ims], but the name under which
    [process] looks the result up is [tab_name], which holds the
    tabulator; [ims] is never looked up. *)
Lemma C6_counterexample :
  fst (script_loop (sample_engine None sample_dims) dp0 tab_script "" initial_state)
  = Go tab_line /\
  trailing_whitespace_token tab_line "ims" /\
  get_output_filename tab_line = Some tab_name /\
  no_whitespace tab_name = false /\
  In (EvLoad tab_name)
     (trace (snd (process (sample_engine None sample_dims) (sample_properties false) dp0
                          (sample_env true tab_script) sample_rbits initial_state))) /\
  ~ In (EvLoad "ims")
       (trace (snd (process (sample_engine None sample_dims) (sample_properties false) dp0
                            (sample_env true tab_script) sample_rbits initial_state))).
Proof.
  split; [vm_compute; reflexivity|].
  split.
  { split; [discriminate|]. split; [reflexivity|].
    exists ("bart rss 8 kspace" ++ String tab ""), "".
    split; [reflexivity|]. split; [reflexivity|].
    right. exists "bart rss 8 kspace", tab. split; reflexivity. }
  split; [vm_compute; reflexivity|].
  split; [reflexivity|].
  split.
  - vm_compute. tauto.
  - vm_compute. intuition discriminate.
Qed.

(* ================================================================== *)
(** * Tokens that name no parameter *)

Module UnknownFacts.
Import StdString StdStringFacts SubstitutionFacts GadgetFacts CallFacts
       RegistrationFacts ScriptFacts.





Section Script.

Variable engine :
  list Event -> Registry -> Z -> list string -> Z * string * Registry.
Variable dp : Default_parameters.



End Script.

End UnknownFacts.




(* ================================================================== *)
(** * A parameter that follows a replacement *)

Module SkipFacts.
Import StdString SubstitutionFacts.

Lemma replace_loop_S (fuel : nat) (dp : Default_parameters) (str : string)
      (pos : Z) (log : list LogMsg) :
  replace_loop (S fuel) dp str pos log =
  if find str "$"%char pos =? npos then Some (str, log)
  else
    let '(str', pos_end, msgs) := replace_step dp str (find str "$"%char pos) in
    replace_loop fuel dp str' pos_end (log ++ msgs).
Proof. reflexivity. Qed.

(** The first iteration on [two_parameters_line] replaces
    [$recon_matrix_x] and leaves [pos] at 20, where the token ended. *)
Lemma first_replacement (dp : Default_parameters) :
  replace_step dp two_parameters_line 5 =
  ("bart " ++ to_string (to_u16 (recon_matrix_x dp)) ++ " $FOV_x out", 20, []).
Proof.
  unfold replace_step.
  replace (find two_parameters_line " "%char 5) with 20 by reflexivity.
  change ((20 - 5) mod 2 ^ 64) with 15.
  replace (erase (substr two_parameters_line 5 15) 0 1) with "recon_matrix_x"
    by reflexivity.
  reflexivity.
Qed.

(** Whatever text of at most five characters was put in, the scan that
    resumes at 20 is past the ['$'] of the second token. *)
Lemma scan_resumes_past_second_token (t : string) :
  (String.length t <= 5)%nat ->
  find ("bart " ++ t ++ " $FOV_x out") "$"%char 20 = npos.
Proof.
  destruct t as [|c1 [|c2 [|c3 [|c4 [|c5 [|c6 t]]]]]]; simpl String.length; intros H;
    try reflexivity.
  lia.
Qed.

Lemma second_parameter_skipped (dp : Default_parameters) :
  replace_default_parameters dp two_parameters_line =
  ("bart " ++ to_string (to_u16 (recon_matrix_x dp)) ++ " $FOV_x out", []).
Proof.
  unfold replace_default_parameters.
  change (replace_fuel two_parameters_line) with (S (S 30)).
  rewrite replace_loop_S.
  replace (find two_parameters_line "$"%char 0) with 5 by reflexivity.
  change (5 =? npos) with false. cbv iota.
  rewrite first_replacement.
  rewrite replace_loop_S, scan_resumes_past_second_token.
  - reflexivity.
  - apply to_string_u16_length. unfold to_u16. apply Z.mod_pos_bound. lia.
Qed.

End SkipFacts.

(** C3 fails on the code: after a replacement the scan resumes at the
    position where the token ended in the old string, and the text put
    in its place is shorter than the token, so the characters after it
    are skipped.  Whatever the configuration, in the line
    ["bart $recon_matrix_x $FOV_x out"] the second parameter, which is a
    known one, is left as it is, with no message, and reaches the engine
    unsubstituted. *)
Theorem C3_parameter_after_a_replacement_is_skipped :
  (forall dp,
      default_parameter dp "FOV_x" = Some (to_u16 (FOV_x dp)) /\
      replace_default_parameters dp two_parameters_line =
      ("bart " ++ to_string (to_u16 (recon_matrix_x dp)) ++ " $FOV_x out", [])) /\
  replace_default_parameters dp0 two_parameters_line = ("bart 256 $FOV_x out", []) /\
  engine_calls
    (trace (snd (script_loop (sample_engine None sample_dims) dp0 [two_parameters_line]
                             "" initial_state)))
  = [EvEngine 4 ["bart"; "256"; "$FOV_x"; "out"] 0].
Proof.
  split.
  - intros dp. split; [reflexivity | apply SkipFacts.second_parameter_skipped].
  - vm_compute. split; reflexivity.
Qed.

(* ================================================================== *)
(** * Trimming and cropping of script lines *)

Module TrimFacts.
Import StdString StdStringFacts OutputNameFacts.

Lemma ltrim_split (s : string) :
  exists pre, s = pre ++ ltrim s /\ all_ws pre = true /\ starts_ws (ltrim s) = false.
Proof.
  induction s as [|a s (pre & Heq & Hpre & Hst)]; simpl.
  - exists "". auto.
  - destruct (isspace a) eqn:Ha.
    + exists (String a pre). simpl. rewrite Ha, Hpre, <- Heq. auto.
    + exists "". simpl. auto.
Qed.

Lemma rtrim_split (s : string) :
  exists post, s = rtrim s ++ post /\ all_ws post = true /\ ends_ws (rtrim s) = false.
Proof.
  induction s as [|a s (post & Heq & Hpost & Hend)]; simpl.
  - exists "". auto.
  - destruct (rtrim s) as [|b r] eqn:Hr.
    + simpl in Heq. subst post.
      destruct (isspace a) eqn:Ha.
      * exists (String a s). simpl. rewrite Ha, Hpost. auto.
      * exists s. simpl. rewrite Ha. auto.
    + exists post. rewrite Heq at 1. simpl in *. auto.
Qed.

Lemma rtrim_keeps_head (s : string) :
  starts_ws s = false -> starts_ws (rtrim s) = false.
Proof.
  destruct s as [|a s]; simpl; [auto|]. intros Ha.
  destruct (rtrim s); [rewrite Ha|]; simpl; exact Ha.
Qed.

Lemma find_first_app (c : ascii) (a b : string) (off : Z) :
  has_char c a = false ->
  find_first c (a ++ String c b) off = off + size a.
Proof.
  revert off; induction a as [|x a IH]; intros off H; simpl in *.
  - rewrite Ascii.eqb_refl. unfold size. simpl. lia.
  - apply orb_false_elim in H. destruct H as [Hx Ha].
    rewrite Hx, IH by exact Ha. unfold size. simpl String.length. lia.
Qed.

Lemma take_app_length (a b : string) : take (String.length a) (a ++ b) = a.
Proof. induction a as [|x a IH]; simpl; [destruct b; reflexivity | now rewrite IH]. Qed.

Lemma drop_app_length (a b : string) : drop (String.length a) (a ++ b) = b.
Proof. induction a as [|x a IH]; simpl; [destruct b; reflexivity | exact IH]. Qed.

End TrimFacts.

(** X1: [trim] removes white space at both ends and nothing else: the
    line is the trimmed line between two runs of white space, and the
    trimmed line neither starts nor ends with white space. *)
Theorem X1_trim_strips_both_ends (str : string) :
  exists pre post,
    str = pre ++ trim str ++ post /\
    all_ws pre = true /\ all_ws post = true /\
    starts_ws (trim str) = false /\ ends_ws (trim str) = false.
Proof.
  destruct (TrimFacts.ltrim_split str) as (pre & Heq & Hpre & Hst).
  destruct (TrimFacts.rtrim_split (ltrim str)) as (post & Heq' & Hpost & Hend).
  exists pre, post. unfold trim.
  split; [now rewrite <- Heq', <- Heq|].
  repeat split; auto using TrimFacts.rtrim_keeps_head.
Qed.

(** X2: the text from the first ['#'] of a script line on is dropped
    before anything else is done with the line. *)
Theorem X2_comment_is_cropped (code comment : string) :
  has_char "#"%char code = false ->
  crop_comment (code ++ String "#" comment) = trim code.
Proof.
  intros H. unfold crop_comment. f_equal.
  unfold StdString.find.
  assert (Hsize : StdString.size (code ++ String "#" comment)
                  = StdString.size code + 1 + StdString.size comment).
  { unfold StdString.size. rewrite StdStringFacts.length_app. simpl. lia. }
  destruct (Z.leb_spec (StdString.size (code ++ String "#" comment)) 0) as [Hle|_].
  - pose proof (StdStringFacts.size_nonneg code).
    pose proof (StdStringFacts.size_nonneg comment). lia.
  - change (Z.to_nat 0) with 0%nat.
    replace (StdString.drop 0 (code ++ String "#" comment))
      with (code ++ String "#" comment) by (destruct (code ++ String "#" comment); reflexivity).
    rewrite TrimFacts.find_first_app by exact H.
    unfold StdString.substr.
    replace (StdString.drop (Z.to_nat 0) (code ++ String "#" comment))
      with (code ++ String "#" comment) by (destruct (code ++ String "#" comment); reflexivity).
    replace (Z.to_nat (Z.min (0 + StdString.size code)
                             (StdString.size (code ++ String "#" comment) - 0)))
      with (String.length code).
    + apply TrimFacts.take_app_length.
    + rewrite Hsize. pose proof (StdStringFacts.size_nonneg comment).
      unfold StdString.size in *. lia.
Qed.

Lemma X2_comment_is_cropped_witness :
  crop_comment ("  bart fft -u 7 in out  " ++ String "#" " bart rss 8 a b") = "bart fft -u 7 in out".
Proof.
  apply (X2_comment_is_cropped "  bart fft -u 7 in out  " " bart rss 8 a b").
  reflexivity.
Defined.

(* ================================================================== *)
(** * Which lines are commands *)

Module CommandFacts.
Import StdString.

Lemma substr_bart (t : string) : substr ("bart" ++ t) 0 4 = "bart".
Proof.
  unfold substr.
  replace (Z.to_nat (Z.min 4 (size ("bart" ++ t) - 0))) with 4%nat.
  - reflexivity.
  - unfold size. simpl String.length. lia.
Qed.

Lemma substr_prefix4 (Line : string) :
  substr Line 0 4 = "bart" -> exists t, Line = "bart" ++ t.
Proof.
  unfold substr. change (Z.to_nat 0) with 0%nat.
  replace (drop 0 Line) with Line by (destruct Line; reflexivity).
  assert (Hn : (Z.to_nat (Z.min 4 (size Line - 0)) <= 4)%nat) by lia.
  destruct (Z.to_nat (Z.min 4 (size Line - 0))) as [|[|[|[|[|n]]]]]; try lia;
    destruct Line as [|a [|b [|c [|d t]]]]; simpl; try discriminate.
  intros H. inversion H. exists t. reflexivity.
Qed.

End CommandFacts.

(** X3: a line is passed on as a command exactly when, with its comment
    cropped and its ends trimmed, it starts with the four characters
    "bart"; what follows them does not matter. *)
Theorem X3_command_lines_start_with_bart (Line : string) :
  is_command Line = true <-> exists t, crop_comment Line = "bart" ++ t.
Proof.
  unfold is_command, skipped. rewrite negb_true_iff, orb_false_iff, negb_false_iff.
  rewrite String.eqb_neq, String.eqb_eq.
  split.
  - intros [_ H]. now apply CommandFacts.substr_prefix4.
  - intros [t Ht]. rewrite Ht. split; [discriminate | apply CommandFacts.substr_bart].
Qed.

(** X4: lines that are not commands (blank lines, comments, lines that
    do not start with "bart") have no effect at all: a script runs as
    the script of its command lines alone. *)
Theorem X4_only_command_lines_count
        (engine : list Event -> Registry -> Z -> list string -> Z * string * Registry)
        (dp : Default_parameters) (lines : list string)
        (Commands_Line : string) (s : State) :
  script_loop engine dp lines Commands_Line s =
  script_loop engine dp (filter is_command lines) Commands_Line s.
Proof.
  revert Commands_Line s.
  induction lines as [|Line rest IH]; intros cl s; [reflexivity|].
  simpl filter. unfold is_command at 1.
  simpl script_loop at 1. cbv zeta.
  destruct (skipped (crop_comment Line)) eqn:Hsk; simpl negb; cbv iota.
  - apply IH.
  - simpl script_loop. cbv zeta. rewrite Hsk.
    destruct (replace_default_parameters dp (crop_comment Line)) as [Line' msgs].
    apply FailFastFacts.bind_ext. intros _ s1.
    apply FailFastFacts.bind_ext. intros _ s2.
    apply FailFastFacts.bind_ext. intros _ s3.
    apply IH.
Qed.

(* ================================================================== *)
(** * Tokens *)

Module TokenListFacts.
Import OutputNameFacts.

Lemma flush_token_app (cur : string) (toks : list string) :
  flush_token cur toks = (flush_token cur [] ++ toks)%list.
Proof. destruct cur; reflexivity. Qed.

Lemma split_spaces_app (s1 s2 : string) :
  forall cur,
    split_spaces (s1 ++ String " " s2) cur = (split_spaces s1 cur ++ tokens s2)%list.
Proof.
  induction s1 as [|a s1 IH]; intros cur; simpl.
  - apply flush_token_app.
  - destruct (Ascii.eqb a " "%char).
    + rewrite IH, (flush_token_app cur (split_spaces s1 "")),
        (flush_token_app cur (_ ++ _)), app_assoc. reflexivity.
    + apply IH.
Qed.

Lemma is_token_no_space (t : string) : is_token t = true -> no_space t = true.
Proof. unfold is_token. intros H. apply andb_prop in H. tauto. Qed.

Lemma rev_string_app (x y : string) :
  rev_string "" (x ++ y) = rev_string "" y ++ rev_string "" x.
Proof.
  induction x as [|b x IHx]; simpl.
  - now rewrite append_nil_r.
  - rewrite (rev_string_acc x (String b "")), (rev_string_acc (x ++ y) (String b "")),
      IHx, append_assoc.
    reflexivity.
Qed.

Lemma rev_string_involutive (s : string) :
  rev_string "" (rev_string "" s) = s.
Proof.
  induction s as [|a s IH]; [reflexivity|].
  simpl. rewrite (rev_string_acc s (String a "")), rev_string_app, IH.
  reflexivity.
Qed.

Lemma split_spaces_token (t : string) :
  forall cur, no_space t = true -> split_spaces t cur = flush_token (rev_string cur t) [].
Proof.
  induction t as [|a t IH]; intros cur H; simpl in *; [reflexivity|].
  apply andb_prop in H. destruct H as [Ha Ht].
  apply negb_true_iff in Ha. rewrite Ha. now apply IH.
Qed.

Lemma flush_token_nonempty (cur : string) :
  cur <> "" -> flush_token cur [] = [rev_string "" cur].
Proof. destruct cur; [contradiction | reflexivity]. Qed.

Lemma tokens_single (t : string) : is_token t = true -> tokens t = [t].
Proof.
  intros H. unfold tokens. rewrite split_spaces_token by now apply is_token_no_space.
  unfold is_token in H. apply andb_prop in H. destruct H as [Hne _].
  apply negb_true_iff, String.eqb_neq in Hne.
  destruct t as [|a t]; [contradiction|].
  rewrite flush_token_nonempty by apply rev_string_nonempty.
  now rewrite rev_string_involutive.
Qed.

Lemma tokens_join (l : list string) :
  forallb is_token l = true -> tokens (join l) = l.
Proof.
  induction l as [|t l IH]; intros H; [reflexivity|].
  simpl in H. apply andb_prop in H. destruct H as [Ht Hl].
  destruct l as [|t' l'].
  - simpl join. now apply tokens_single.
  - change (join (t :: t' :: l')) with (t ++ String " " (join (t' :: l'))).
    unfold tokens at 1. rewrite split_spaces_app.
    fold (tokens t). rewrite tokens_single, IH by assumption. reflexivity.
Qed.

Lemma flush_token_tokens (cur t : string) :
  no_space cur = true -> In t (flush_token cur []) -> is_token t = true.
Proof.
  intros Hcur. destruct cur as [|c cur]; [intros []|].
  rewrite flush_token_nonempty by discriminate.
  intros [<-|[]]. unfold is_token.
  rewrite no_space_rev, Hcur, andb_true_r, negb_true_iff, String.eqb_neq.
  apply rev_string_nonempty.
Qed.

Lemma split_spaces_tokens (s : string) :
  forall cur t,
    no_space cur = true -> In t (split_spaces s cur) -> is_token t = true.
Proof.
  induction s as [|a s IH]; intros cur t Hcur.
  - now apply flush_token_tokens.
  - change (split_spaces (String a s) cur)
      with (if Ascii.eqb a " "%char then flush_token cur (split_spaces s "")
            else split_spaces s (String a cur)).
    destruct (Ascii.eqb a " "%char) eqn:Ha.
    + rewrite flush_token_app. intros Hin. apply in_app_or in Hin.
      destruct Hin as [Hin|Hin]; [now apply (flush_token_tokens cur) | now apply (IH "" t)].
    + apply IH. simpl. now rewrite Ha, Hcur.
Qed.

Lemma c_str_id (s : string) : has_char zero s = false -> c_str s = s.
Proof.
  induction s as [|a s IH]; simpl; [reflexivity|].
  intros H. apply orb_false_elim in H. destruct H as [Ha Hs].
  rewrite Ha, IH by exact Hs. reflexivity.
Qed.

Lemma has_char_app (c : ascii) (s t : string) :
  has_char c (s ++ t) = (has_char c s || has_char c t)%bool.
Proof.
  induction s as [|a s IH]; simpl; [reflexivity|]. now rewrite IH, orb_assoc.
Qed.

Lemma has_char_join (c : ascii) (l : list string) :
  c <> " "%char ->
  forallb (fun t => negb (has_char c t)) l = true -> has_char c (join l) = false.
Proof.
  intros Hc. induction l as [|t l IH]; intros H; [reflexivity|].
  simpl in H. apply andb_prop in H. destruct H as [Ht Hl].
  apply negb_true_iff in Ht.
  destruct l as [|t' l']; [exact Ht|].
  change (join (t :: t' :: l')) with (t ++ String " " (join (t' :: l'))).
  rewrite has_char_app, Ht. cbn [has_char orb].
  rewrite IH by exact Hl.
  destruct (Ascii.eqb_spec " "%char c) as [<-|_]; [contradiction | reflexivity].
Qed.

End TokenListFacts.

(** X5: every token is a non-empty string without a space. *)
Theorem X5_tokens_are_well_formed (s t : string) :
  In t (tokens s) -> is_token t = true.
Proof. now apply TokenListFacts.split_spaces_tokens. Qed.

Lemma X5_tokens_are_well_formed_witness : is_token "fft" = true.
Proof.
  apply (X5_tokens_are_well_formed "  bart   fft -u 7 " "fft").
  vm_compute. auto.
Defined.

(** X6: the tokens of two texts with a space between them are the tokens
    of the first followed by the tokens of the second. *)
Theorem X6_tokens_of_two_parts (s1 s2 : string) :
  tokens (s1 ++ " " ++ s2) = (tokens s1 ++ tokens s2)%list.
Proof. apply TokenListFacts.split_spaces_app. Qed.

(** X7: a command line put together from at most 255 arguments, each
    non-empty and free of spaces and NUL characters, with single spaces
    between them, reaches the engine as exactly these arguments. *)
Theorem X7_tokenize_join_round_trip (args : list string) :
  forallb is_token args = true ->
  forallb (fun t => negb (has_char zero t)) args = true ->
  Z.of_nat (List.length args) <= MAX_ARGS - 1 ->
  tokenize (join args) = (Z.of_nat (List.length args), args).
Proof.
  intros Htok Hnul Hlen.
  rewrite TokenFacts.tokenize_spec.
  rewrite TokenListFacts.c_str_id
    by (apply TokenListFacts.has_char_join; [discriminate | exact Hnul]).
  rewrite TokenListFacts.tokens_join by exact Htok.
  rewrite firstn_all2 by lia. reflexivity.
Qed.

Lemma X7_tokenize_join_round_trip_witness :
  tokenize (join ["bart"; "fft"; "-u"; "7"; "input_data"; "kspace"])
  = (6, ["bart"; "fft"; "-u"; "7"; "input_data"; "kspace"]).
Proof.
  apply (X7_tokenize_join_round_trip ["bart"; "fft"; "-u"; "7"; "input_data"; "kspace"]).
  - reflexivity.
  - reflexivity.
  - vm_compute. discriminate.
Defined.

(** X8: whatever the command line, a last argument added after a space
    is the name under which the result will be looked up. *)
Theorem X8_output_name_is_last_argument (line name : string) :
  is_token name = true ->
  get_output_filename (line ++ " " ++ name) = Some name.
Proof.
  intros H. unfold get_output_filename.
  change (line ++ " " ++ name) with (line ++ String " " name).
  unfold tokens. rewrite TokenListFacts.split_spaces_app.
  rewrite TokenListFacts.tokens_single by exact H.
  induction (split_spaces line "") as [|x l IH]; [reflexivity|].
  rewrite <- app_comm_cons, OutputNameFacts.back_cons; [exact IH|].
  destruct l; discriminate.
Qed.

Lemma X8_output_name_is_last_argument_witness :
  get_output_filename ("bart rss 8 kspace" ++ " " ++ "ims") = Some "ims".
Proof.
  apply (X8_output_name_is_last_argument "bart rss 8 kspace" "ims"). reflexivity.
Defined.

(* ================================================================== *)
(** * Substitution on well-behaved lines *)

Module ReplaceFacts.
Import StdString StdStringFacts SubstitutionFacts OutputNameFacts TrimFacts TokenListFacts.

Lemma find_first_none (c : ascii) (s : string) (off : Z) :
  has_char c s = false -> find_first c s off = npos.
Proof.
  revert off; induction s as [|a s IH]; intros off H; simpl in *; [reflexivity|].
  apply orb_false_elim in H. destruct H as [Ha Hs]. rewrite Ha. now apply IH.
Qed.

Lemma has_char_drop (c : ascii) (n : nat) (s : string) :
  has_char c s = false -> has_char c (drop n s) = false.
Proof.
  revert s; induction n as [|n IH]; intros [|a s] H; simpl in *; auto.
  apply orb_false_elim in H. apply IH. tauto.
Qed.

Lemma find_none (s : string) (c : ascii) (pos : Z) :
  has_char c s = false -> find s c pos = npos.
Proof.
  intros H. unfold find. destruct (size s <=? pos); [reflexivity|].
  apply find_first_none. now apply has_char_drop.
Qed.

Lemma has_char_get (c : ascii) (s : string) (k : nat) :
  has_char c s = false -> String.get k s <> Some c.
Proof.
  revert k; induction s as [|a s IH]; intros k H; simpl in *; [discriminate|].
  apply orb_false_elim in H. destruct H as [Ha Hs].
  destruct k; [| now apply IH].
  intros Heq. inversion Heq; subst. now rewrite Ascii.eqb_refl in Ha.
Qed.

Lemma drop_app_ge (a b : string) (k : nat) :
  drop (String.length a + k) (a ++ b) = drop k b.
Proof. induction a as [|x a IH]; simpl; [reflexivity | exact IH]. Qed.

Lemma take_app_ge (a b : string) (k : nat) :
  take (String.length a + k) (a ++ b) = a ++ take k b.
Proof. induction a as [|x a IH]; simpl; [reflexivity | now rewrite IH]. Qed.

Lemma drop_0 (s : string) : drop 0 s = s.
Proof. destruct s; reflexivity. Qed.

Lemma take_0 (s : string) : take 0 s = "".
Proof. destruct s; reflexivity. Qed.

Lemma uint_text_no_dollar (d : Decimal.uint) :
  has_char "$"%char (NilEmpty.string_of_uint d) = false.
Proof. induction d; simpl; auto. Qed.

Lemma to_string_no_dollar (v : Z) : 0 <= v -> has_char "$"%char (to_string v) = false.
Proof.
  intros Hv. unfold to_string.
  destruct v as [|p|p]; [reflexivity | | lia].
  simpl. destruct (Pos.to_uint p); try apply uint_text_no_dollar. reflexivity.
Qed.

Lemma default_parameter_name (dp : Default_parameters) (tmp : string) (v : Z) :
  default_parameter dp tmp = Some v -> has_char " "%char tmp = false.
Proof.
  unfold default_parameter.
  repeat match goal with
         | |- context [String.eqb tmp ?n] =>
             destruct (String.eqb_spec tmp n) as [->|_]
         end;
    intros H; try discriminate; reflexivity.
Qed.

Lemma replace_loop_mono (dp : Default_parameters) (fuel : nat) :
  forall str pos log r,
    replace_loop fuel dp str pos log = Some r ->
    replace_loop (S fuel) dp str pos log = Some r.
Proof.
  induction fuel as [|fuel IH]; intros str pos log r; [discriminate|].
  intros H. rewrite SkipFacts.replace_loop_S in *.
  destruct (find str "$"%char pos =? npos); [exact H|].
  destruct (replace_step dp str (find str "$"%char pos)) as [[str' pos_end] msgs].
  now apply IH.
Qed.

Lemma replace_loop_more_fuel (dp : Default_parameters) (fuel k : nat) str pos log r :
  replace_loop fuel dp str pos log = Some r ->
  replace_loop (k + fuel) dp str pos log = Some r.
Proof.
  intros H. induction k as [|k IH]; [exact H|]. now apply replace_loop_mono.
Qed.

(** Where the scan finds the ['$'] of a line that has none before it. *)
Lemma find_dollar (pre rest : string) :
  has_char "$"%char pre = false ->
  find (pre ++ String "$" rest) "$"%char 0 = size pre.
Proof.
  intros H. unfold find.
  destruct (Z.leb_spec (size (pre ++ String "$" rest)) 0) as [Hle|_].
  - unfold size in Hle. rewrite length_app in Hle. simpl in Hle. lia.
  - change (Z.to_nat 0) with 0%nat. rewrite drop_0, find_first_app by exact H. lia.
Qed.

Lemma prefix_kept_by_loop (dp : Default_parameters) (pre : string) (fuel : nat) :
  has_char "$"%char pre = false ->
  forall rest pos log r,
    0 <= pos ->
    replace_loop fuel dp (pre ++ rest) pos log = Some r ->
    exists rest', fst r = pre ++ rest'.
Proof.
  intros Hpre. induction fuel as [|fuel IH]; intros rest pos log r Hpos; [discriminate|].
  rewrite SkipFacts.replace_loop_S.
  remember (find (pre ++ rest) "$"%char pos) as p eqn:Hp. symmetry in Hp.
  destruct (Z.eqb_spec p npos) as [_|Hn].
  - intros H; inversion H. simpl. eauto.
  - pose proof (find_range _ _ _ _ Hpos Hp Hn) as Hr.
    pose proof (find_char _ _ _ _ Hpos Hp Hn) as Hc.
    assert (Hge : size pre <= p).
    { destruct (Z.lt_ge_cases p (size pre)) as [Hlt|]; [exfalso | assumption].
      rewrite <- (String.append_correct1 pre rest) in Hc by (unfold size in Hlt; lia).
      exact (has_char_get _ _ _ Hpre Hc). }
    assert (Hstep : exists rest',
               fst (fst (replace_step dp (pre ++ rest) p)) = pre ++ rest' /\
               0 <= snd (fst (replace_step dp (pre ++ rest) p))).
    { unfold replace_step.
      destruct (default_parameter dp _); simpl.
      - unfold replace.
        replace (Z.to_nat p) with (String.length pre + (Z.to_nat p - String.length pre))%nat
          by (unfold size in Hge; lia).
        rewrite take_app_ge, append_assoc.
        eexists. split; [reflexivity | apply HeadFacts.find_nonneg; lia].
      - eexists. split; [reflexivity | apply HeadFacts.find_nonneg; lia]. }
    destruct Hstep as (rest' & Hrest' & Hend).
    destruct (replace_step dp (pre ++ rest) p) as [[str' pos_end] msgs].
    simpl in Hrest', Hend. subst str'.
    now apply IH.
Qed.

End ReplaceFacts.

(** X9: a line without a ['$'] passes through substitution unchanged and
    without a message. *)
Theorem X9_line_without_dollar_is_unchanged (dp : Default_parameters) (str : string) :
  has_char "$"%char str = false ->
  replace_default_parameters dp str = (str, []).
Proof.
  intros H. unfold replace_default_parameters, replace_fuel.
  rewrite SkipFacts.replace_loop_S, ReplaceFacts.find_none by exact H.
  reflexivity.
Qed.

Lemma X9_line_without_dollar_is_unchanged_witness :
  replace_default_parameters dp0 "bart fft -u 7 input_data kspace"
  = ("bart fft -u 7 input_data kspace", []).
Proof.
  apply (X9_line_without_dollar_is_unchanged dp0 "bart fft -u 7 input_data kspace").
  reflexivity.
Defined.

(** X10: the substitution loop ends.  On a line of [n] characters (fewer
    than [2^64]) it runs through in at most [n + 1] iterations, and any
    larger bound gives the same result. *)
Theorem X10_substitution_terminates
        (dp : Default_parameters) (str : string) (fuel : nat) :
  StdString.size str <= StdString.npos ->
  (String.length str < fuel)%nat ->
  replace_loop fuel dp str 0 [] = Some (replace_default_parameters dp str).
Proof.
  intros Hsize Hfuel.
  pose proof (SubstitutionFacts.replace_default_parameters_total dp str Hsize) as H.
  replace fuel with ((fuel - replace_fuel str) + replace_fuel str)%nat
    by (unfold replace_fuel; lia).
  now apply ReplaceFacts.replace_loop_more_fuel.
Qed.

Lemma X10_substitution_terminates_witness :
  replace_loop 100 dp0 two_parameters_line 0 []
  = Some (replace_default_parameters dp0 two_parameters_line).
Proof.
  apply (X10_substitution_terminates dp0 two_parameters_line 100).
  - vm_compute. discriminate.
  - vm_compute. lia.
Defined.

(** X11: substitution never changes the text in front of the first
    ['$'] of a line. *)
Theorem X11_text_before_first_dollar_is_kept
        (dp : Default_parameters) (pre rest : string) :
  has_char "$"%char pre = false ->
  exists rest', fst (replace_default_parameters dp (pre ++ rest)) = pre ++ rest'.
Proof.
  intros H. unfold replace_default_parameters.
  destruct (replace_loop _ dp (pre ++ rest) 0 []) as [r|] eqn:Hr.
  - eapply ReplaceFacts.prefix_kept_by_loop; eauto. lia.
  - simpl. eauto.
Qed.

Lemma X11_text_before_first_dollar_is_kept_witness :
  exists rest',
    fst (replace_default_parameters dp0 ("bart resize -c 0 " ++ "$recon_matrix_x 1 $FOV_y in out"))
    = "bart resize -c 0 " ++ rest'.
Proof.
  apply (X11_text_before_first_dollar_is_kept
           dp0 "bart resize -c 0 " "$recon_matrix_x 1 $FOV_y in out").
  reflexivity.
Defined.

(* ================================================================== *)
(** * A line with one parameter *)

Module SingleFacts.
Import StdString StdStringFacts SubstitutionFacts OutputNameFacts TrimFacts
       TokenListFacts ReplaceFacts.

(** The end of the token: the space that follows the name, or [npos]
    when the name ends the line.  In both cases the token has one more
    character than the name. *)
Lemma token_extent (pre name post : string) :
  has_char " "%char name = false ->
  post = "" \/ (exists q, post = String " " q) ->
  size (pre ++ String "$" (name ++ post)) <= npos ->
  let str := pre ++ String "$" (name ++ post) in
  let pos_end := find str " "%char (size pre) in
  0 <= pos_end /\
  Z.min ((pos_end - size pre) mod 2 ^ 64) (size str - size pre) = 1 + size name.
Proof.
  intros Hname Hpost Hsize str pos_end.
  assert (Hlen : size str = size pre + 1 + size name + size post).
  { unfold str, size. rewrite !length_app. simpl. rewrite length_app. lia. }
  pose proof (size_nonneg pre). pose proof (size_nonneg name).
  pose proof (size_nonneg post).
  assert (Hnpos : npos = 2 ^ 64 - 1) by reflexivity.
  assert (Hend : pos_end = if String.eqb post "" then npos else size pre + 1 + size name).
  { unfold pos_end, find.
    destruct (Z.leb_spec (size str) (size pre)) as [Hle|_]; [lia|].
    replace (Z.to_nat (size pre)) with (String.length pre + 0)%nat
      by (unfold size; lia).
    unfold str. rewrite drop_app_ge, drop_0.
    simpl find_first.
    destruct Hpost as [->|[q ->]].
    - rewrite append_nil_r, find_first_none by exact Hname. reflexivity.
    - rewrite find_first_app by exact Hname. reflexivity. }
  change (size str <= npos) in Hsize.
  rewrite Hend. destruct Hpost as [->|[q ->]]; simpl String.eqb; cbv iota.
  - change (size "") with 0 in *.
    split; [lia|]. rewrite Z.mod_small by lia. lia.
  - split; [lia|].
    replace (size pre + 1 + size name - size pre) with (1 + size name) by lia.
    rewrite Z.mod_small by lia. lia.
Qed.

Lemma single_replacement (dp : Default_parameters) (pre name post : string) (v : Z) :
  default_parameter dp name = Some v ->
  post = "" \/ (exists q, post = String " " q) ->
  size (pre ++ String "$" (name ++ post)) <= npos ->
  exists pos_end,
    0 <= pos_end /\
    replace_step dp (pre ++ String "$" (name ++ post)) (size pre)
    = (pre ++ to_string v ++ post, pos_end, []).
Proof.
  intros Hdp Hpost Hsize.
  pose proof (default_parameter_name dp name v Hdp) as Hname.
  destruct (token_extent pre name post Hname Hpost Hsize) as [Hend Hmin].
  exists (find (pre ++ String "$" (name ++ post)) " "%char (size pre)).
  split; [exact Hend|].
  unfold replace_step.
  set (str := pre ++ String "$" (name ++ post)) in *.
  set (pos_end := find str " "%char (size pre)) in *.
  assert (Hdrop : drop (Z.to_nat (size pre)) str = String "$" (name ++ post)).
  { unfold str, size. rewrite Nat2Z.id.
    rewrite <- (Nat.add_0_r (String.length pre)), drop_app_ge. apply drop_0. }
  assert (Htmp : erase (substr str (size pre) ((pos_end - size pre) mod 2 ^ 64)) 0 1 = name).
  { unfold substr. rewrite Hmin, Hdrop.
    replace (Z.to_nat (1 + size name)) with (S (String.length name))
      by (unfold size; lia).
    simpl take. rewrite take_app_length.
    unfold erase. change (Z.to_nat 0) with 0%nat.
    replace (Z.to_nat (0 + Z.min 1 (size (String "$" name) - 0))) with 1%nat
      by (unfold size; simpl String.length; lia).
    reflexivity. }
  rewrite Htmp, Hdp.
  f_equal. f_equal.
  unfold replace. rewrite Hmin.
  unfold size at 1. rewrite Nat2Z.id.
  replace (take (String.length pre) str) with pre
    by (unfold str; now rewrite take_app_length).
  f_equal. f_equal.
  replace (Z.to_nat (size pre + (1 + size name)))
    with (String.length pre + S (String.length name))%nat by (unfold size; lia).
  unfold str. rewrite drop_app_ge. simpl drop.
  rewrite <- (Nat.add_0_r (String.length name)), drop_app_ge. apply drop_0.
Qed.

End SingleFacts.

(** X12: a line with a single [$name] token, [name] being one of the
    ten parameters and the token being followed by a space or by the end
    of the line, comes out with the token replaced by the decimal text
    of the parameter, everything else unchanged, and no message. *)
Theorem X12_single_parameter_is_substituted
        (dp : Default_parameters) (pre name post : string) (v : Z) :
  has_char "$"%char pre = false ->
  has_char "$"%char post = false ->
  post = "" \/ (exists q, post = String " " q) ->
  default_parameter dp name = Some v ->
  StdString.size (pre ++ String "$" (name ++ post)) <= StdString.npos ->
  replace_default_parameters dp (pre ++ String "$" (name ++ post))
  = (pre ++ to_string v ++ post, []).
Proof.
  intros Hpre Hpost Hshape Hdp Hsize.
  destruct (SingleFacts.single_replacement dp pre name post v Hdp Hshape Hsize)
    as (pos_end & Hend & Hstep).
  unfold replace_default_parameters, replace_fuel.
  rewrite SkipFacts.replace_loop_S, ReplaceFacts.find_dollar by exact Hpre.
  assert (Hlt : StdString.size pre < StdString.npos).
  { unfold StdString.size in *. rewrite StdStringFacts.length_app in Hsize.
    simpl String.length in Hsize. lia. }
  destruct (Z.eqb_spec (StdString.size pre) StdString.npos) as [Heq|_]; [lia|].
  rewrite Hstep.
  assert (Hfuel : exists n, String.length (pre ++ String "$" (name ++ post)) = S n).
  { rewrite StdStringFacts.length_app. simpl. exists (String.length pre + String.length (name ++ post))%nat. lia. }
  destruct Hfuel as [n ->].
  rewrite SkipFacts.replace_loop_S, ReplaceFacts.find_none; [reflexivity|].
  rewrite !TokenListFacts.has_char_app, Hpre, Hpost.
  rewrite ReplaceFacts.to_string_no_dollar; [reflexivity|].
  apply SubstitutionFacts.default_parameter_some in Hdp. lia.
Qed.

Lemma X12_single_parameter_is_substituted_witness :
  replace_default_parameters dp0 ("bart resize -c 0 " ++ String "$" ("recon_matrix_x" ++ " in out"))
  = ("bart resize -c 0 " ++ to_string 256 ++ " in out", []).
Proof.
  apply (X12_single_parameter_is_substituted
           dp0 "bart resize -c 0 " "recon_matrix_x" " in out" 256).
  - reflexivity.
  - reflexivity.
  - right. exists "in out". reflexivity.
  - reflexivity.
  - vm_compute. discriminate.
Defined.

(* ================================================================== *)
(** * The first failed command is the last command *)

Module StopFacts.

Lemma engine_rets_app (a b : list Event) :
  engine_rets (a ++ b) = (engine_rets a ++ engine_rets b)%list.
Proof.
  induction a as [|ev a IH]; [reflexivity|].
  destruct ev; simpl; rewrite IH; reflexivity.
Qed.

Lemma engine_rets_calls (tr : list Event) :
  engine_calls tr = [] -> engine_rets tr = [].
Proof.
  induction tr as [|ev tr IH]; [reflexivity|].
  destruct ev; simpl; auto; discriminate.
Qed.

Lemma all_succeeded_app (a b : list Event) :
  all_succeeded a = true -> all_succeeded b = true -> all_succeeded (a ++ b) = true.
Proof.
  unfold all_succeeded. intros Ha Hb.
  rewrite engine_rets_app, forallb_app, Ha, Hb. reflexivity.
Qed.

Lemma forallb_removelast {A} (f : A -> bool) (l : list A) :
  forallb f l = true -> forallb f (removelast l) = true.
Proof.
  induction l as [|x l IH]; [reflexivity|].
  intros H. simpl in H. apply andb_prop in H. destruct H as [Hx Hl].
  destruct l as [|y l]; [reflexivity|].
  change (removelast (x :: y :: l)) with (x :: removelast (y :: l)).
  simpl forallb. rewrite Hx. now apply IH.
Qed.

Lemma only_last_failed_app (a b : list Event) :
  all_succeeded a = true -> only_last_failed b = true ->
  only_last_failed (a ++ b) = true.
Proof.
  unfold all_succeeded, only_last_failed. intros Ha Hb.
  rewrite engine_rets_app.
  destruct (engine_rets b) as [|r rs] eqn:Hr.
  - rewrite app_nil_r. now apply forallb_removelast.
  - rewrite removelast_app by discriminate.
    rewrite forallb_app, Ha. exact Hb.
Qed.

Lemma all_succeeded_only_last (a : list Event) :
  all_succeeded a = true -> only_last_failed a = true.
Proof. apply forallb_removelast. Qed.

Lemma quiet_emit (ev : Event) : is_engine_event ev = false -> quiet (emit ev).
Proof.
  intros H s. exists [ev]. split; [reflexivity|].
  destruct ev; try reflexivity; discriminate.
Qed.

Lemma quiet_compose (f g : State -> State) :
  quiet f -> quiet g -> quiet (fun s => g (f s)).
Proof.
  intros Hf Hg s.
  destruct (Hf s) as (e1 & H1 & Q1). destruct (Hg (f s)) as (e2 & H2 & Q2).
  exists (e1 ++ e2)%list. rewrite H2, H1, app_assoc, engine_rets_app, Q1, Q2. auto.
Qed.

Lemma quiet_same (f : State -> State) : (forall s, trace (f s) = trace s) -> quiet f.
Proof. intros H s. exists []. rewrite H, app_nil_r. auto. Qed.

Section Stop.

Variable engine :
  list Event -> Registry -> Z -> list string -> Z * string * Registry.
Variable P : Properties.
Variable dp : Default_parameters.
Variable E : Env.

Lemma ff_mret {A} (a : A) : fail_fast (mret a).
Proof. intros s. exists []. simpl. rewrite app_nil_r. auto. Qed.

Lemma ff_mstop {A} (e : Exit) : fail_fast (@mstop A e).
Proof. intros s. exists []. simpl. rewrite app_nil_r. auto. Qed.

Lemma ff_get_state : fail_fast get_state.
Proof. intros s. exists []. simpl. rewrite app_nil_r. auto. Qed.

Lemma ff_lift (f : State -> State) : quiet f -> fail_fast (lift f).
Proof.
  intros Hf s. destruct (Hf s) as (evs & Htr & Hq).
  exists evs. simpl. split; [exact Htr|].
  unfold all_succeeded. now rewrite Hq.
Qed.

Lemma ff_bind {A B} (c : M A) (k : A -> M B) :
  fail_fast c -> (forall a, fail_fast (k a)) -> fail_fast (bind c k).
Proof.
  intros Hc Hk s. unfold bind.
  destruct (Hc s) as (n1 & H1 & R1).
  destruct (c s) as [[a|e] s1]; simpl in *.
  - destruct (Hk a s1) as (n2 & H2 & R2).
    exists (n1 ++ n2)%list. split; [now rewrite H2, H1, app_assoc|].
    destruct (fst (k a s1)) as [b|e].
    + now apply all_succeeded_app.
    + destruct R2 as [R2 R2']. split; [now apply only_last_failed_app|].
      destruct R2' as [R2'|R2']; [left; now apply all_succeeded_app | now right].
  - exists n1. auto.
Qed.

Lemma ff_log (m : LogMsg) : fail_fast (log m).
Proof. apply ff_lift, quiet_emit. reflexivity. Qed.

Lemma ff_index (v : list Z) (i : nat) : fail_fast (index v i).
Proof. unfold index. destruct (nth_error v i); [apply ff_mret | apply ff_mstop]. Qed.

Lemma ff_call_or_fail (cmdline : string) : fail_fast (call_or_fail engine cmdline).
Proof.
  intros s.
  destruct (CallFacts.call_or_fail_run engine cmdline s) as (ret & post & Hres & Htr & Hpost).
  eexists. split; [exact Htr|].
  apply engine_rets_calls in Hpost.
  rewrite Hres.
  unfold all_succeeded, only_last_failed.
  rewrite engine_rets_app, Hpost. simpl.
  destruct (Z.eqb_spec ret 0) as [->|Hne]; [reflexivity|].
  split; [reflexivity | now right].
Qed.

Lemma ff_register_non_managed (name : string) (D : Z) (dims : list Z) (ptr : Ptr) :
  fail_fast (register_non_managed name D dims ptr).
Proof.
  apply ff_lift. intros s.
  exists [EvRegister NonManaged name D ptr]. split; reflexivity.
Qed.

Lemma ff_register_loop (rbits : list ReconBit) :
  forall DIMS_ref DIMS, fail_fast (register_loop rbits DIMS_ref DIMS).
Proof.
  induction rbits as [|recon_bit rest IH]; intros DIMS_ref DIMS; simpl register_loop.
  - apply ff_mret.
  - cbv zeta. apply ff_bind; [| intros ?].
    + destruct (negb _); [apply ff_register_non_managed | apply ff_mret].
    + apply ff_bind; [apply ff_register_non_managed | intros ?]. apply IH.
Qed.

Ltac ff_step :=
  first
    [ apply ff_mret
    | apply ff_mstop
    | apply ff_get_state
    | apply ff_log
    | apply ff_index
    | apply ff_bind; [| intros ?]
    | match goal with
      | |- fail_fast (if ?b then _ else _) => destruct b
      | |- fail_fast (match ?x with _ => _ end) => destruct x
      end ].

Lemma ff_mount_workspace (folder : string) : fail_fast (mount_workspace P E folder).
Proof.
  unfold mount_workspace.
  apply ff_bind; [apply ff_get_state | intros s0].
  destruct (_ && _ && _); [| apply ff_mret].
  cbv zeta. apply ff_bind; [apply ff_lift, quiet_emit; reflexivity | intros _].
  repeat ff_step.
Qed.

Lemma ff_prepare_input (rbits : list ReconBit) : fail_fast (prepare_input engine rbits).
Proof.
  unfold prepare_input.
  apply ff_bind; [apply ff_register_loop | intros [DIMS_ref DIMS]].
  repeat first [ apply ff_call_or_fail | ff_step ].
Qed.

Lemma ff_logs (msgs : list LogMsg) : fail_fast (logs msgs).
Proof. induction msgs; simpl logs; repeat ff_step. exact IHmsgs. Qed.

Lemma ff_script_loop (lines : list string) :
  forall Commands_Line, fail_fast (script_loop engine dp lines Commands_Line).
Proof.
  induction lines as [|Line rest IH]; intros Commands_Line; simpl script_loop.
  - apply ff_mret.
  - cbv zeta. destruct (skipped _); [apply IH|].
    destruct (replace_default_parameters dp _) as [Line' msgs].
    repeat first [ apply ff_call_or_fail | apply ff_logs | apply IH | ff_step ].
Qed.

Lemma ff_run_script : fail_fast (run_script engine P dp E).
Proof.
  unfold run_script. destruct (script_lines E).
  - apply ff_script_loop.
  - repeat ff_step.
Qed.

Lemma ff_load (name : string) (D : Z) (dimensions : list Z) :
  fail_fast (load name D dimensions).
Proof.
  unfold load.
  apply ff_bind; [apply ff_lift, quiet_emit; reflexivity | intros _].
  repeat ff_step.
Qed.

Lemma ff_reshape_output (outputFile : string) (header : list Z) :
  fail_fast (reshape_output engine outputFile header).
Proof.
  unfold reshape_output. cbv zeta.
  apply ff_bind; [apply ff_call_or_fail | intros _].
  apply ff_bind; [apply ff_load | intros [data DIMS_OUT]].
  destruct data; repeat ff_step.
Qed.

Lemma ff_fetch_output (Commands_Line : string) :
  fail_fast (fetch_output engine Commands_Line).
Proof.
  unfold fetch_output.
  apply ff_bind; [destruct (get_output_filename Commands_Line); repeat ff_step
                 | intros outputFile].
  apply ff_bind; [apply ff_load | intros hd].
  apply ff_reshape_output.
Qed.

Lemma quiet_cleanup (path : string) : quiet (cleanup path).
Proof.
  apply (quiet_compose (emit (EvRemoveAll path)) (set_workspace false)).
  - now apply quiet_emit.
  - now apply quiet_same.
Qed.

Lemma ff_finish (path : string) (header DIMS_OUT : list Z) :
  fail_fast (finish P path header DIMS_OUT).
Proof.
  unfold finish.
  apply ff_bind; [| intros _].
  - destruct (negb _); apply ff_lift; [apply quiet_cleanup | now apply quiet_same].
  - destruct (data_dims_Final DIMS_OUT header); [| apply ff_mstop].
    apply ff_bind; [apply ff_lift, quiet_emit; reflexivity | intros _].
    apply ff_mret.
Qed.

Lemma ff_body (rbits : list ReconBit) (path : string) :
  fail_fast (body engine P dp E rbits path).
Proof.
  unfold body, before_finish.
  repeat first [ apply ff_mount_workspace | apply ff_prepare_input
               | apply ff_run_script | apply ff_fetch_output | apply ff_finish
               | apply ff_bind; [| intros ?] ].
Qed.

Lemma quiet_dtor (path : string) : quiet (ScopeGuard_dtor path).
Proof.
  intros s. unfold ScopeGuard_dtor.
  destruct (is_active_ s); simpl; rewrite <- ?app_assoc; eexists; split;
    reflexivity.
Qed.

End Stop.

End StopFacts.

(** X13: [process] is fail-fast and never reports success after a
    failure.  Among the engine commands of one call only the last one
    can have returned a non-zero code; if one did, the call returns
    [GADGET_FAIL]; and if the call returns [GADGET_OK], every engine
    command returned zero. *)
Theorem X13_process_stops_at_first_failed_command
        (engine : list Event -> Registry -> Z -> list string -> Z * string * Registry)
        (P : Properties) (dp : Default_parameters) (E : Env)
        (rbits : list ReconBit) (s0 : State) :
  exists new,
    trace (snd (process engine P dp E rbits s0)) = (trace s0 ++ new)%list /\
    only_last_failed new = true /\
    (all_succeeded new = true \/
     fst (process engine P dp E rbits s0) = Return GADGET_FAIL) /\
    (fst (process engine P dp E rbits s0) = Return GADGET_OK ->
     all_succeeded new = true).
Proof.
  assert (Hquiet : forall evs : list Event,
             engine_rets evs = [] ->
             only_last_failed evs = true /\ all_succeeded evs = true).
  { intros evs H. unfold only_last_failed, all_succeeded. rewrite H. auto. }
  destruct (reaches_guard P E s0) eqn:Hg.
  - rewrite (CleanupFacts.process_guarded engine P dp E rbits s0 Hg).
    assert (Hgs : exists e0, trace (guarded_state P E s0) = (trace s0 ++ e0)%list /\
                             engine_rets e0 = []).
    { unfold guarded_state. destruct (workspace s0); simpl.
      - exists []. now rewrite app_nil_r.
      - rewrite <- app_assoc. eexists. split; reflexivity. }
    destruct Hgs as (e0 & He0 & Hq0).
    remember (guarded_state P E s0) as g eqn:Eg.
    destruct (StopFacts.ff_body engine P dp E rbits (workspace_path P E) g)
      as (n1 & H1 & R1).
    destruct (body engine P dp E rbits (workspace_path P E) g)
      as [[r|e] s3] eqn:Hb; simpl in H1, R1.
    + destruct (StopFacts.quiet_dtor (workspace_path P E) s3) as (e2 & H2 & Hq2).
      exists (e0 ++ n1 ++ e2)%list. simpl fst. simpl snd.
      split; [rewrite H2, H1, He0, <- !app_assoc; reflexivity|].
      assert (Hall : all_succeeded (e0 ++ n1 ++ e2) = true).
      { apply StopFacts.all_succeeded_app; [apply Hquiet, Hq0|].
        apply StopFacts.all_succeeded_app; [exact R1 | apply Hquiet, Hq2]. }
      split; [now apply StopFacts.all_succeeded_only_last|]. auto.
    + destruct R1 as [R1 R1'].
      assert (Hne : e <> Return GADGET_OK) by exact (CleanupFacts.body_stop _ _ _ _ _ _ _ _ _ Hb).
      assert (Hcase : forall s4 e2,
                 trace s4 = (trace s3 ++ e2)%list -> engine_rets e2 = [] ->
                 exists new,
                   trace s4 = (trace s0 ++ new)%list /\
                   only_last_failed new = true /\
                   (all_succeeded new = true \/ e = Return GADGET_FAIL) /\
                   (e = Return GADGET_OK -> all_succeeded new = true)).
      { intros s4 e2 H2 Hq2.
        exists (e0 ++ (n1 ++ e2))%list.
        split; [rewrite H2, H1, He0, <- !app_assoc; reflexivity|].
        split.
        - apply StopFacts.only_last_failed_app; [apply Hquiet, Hq0|].
          unfold only_last_failed. rewrite StopFacts.engine_rets_app, Hq2, app_nil_r.
          exact R1.
        - split; [| intros ->; contradiction].
          destruct R1' as [R1'|R1']; [left | now right].
          apply StopFacts.all_succeeded_app; [apply Hquiet, Hq0|].
          apply StopFacts.all_succeeded_app; [exact R1' | apply Hquiet, Hq2]. }
      destruct e as [r| |].
      * destruct (StopFacts.quiet_dtor (workspace_path P E) s3) as (e2 & H2 & Hq2).
        destruct (Hcase _ e2 H2 Hq2) as (new & Hn1 & Hn2 & Hn3 & Hn4).
        exists new. simpl fst. simpl snd. repeat split; auto.
      * destruct (Hcase s3 [] ltac:(now rewrite app_nil_r) eq_refl)
          as (new & Hn1 & Hn2 & Hn3 & Hn4).
        exists new. simpl fst. simpl snd. repeat split; auto.
      * destruct (Hcase s3 [] ltac:(now rewrite app_nil_r) eq_refl)
          as (new & Hn1 & Hn2 & Hn3 & Hn4).
        exists new. simpl fst. simpl snd. repeat split; auto.
  - assert (Hearly : exists evs,
               trace (snd (process engine P dp E rbits s0)) = (trace s0 ++ evs)%list /\
               engine_rets evs = []).
    { unfold reaches_guard in Hg. unfold process.
      destruct (script_exists E); simpl negb; cbv iota;
        [| eexists; split; reflexivity].
      destruct (chmod_res E =? 0); simpl negb; cbv iota;
        [| eexists; split; reflexivity].
      destruct (String.eqb (BartWorkingDirectory_path P) "");
        [eexists; split; reflexivity |].
      simpl in Hg. apply orb_false_elim in Hg. destruct Hg as [Hw Hc].
      rewrite Hw, Hc. simpl. rewrite <- app_assoc. eexists; split; reflexivity. }
    destruct Hearly as (evs & Htr & Hq).
    exists evs. split; [exact Htr|].
    destruct (Hquiet evs Hq) as [H1 H2]. auto.
Qed.

(* ================================================================== *)
(** * Returns before the script is read *)

Module EntryFacts.

Lemma registered_names_app (a b : list Event) :
  registered_names (a ++ b) = (registered_names a ++ registered_names b)%list.
Proof.
  induction a as [|ev a IH]; [reflexivity|].
  destruct ev; simpl; rewrite IH; reflexivity.
Qed.

Lemma guarded_state_trace (P : Properties) (E : Env) (s0 : State) :
  exists e0,
    trace (guarded_state P E s0) = (trace s0 ++ e0)%list /\
    engine_rets e0 = [] /\ registered_names e0 = [].
Proof.
  unfold guarded_state. destruct (workspace s0); simpl.
  - exists []. now rewrite app_nil_r.
  - rewrite <- app_assoc. eexists. repeat split.
Qed.

Lemma dtor_new (p_ : string) (s : State) :
  exists e2,
    trace (ScopeGuard_dtor p_ s) = (trace s ++ e2)%list /\
    engine_rets e2 = [] /\ registered_names e2 = [].
Proof.
  unfold ScopeGuard_dtor.
  destruct (is_active_ s); simpl; rewrite <- ?app_assoc; eexists; repeat split.
Qed.

Lemma dims_eqb_refl (v : list Z) : dims_eqb v v = true.
Proof. induction v as [|x v IH]; simpl; [reflexivity|]. now rewrite Z.eqb_refl. Qed.

Lemma emplace_same_shape (l : list Z) (rb : ReconBit) :
  same_shape rb -> emplace_sizes l (ref_ rb) = emplace_sizes l (data_ rb).
Proof.
  intros H. unfold emplace_sizes. f_equal.
  apply map_ext_in. intros i Hi. apply in_seq in Hi.
  rewrite H by lia. reflexivity.
Qed.

Lemma mount_workspace_run (P : Properties) (E : Env) (folder : string) (s : State) :
  workspace s = true ->
  mount_workspace P E folder s =
  if (isBartFolderBeingCachedToVM P && negb (isBartFileBeingStored P))%bool then
    (if system_status E =? 0 then Go tt else Stop (Return GADGET_FAIL),
     emit (EvSystem ("mount -t tmpfs -o size"
                     ++ to_string (AllocateMemorySizeInMegabytes P)
                     ++ "M, mode=0755 tmpfs " ++ folder) (system_status E)) s)
  else (Go tt, s).
Proof.
  intros Hw. unfold mount_workspace, bind, get_state, lift. rewrite Hw.
  rewrite <- andb_assoc. simpl andb.
  destruct (isBartFolderBeingCachedToVM P && negb (isBartFileBeingStored P))%bool;
    [| reflexivity].
  cbv zeta. destruct (system_status E =? 0); reflexivity.
Qed.

Section Entry.

Variable engine :
  list Event -> Registry -> Z -> list string -> Z * string * Registry.

Lemma call_or_fail_new (cmdline : string) (s : State) :
  exists new,
    trace (snd (call_or_fail engine cmdline s)) = (trace s ++ new)%list /\
    registered_names new = [] /\ List.length (engine_rets new) = 1%nat.
Proof.
  unfold call_or_fail, call_BART, bind, log, lift, get_state, mret. simpl.
  destruct (tokenize cmdline) as [argc argv]. simpl.
  destruct (engine _ _ argc argv) as [[ret out_str] reg]. simpl.
  destruct (ret =? 0); [destruct (String.eqb (c_str out_str) "")|]; simpl;
    rewrite <- ?app_assoc; simpl; eexists; repeat split.
Qed.

Lemma register_loop_same_shape (rbits : list ReconBit) :
  forall (l : list Z) (s : State),
    Forall same_shape rbits ->
    exists l' s' new,
      register_loop rbits l l s = (Go (l', l'), s') /\
      (List.length l' = List.length l + 7 * List.length rbits)%nat /\
      trace s' = (trace s ++ new)%list /\
      registered_names new = repeat "meas_gadgetron" (List.length rbits) /\
      engine_rets new = [].
Proof.
  induction rbits as [|rb rest IH]; intros l s Hall.
  - exists l, s, []. simpl. rewrite app_nil_r. repeat split. lia.
  - inversion Hall as [|? ? Hrb Hrest]; subst.
    simpl register_loop. cbv zeta.
    rewrite (emplace_same_shape l rb Hrb), dims_eqb_refl. simpl negb. cbv iota.
    unfold bind at 1 2. unfold mret at 1. unfold register_non_managed at 1, lift at 1.
    match goal with
    | |- context [register_loop rest ?a ?a ?st] =>
        destruct (IH a st Hrest) as (l' & s' & new & Heq & Hlen & Htr & Hnames & Hrets)
    end.
    exists l', s', (EvRegister NonManaged "meas_gadgetron"
                      (Z.of_nat (List.length (emplace_sizes l (data_ rb))))
                      (data_ptr (data_ rb)) :: new).
    split; [exact Heq|]. split.
    + rewrite Hlen. unfold emplace_sizes. rewrite length_app, length_map, length_seq.
      simpl List.length. lia.
    + split; [rewrite Htr; simpl; now rewrite <- app_assoc|].
      split; [simpl; now rewrite Hnames | exact Hrets].
Qed.

End Entry.

End EntryFacts.

(** X14: a call of [process] that returns before the guard is
    constructed (the script is missing, [chmod] returns a non-zero
    value, no working directory is given, or [create_directories]
    returns false) returns [GADGET_FAIL] with an error message as the
    last thing it does and, unlike every later return, leaves the
    registry alone: nothing is registered, no engine command is run,
    nothing is released or removed, and the registry is as it was.
    This is about what the call does to the registry and the workspace;
    the permissions that [chmod] sets, and [create_directories] ending
    in an exception, are outside the model. *)
Theorem X14_early_return_releases_nothing
        (engine : list Event -> Registry -> Z -> list string -> Z * string * Registry)
        (P : Properties) (dp : Default_parameters) (E : Env)
        (rbits : list ReconBit) (s0 : State) :
  reaches_guard P E s0 = false ->
  fst (process engine P dp E rbits s0) = Return GADGET_FAIL /\
  registry (snd (process engine P dp E rbits s0)) = registry s0 /\
  workspace (snd (process engine P dp E rbits s0)) = workspace s0 /\
  exists tr msg,
    trace (snd (process engine P dp E rbits s0))
    = (trace s0 ++ tr ++ [EvLog (GERROR msg)])%list /\
    registered_names tr = [] /\ engine_rets tr = [] /\
    existsb release_event tr = false.
Proof.
  unfold reaches_guard, process. intros H.
  destruct (script_exists E); simpl negb; cbv iota;
    [| repeat split; exists []; eexists; repeat split].
  destruct (chmod_res E =? 0); simpl negb; cbv iota;
    [| repeat split; exists []; eexists; repeat split].
  destruct (String.eqb (BartWorkingDirectory_path P) "");
    [repeat split; exists []; eexists; repeat split |].
  simpl in H. apply orb_false_elim in H. destruct H as [Hw Hc].
  rewrite Hw, Hc. simpl. rewrite <- app_assoc.
  repeat split; [exact Hw|].
  eexists [_]. eexists. repeat split.
Qed.

Lemma X14_early_return_releases_nothing_witness :
  fst (process (sample_engine None sample_dims) (sample_properties false) dp0
               absent_script_env sample_rbits initial_state) = Return GADGET_FAIL /\
  registry (snd (process (sample_engine None sample_dims) (sample_properties false) dp0
                         absent_script_env sample_rbits initial_state))
  = registry initial_state /\
  workspace (snd (process (sample_engine None sample_dims) (sample_properties false) dp0
                          absent_script_env sample_rbits initial_state))
  = workspace initial_state /\
  exists tr msg,
    trace (snd (process (sample_engine None sample_dims) (sample_properties false) dp0
                        absent_script_env sample_rbits initial_state))
    = (trace initial_state ++ tr ++ [EvLog (GERROR msg)])%list /\
    registered_names tr = [] /\ engine_rets tr = [] /\
    existsb release_event tr = false.
Proof.
  apply (X14_early_return_releases_nothing
           (sample_engine None sample_dims) (sample_properties false) dp0
           absent_script_env sample_rbits initial_state).
  reflexivity.
Defined.

(** X15: when the workspace is to be cached in memory and the [mount]
    command fails, [process] returns [GADGET_FAIL] before anything is
    registered and before any engine command is issued; the workspace
    it has created is removed only if the flag of the guard happens to
    be set. *)
Theorem X15_failed_mount_stops_before_registration
        (engine : list Event -> Registry -> Z -> list string -> Z * string * Registry)
        (P : Properties) (dp : Default_parameters) (E : Env)
        (rbits : list ReconBit) (s0 : State) :
  reaches_guard P E s0 = true ->
  isBartFolderBeingCachedToVM P = true ->
  isBartFileBeingStored P = false ->
  system_status E <> 0 ->
  fst (process engine P dp E rbits s0) = Return GADGET_FAIL /\
  workspace (snd (process engine P dp E rbits s0)) = negb (is_active_indeterminate E) /\
  exists new,
    trace (snd (process engine P dp E rbits s0)) = (trace s0 ++ new)%list /\
    registered_names new = [] /\ engine_rets new = [].
Proof.
  intros Hg Hc Hst Hsys.
  rewrite (CleanupFacts.process_guarded engine P dp E rbits s0 Hg).
  pose proof (CleanupFacts.guarded_state_workspace P E s0 Hg) as Hw.
  destruct (EntryFacts.guarded_state_trace P E s0) as (e0 & He0 & Hr0 & Hn0).
  assert (Hact : is_active_ (guarded_state P E s0) = is_active_indeterminate E)
    by reflexivity.
  remember (guarded_state P E s0) as g eqn:Eg.
  unfold body, before_finish, bind.
  rewrite (EntryFacts.mount_workspace_run P E _ g Hw), Hc, Hst. simpl andb. cbv iota.
  apply Z.eqb_neq in Hsys. rewrite Hsys.
  simpl fst. simpl snd.
  split; [reflexivity|]. split.
  - rewrite CleanupFacts.dtor_workspace. simpl. rewrite Hact, Hw.
    now destruct (is_active_indeterminate E).
  - match goal with
    | |- context [ScopeGuard_dtor ?p ?st] =>
        destruct (EntryFacts.dtor_new p st) as (e2 & He2 & Hr2 & Hn2)
    end.
    rewrite He2. simpl trace. rewrite He0, <- !app_assoc.
    eexists. split; [reflexivity|].
    rewrite EntryFacts.registered_names_app, StopFacts.engine_rets_app, Hn0, Hr0.
    simpl. auto.
Qed.

Lemma X15_failed_mount_stops_before_registration_witness :
  fst (process (sample_engine None sample_dims) cached_properties dp0
               (failed_mount_env true) sample_rbits initial_state) = Return GADGET_FAIL /\
  workspace (snd (process (sample_engine None sample_dims) cached_properties dp0
                          (failed_mount_env true) sample_rbits initial_state))
  = negb (is_active_indeterminate (failed_mount_env true)) /\
  exists new,
    trace (snd (process (sample_engine None sample_dims) cached_properties dp0
                        (failed_mount_env true) sample_rbits initial_state))
    = (trace initial_state ++ new)%list /\
    registered_names new = [] /\ engine_rets new = [].
Proof.
  apply (X15_failed_mount_stops_before_registration
           (sample_engine None sample_dims) cached_properties dp0
           (failed_mount_env true) sample_rbits initial_state).
  - reflexivity.
  - reflexivity.
  - reflexivity.
  - discriminate.
Defined.

(** X16: a message without reconstruction bits makes [process] read
    [DIMS[4]] of an empty vector, which is undefined behaviour; this
    happens after the guard is constructed and the workspace mounted,
    and before any engine command. *)
Theorem X16_empty_message_reads_past_DIMS
        (engine : list Event -> Registry -> Z -> list string -> Z * string * Registry)
        (P : Properties) (dp : Default_parameters) (E : Env) (s0 : State) :
  reaches_guard P E s0 = true ->
  (isBartFolderBeingCachedToVM P && negb (isBartFileBeingStored P))%bool = false
  \/ system_status E = 0 ->
  fst (process engine P dp E [] s0) = Undefined /\
  exists new,
    trace (snd (process engine P dp E [] s0)) = (trace s0 ++ new)%list /\
    registered_names new = [] /\ engine_rets new = [].
Proof.
  intros Hg Hm.
  rewrite (CleanupFacts.process_guarded engine P dp E [] s0 Hg).
  pose proof (CleanupFacts.guarded_state_workspace P E s0 Hg) as Hw.
  destruct (EntryFacts.guarded_state_trace P E s0) as (e0 & He0 & Hr0 & Hn0).
  remember (guarded_state P E s0) as g eqn:Eg.
  unfold body, before_finish, bind.
  rewrite (EntryFacts.mount_workspace_run P E _ g Hw).
  destruct Hm as [Hm|Hm].
  - rewrite Hm. simpl. split; [reflexivity|].
    exists e0. auto.
  - rewrite Hm. simpl Z.eqb. cbv iota.
    destruct (isBartFolderBeingCachedToVM P && negb (isBartFileBeingStored P))%bool;
      simpl; (split; [reflexivity|]).
    + rewrite He0, <- app_assoc. eexists. split; [reflexivity|].
      rewrite EntryFacts.registered_names_app, StopFacts.engine_rets_app, Hn0, Hr0.
      simpl. auto.
    + exists e0. auto.
Qed.

Lemma X16_empty_message_reads_past_DIMS_witness :
  fst (process (sample_engine None sample_dims) (sample_properties false) dp0
               (sample_env true sample_script) [] initial_state) = Undefined /\
  exists new,
    trace (snd (process (sample_engine None sample_dims) (sample_properties false) dp0
                        (sample_env true sample_script) [] initial_state))
    = (trace initial_state ++ new)%list /\
    registered_names new = [] /\ engine_rets new = [].
Proof.
  apply (X16_empty_message_reads_past_DIMS
           (sample_engine None sample_dims) (sample_properties false) dp0
           (sample_env true sample_script) initial_state).
  - reflexivity.
  - left. reflexivity.
Defined.

(** X17: whether a reference scan is registered is decided by comparing
    shapes, not buffers.  When every reference array has the shape of
    its data array, the input is registered under [meas_gadgetron] only,
    once per reconstruction bit, and at most one engine command, the
    one that prepares [input_data], is issued: [meas_gadgetron_ref] is
    never registered and no [resize] is run, whatever buffers the
    reference arrays are. *)
Theorem X17_reference_of_same_shape_is_ignored
        (engine : list Event -> Registry -> Z -> list string -> Z * string * Registry)
        (rbits : list ReconBit) (s : State) :
  Forall same_shape rbits ->
  exists new,
    trace (snd (prepare_input engine rbits s)) = (trace s ++ new)%list /\
    registered_names new = repeat "meas_gadgetron" (List.length rbits) /\
    (List.length (engine_rets new) <= 1)%nat.
Proof.
  intros Hall.
  destruct (EntryFacts.register_loop_same_shape rbits [] s Hall)
    as (l' & s' & new & Heq & Hlen & Htr & Hnames & Hrets).
  unfold prepare_input. unfold bind at 1. rewrite Heq.
  rewrite EntryFacts.dims_eqb_refl. simpl negb. cbv iota.
  unfold bind at 1. unfold mret at 1.
  assert (Hquiet : forall A (c : M A),
             (forall st, snd (c st) = st) ->
             forall (k : A -> M unit),
               (forall a st, exists n2, trace (snd (k a st)) = (trace st ++ n2)%list /\
                                        registered_names n2 = [] /\
                                        (List.length (engine_rets n2) <= 1)%nat) ->
               forall st, exists n2, trace (snd (bind c k st)) = (trace st ++ n2)%list /\
                                     registered_names n2 = [] /\
                                     (List.length (engine_rets n2) <= 1)%nat).
  { intros A c Hc k Hk st. unfold bind. specialize (Hc st).
    destruct (c st) as [[a|e] st']; simpl in Hc; subst st'.
    - apply Hk.
    - exists []. simpl. rewrite app_nil_r. auto. }
  assert (Hindex : forall v i st, snd (index v i st) = st).
  { intros v i st. unfold index. destruct (nth_error v i); reflexivity. }
  assert (Htail : exists n2,
             trace (snd ((d4 <- index l' 4 ;;
                          cmd2 <- (if negb (d4 =? 1) then
                                     d0 <- index l' 0 ;; d1 <- index l' 1 ;;
                                     d2 <- index l' 2 ;; d3 <- index l' 3 ;;
                                     d5 <- index l' 5 ;; d6 <- index l' 6 ;;
                                     mret ("bart reshape 1023 " ++ to_string d0 ++ sp
                                           ++ to_string d1 ++ sp ++ to_string d2 ++ sp
                                           ++ to_string d3 ++ " 1 1 1 " ++ to_string d5
                                           ++ sp ++ to_string d6 ++ sp ++ to_string d4
                                           ++ " meas_gadgetron input_data")
                                   else mret "bart scale 1.0 meas_gadgetron input_data") ;;
                          call_or_fail engine cmd2)%gadget s'))
             = (trace s' ++ n2)%list /\
             registered_names n2 = [] /\ (List.length (engine_rets n2) <= 1)%nat).
  { apply Hquiet; [apply Hindex|]. intros d4 st.
    apply Hquiet.
    - intros st0. destruct (negb (d4 =? 1)); [| reflexivity].
      unfold bind, mret.
      repeat match goal with
             | |- context [index ?v ?i ?x] =>
                 let H := fresh in
                 pose proof (Hindex v i x) as H;
                 destruct (index v i x) as [[?|?] ?]; simpl in H; subst
             end; reflexivity.
    - intros cmd2 st0.
      destruct (EntryFacts.call_or_fail_new engine cmd2 st0) as (n2 & H1 & H2 & H3).
      exists n2. repeat split; auto. lia. }
  destruct Htail as (n2 & H2 & Hn2 & Hr2).
  exists (new ++ n2)%list.
  split; [rewrite H2, Htr, app_assoc; reflexivity|].
  rewrite EntryFacts.registered_names_app, StopFacts.engine_rets_app, Hnames, Hn2, Hrets.
  rewrite app_nil_r. simpl. auto.
Qed.

Lemma X17_reference_of_same_shape_is_ignored_witness :
  exists new,
    trace (snd (prepare_input (sample_engine None sample_dims)
                              separate_reference_rbits initial_state))
    = (trace initial_state ++ new)%list /\
    registered_names new = repeat "meas_gadgetron" (List.length separate_reference_rbits) /\
    (List.length (engine_rets new) <= 1)%nat.
Proof.
  apply (X17_reference_of_same_shape_is_ignored
           (sample_engine None sample_dims) separate_reference_rbits initial_state).
  constructor; [intros i _; reflexivity | constructor].
Defined.

(* ================================================================== *)
(** * The frames copied into the image array *)

Module FrameFacts.

Lemma length_multiples (k : nat) : forall n h, List.length (multiples k n h) = k.
Proof. induction k as [|k IH]; intros n h; simpl; [reflexivity | now rewrite IH]. Qed.

(** Below the point where the counter wraps, the loop runs over the
    multiples of [h4] below [d4], from [n] on. *)
Lemma frame_loop_multiples (d4 h4 : Z) :
  0 < h4 -> d4 + h4 <= 65536 ->
  forall (fuel : nat) (n : Z),
    0 <= n < d4 + h4 ->
    (Z.to_nat ((d4 - n + h4 - 1) / h4) < fuel)%nat ->
    frame_loop fuel n d4 h4 =
    Some (multiples (Z.to_nat ((d4 - n + h4 - 1) / h4)) n h4).
Proof.
  intros Hh Hd. induction fuel as [|fuel IH]; intros n Hn Hfuel; [lia|].
  simpl frame_loop.
  destruct (Z.ltb_spec n d4) as [Hlt|Hge].
  - assert (Hnext : to_u16 (n + h4) = n + h4).
    { unfold to_u16. change (2 ^ 16) with 65536. apply Z.mod_small. lia. }
    assert (Hcount : (d4 - n + h4 - 1) / h4 = (d4 - (n + h4) + h4 - 1) / h4 + 1).
    { replace (d4 - n + h4 - 1) with ((d4 - (n + h4) + h4 - 1) + 1 * h4) by lia.
      rewrite Z.div_add by lia. reflexivity. }
    assert (Hpos : 0 <= (d4 - (n + h4) + h4 - 1) / h4)
      by (apply Z.div_pos; lia).
    rewrite Hcount in *.
    rewrite Z2Nat.inj_add by lia. rewrite Nat.add_1_r in *.
    rewrite Hnext, IH by lia. reflexivity.
  - replace ((d4 - n + h4 - 1) / h4) with 0
      by (symmetry; apply Z.div_small; lia).
    reflexivity.
Qed.

Lemma frames_multiples (DIMS_OUT header : list Z) :
  0 < nth 4 header 0 ->
  0 <= nth 4 DIMS_OUT 0 ->
  nth 4 DIMS_OUT 0 + nth 4 header 0 <= 65536 ->
  frames DIMS_OUT header =
  Some (multiples (Z.to_nat ((nth 4 DIMS_OUT 0 + nth 4 header 0 - 1) / nth 4 header 0))
                  0 (nth 4 header 0)).
Proof.
  intros Hh Hd Hsum. unfold frames.
  assert (Hsz : to_size_t (nth 4 DIMS_OUT 0) = nth 4 DIMS_OUT 0).
  { unfold to_size_t. apply Z.mod_small.
    split; [lia|]. apply Z.lt_trans with 65536; [lia | reflexivity]. }
  rewrite Hsz.
  rewrite (frame_loop_multiples (nth 4 DIMS_OUT 0) (nth 4 header 0) Hh Hsum).
  - rewrite Z.sub_0_r. reflexivity.
  - lia.
  - rewrite Z.sub_0_r.
    assert ((nth 4 DIMS_OUT 0 + nth 4 header 0 - 1) / nth 4 header 0 <= 65535).
    { apply Z.div_le_upper_bound; lia. }
    assert (0 <= (nth 4 DIMS_OUT 0 + nth 4 header 0 - 1) / nth 4 header 0)
      by (apply Z.div_pos; lia).
    lia.
Qed.

(** A counter of 16 bits is below any bound of 65536 or more. *)
Lemma frame_loop_runs_on (d4 h4 : Z) :
  65536 <= d4 ->
  forall (fuel : nat) (n : Z), 0 <= n < 65536 -> frame_loop fuel n d4 h4 = None.
Proof.
  intros Hd. induction fuel as [|fuel IH]; intros n Hn; [reflexivity|].
  simpl frame_loop.
  destruct (Z.ltb_spec n d4) as [_|Hge]; [| lia].
  rewrite IH; [reflexivity|].
  unfold to_u16. change (2 ^ 16) with 65536. apply Z.mod_pos_bound. lia.
Qed.

End FrameFacts.

(** X18: as long as the 16-bit counter of the innermost copy loop cannot
    wrap, the loop runs once for each multiple of [header[4]] below
    [DIMS_OUT[4]], in increasing order: the number of times is
    [DIMS_OUT[4] / header[4]] rounded up. *)
Theorem X18_frames_are_the_multiples (DIMS_OUT header : list Z) :
  0 < nth 4 header 0 ->
  0 <= nth 4 DIMS_OUT 0 ->
  nth 4 DIMS_OUT 0 + nth 4 header 0 <= 65536 ->
  frames DIMS_OUT header =
  Some (multiples (Z.to_nat ((nth 4 DIMS_OUT 0 + nth 4 header 0 - 1) / nth 4 header 0))
                  0 (nth 4 header 0)).
Proof. exact (FrameFacts.frames_multiples DIMS_OUT header). Qed.

Lemma X18_frames_are_the_multiples_witness :
  frames uneven_DIMS_OUT two_maps_header =
  Some (multiples (Z.to_nat ((nth 4 uneven_DIMS_OUT 0 + nth 4 two_maps_header 0 - 1)
                             / nth 4 two_maps_header 0))
                  0 (nth 4 two_maps_header 0)).
Proof.
  apply (X18_frames_are_the_multiples uneven_DIMS_OUT two_maps_header).
  - reflexivity.
  - simpl. lia.
  - simpl. lia.
Defined.

(** X19: as long as the 16-bit counter of the innermost copy loop
    cannot wrap, that is for [0 < header[4]], [0 <= DIMS_OUT[4]] and
    [DIMS_OUT[4] + header[4] <= 65536], the copy loop and the image
    array agree on the number of frames only when [header[4]] divides
    [DIMS_OUT[4]].  In that range the loop never copies fewer frames than
    the fifth axis of the image array holds, and it copies exactly that
    many if and only if the division is exact; otherwise it copies one
    frame more than the array has room for. *)
Theorem X19_frames_fit_only_when_divisible (DIMS_OUT header : list Z) :
  0 < nth 4 header 0 ->
  0 <= nth 4 DIMS_OUT 0 ->
  nth 4 DIMS_OUT 0 + nth 4 header 0 <= 65536 ->
  exists l dims,
    frames DIMS_OUT header = Some l /\
    data_dims_Final DIMS_OUT header = Some dims /\
    nth 4 dims 0 <= Z.of_nat (List.length l) <= nth 4 dims 0 + 1 /\
    (Z.of_nat (List.length l) = nth 4 dims 0 <->
     nth 4 DIMS_OUT 0 mod nth 4 header 0 = 0).
Proof.
  intros Hh Hd Hsum.
  rewrite (FrameFacts.frames_multiples DIMS_OUT header Hh Hd Hsum).
  unfold data_dims_Final.
  destruct (Z.ltb_spec 0 (nth 4 header 0)) as [_|Hle]; [| lia].
  eexists. eexists. split; [reflexivity|]. split; [reflexivity|].
  rewrite FrameFacts.length_multiples.
  cbn [nth].
  set (D := nth 4 DIMS_OUT 0) in *. set (h := nth 4 header 0) in *.
  assert (Hq : Z.quot D h = D / h) by (apply Z.quot_div_nonneg; lia).
  assert (Hdiv : 0 <= D / h <= D).
  { split; [apply Z.div_pos; lia|]. apply Z.div_le_upper_bound; nia. }
  assert (Hsz : to_size_t (Z.quot D h) = D / h).
  { rewrite Hq. unfold to_size_t. apply Z.mod_small.
    split; [lia|]. apply Z.le_lt_trans with 65536; [lia | reflexivity]. }
  rewrite Hsz.
  assert (Hup : 0 <= (D + h - 1) / h) by (apply Z.div_pos; lia).
  rewrite Z2Nat.id by exact Hup.
  pose proof (Z.div_mod D h ltac:(lia)) as Hdm.
  pose proof (Z.mod_pos_bound D h Hh) as Hr.
  destruct (Z.eq_dec (D mod h) 0) as [Hz|Hnz].
  - assert (Heq : (D + h - 1) / h = D / h).
    { replace (D + h - 1) with ((h - 1) + (D / h) * h) by lia.
      rewrite Z.div_add by lia. rewrite Z.div_small by lia. lia. }
    rewrite Heq. split; [lia|]. split; auto.
  - assert (Heq : (D + h - 1) / h = D / h + 1).
    { replace (D + h - 1) with ((D mod h - 1) + (D / h + 1) * h) by lia.
      rewrite Z.div_add by lia. rewrite Z.div_small by lia. lia. }
    rewrite Heq. split; [lia|]. split; intros; [lia | contradiction].
Qed.

Lemma X19_frames_fit_only_when_divisible_witness :
  exists l dims,
    frames uneven_DIMS_OUT two_maps_header = Some l /\
    data_dims_Final uneven_DIMS_OUT two_maps_header = Some dims /\
    nth 4 dims 0 <= Z.of_nat (List.length l) <= nth 4 dims 0 + 1 /\
    (Z.of_nat (List.length l) = nth 4 dims 0 <->
     nth 4 uneven_DIMS_OUT 0 mod nth 4 two_maps_header 0 = 0).
Proof.
  apply (X19_frames_fit_only_when_divisible uneven_DIMS_OUT two_maps_header).
  - reflexivity.
  - simpl. lia.
  - simpl. lia.
Defined.

(** X20: when the fifth axis of the result has 65536 entries or more,
    the innermost copy loop never ends: its counter has 16 bits and
    stays below the bound, so after any number of iterations the loop is
    still running. *)
Theorem X20_copy_loop_never_ends_on_long_axis (DIMS_OUT header : list Z) (fuel : nat) :
  65536 <= to_size_t (nth 4 DIMS_OUT 0) ->
  frame_loop fuel 0 (to_size_t (nth 4 DIMS_OUT 0)) (nth 4 header 0) = None /\
  frames DIMS_OUT header = None.
Proof.
  intros Hd. split; [| unfold frames];
    apply FrameFacts.frame_loop_runs_on; try exact Hd; lia.
Qed.

Lemma X20_copy_loop_never_ends_on_long_axis_witness :
  frame_loop 100 0 (to_size_t (nth 4 long_DIMS_OUT 0)) (nth 4 two_maps_header 0) = None /\
  frames long_DIMS_OUT two_maps_header = None.
Proof.
  apply (X20_copy_loop_never_ends_on_long_axis long_DIMS_OUT two_maps_header 100).
  vm_compute. discriminate.
Defined.

(* ================================================================== *)
(** * Header files are read back as they were written *)

Module HeaderFacts.

Lemma all_digits_uint (d : Decimal.uint) :
  all_digits (NilEmpty.string_of_uint d) = true.
Proof. induction d; simpl; auto. Qed.

Lemma to_string_pos (p : positive) :
  to_string (Z.pos p) = NilEmpty.string_of_uint (Pos.to_uint p).
Proof.
  unfold to_string. simpl.
  pose proof (DecimalPos.Unsigned.to_uint_nonnil p) as Hnn.
  destruct (Pos.to_uint p); [contradiction | reflexivity ..].
Qed.

Lemma all_digits_to_string (v : Z) : 0 <= v -> all_digits (to_string v) = true.
Proof.
  intros Hv. destruct v as [|p|p]; [reflexivity | | lia].
  rewrite to_string_pos. apply all_digits_uint.
Qed.

Lemma all_digits_has_char (c : ascii) (s : string) :
  isdigit c = false -> all_digits s = true -> has_char c s = false.
Proof.
  intros Hc. induction s as [|a s IH]; simpl; [reflexivity|].
  intros H. apply andb_prop in H. destruct H as [Ha Hs].
  destruct (Ascii.eqb_spec a c) as [->|_]; [congruence|]. simpl. now apply IH.
Qed.

Lemma digits_all (s : string) : all_digits s = true -> digits s = s.
Proof.
  induction s as [|a s IH]; simpl; [reflexivity|].
  intros H. apply andb_prop in H. destruct H as [Ha Hs].
  rewrite Ha, IH by exact Hs. reflexivity.
Qed.

Lemma isdigit_not_space (c : ascii) : isdigit c = true -> isspace c = false.
Proof.
  unfold isdigit, isspace. cbv zeta. intros H.
  apply andb_prop in H. destruct H as [H1 H2].
  apply Nat.leb_le in H1. apply Nat.leb_le in H2.
  destruct (Nat.eqb_spec (nat_of_ascii c) 32) as [E|_]; [lia|].
  destruct (Nat.leb_spec (nat_of_ascii c) 13) as [E|_]; [lia|].
  now rewrite andb_false_r.
Qed.

Lemma isdigit_not_sign (c : ascii) :
  isdigit c = true -> Ascii.eqb c "-" = false /\ Ascii.eqb c "+" = false.
Proof.
  intros H. split.
  - destruct (Ascii.eqb_spec c "-") as [->|_]; [discriminate | reflexivity].
  - destruct (Ascii.eqb_spec c "+") as [->|_]; [discriminate | reflexivity].
Qed.

(** [stoi] reads back what [to_string] prints, within the range of [int]. *)
Lemma stoi_to_string (v : Z) :
  0 <= v ->
  stoi (to_string v) = if v <? 2 ^ 31 then inr v else inl out_of_range.
Proof.
  intros Hv. destruct v as [|p|p]; [reflexivity | | lia].
  rewrite to_string_pos.
  pose proof (all_digits_uint (Pos.to_uint p)) as Hall.
  pose proof (NilEmpty.usu (Pos.to_uint p)) as Husu.
  pose proof (DecimalPos.Unsigned.to_uint_nonnil p) as Hnn.
  pose proof (DecimalPos.Unsigned.of_to p) as Hof.
  destruct (NilEmpty.string_of_uint (Pos.to_uint p)) as [|c t] eqn:Ht.
  - simpl in Husu. congruence.
  - assert (Hc : isdigit c = true).
    { simpl in Hall. now apply andb_prop in Hall. }
    unfold stoi.
    assert (Hl : ltrim (String c t) = String c t).
    { simpl. now rewrite (isdigit_not_space c Hc). }
    rewrite Hl. unfold read_sign.
    destruct (isdigit_not_sign c Hc) as [-> ->].
    rewrite (digits_all _ Hall).
    change (NilZero.uint_of_string (String c t))
      with (NilEmpty.uint_of_string (String c t)).
    rewrite Husu. cbv zeta.
    unfold Z.of_uint. rewrite Hof. simpl Z.of_N.
    assert (Hlow : (- 2 ^ 31 <=? Z.pos p) = true) by (apply Z.leb_le; lia).
    rewrite Hlow. simpl andb. reflexivity.
Qed.

Lemma getline_loop_piece (delim : ascii) (t : string) :
  forall (rest line : string),
    has_char delim t = false ->
    getline_loop delim (t ++ String delim rest) line
    = (line ++ t) :: getline_loop delim rest "".
Proof.
  induction t as [|a t IH]; intros rest line Ht.
  - simpl. rewrite Ascii.eqb_refl. now rewrite OutputNameFacts.append_nil_r.
  - simpl in Ht. apply orb_false_elim in Ht. destruct Ht as [Ha Ht].
    simpl. rewrite Ha. rewrite IH by exact Ht.
    now rewrite OutputNameFacts.append_assoc.
Qed.

Lemma getline_loop_last (delim : ascii) (t : string) :
  forall line : string,
    has_char delim t = false ->
    getline_loop delim t line = if String.eqb (line ++ t) "" then [] else [line ++ t].
Proof.
  induction t as [|a t IH]; intros line Ht.
  - simpl. now rewrite OutputNameFacts.append_nil_r.
  - simpl in Ht. apply orb_false_elim in Ht. destruct Ht as [Ha Ht].
    simpl. rewrite Ha. rewrite IH by exact Ht.
    now rewrite OutputNameFacts.append_assoc.
Qed.

Lemma not_digit_to_string (c : ascii) (v : Z) :
  isdigit c = false -> 0 <= v -> has_char c (to_string v) = false.
Proof.
  intros Hc Hv. apply all_digits_has_char; [exact Hc|].
  now apply all_digits_to_string.
Qed.

Lemma has_char_stream_items (c : ascii) (v : list Z) :
  isdigit c = false -> c <> " "%char -> Forall (fun d => 0 <= d) v ->
  has_char c (stream_items v) = false.
Proof.
  intros Hc Hsp. induction 1 as [|d v Hd _ IH]; [reflexivity|].
  simpl stream_items.
  rewrite TokenListFacts.has_char_app, (not_digit_to_string c d Hc Hd).
  cbn [orb has_char]. rewrite IH.
  destruct (Ascii.eqb_spec " "%char c) as [E|_]; [now subst | reflexivity].
Qed.

Lemma getlines_stream_items (v : list Z) :
  Forall (fun d => 0 <= d) v ->
  getlines " " (stream_items v) = map to_string v.
Proof.
  unfold getlines. induction 1 as [|d v Hd _ IH]; [reflexivity|].
  simpl stream_items. cbn [map].
  change (to_string d ++ " " ++ stream_items v)
    with (to_string d ++ String " " (stream_items v)).
  rewrite getline_loop_piece by (apply not_digit_to_string; [reflexivity | exact Hd]).
  now rewrite IH.
Qed.

Lemma parse_items_to_string (v : list Z) :
  forall acc : list Z,
    Forall (fun d => 0 <= d < 2 ^ 31) v ->
    parse_items (map to_string v) acc = Returns (acc ++ v)%list.
Proof.
  induction v as [|d v IH]; intros acc Hall.
  - simpl. now rewrite app_nil_r.
  - inversion Hall as [|? ? Hd Hv]; subst.
    cbn [map parse_items]. rewrite stoi_to_string by lia.
    destruct (Z.ltb_spec d (2 ^ 31)) as [_|Hge]; [| lia].
    rewrite IH by exact Hv.
    assert (Hsz : to_size_t d = d).
    { unfold to_size_t. apply Z.mod_small. split; [lia|].
      apply Z.lt_trans with (2 ^ 31); [lia | reflexivity]. }
    rewrite Hsz, <- app_assoc. reflexivity.
Qed.

Lemma parse_items_too_large (v : list Z) :
  forall acc : list Z,
    Forall (fun d => 0 <= d) v ->
    Exists (fun d => 2 ^ 31 <= d) v ->
    parse_items (map to_string v) acc = Throws out_of_range.
Proof.
  induction v as [|d v IH]; intros acc Hall Hex; [inversion Hex|].
  inversion Hall as [|? ? Hd Hv]; subst.
  cbn [map parse_items]. rewrite stoi_to_string by exact Hd.
  destruct (Z.ltb_spec d (2 ^ 31)) as [Hlt|Hge]; [| reflexivity].
  inversion Hex as [? ? Hbig|? ? Hrest]; subst; [lia|].
  now apply IH.
Qed.

Lemma store_same (path text : string) (fs : Files) : store path text fs path = Some text.
Proof. unfold store. now rewrite String.eqb_refl. Qed.

(** The vector that [write_BART_hdr] prints. *)
Lemma padded_nonneg (DIMS : list Z) (k : nat) :
  Forall (fun d => 0 <= d) (map to_size_t DIMS ++ repeat 1 k)%list.
Proof.
  apply Forall_app. split.
  - apply Forall_forall. intros d Hd. apply in_map_iff in Hd.
    destruct Hd as (x & <- & _). unfold to_size_t. apply Z.mod_pos_bound. reflexivity.
  - apply Forall_forall. intros d Hd. apply repeat_spec in Hd. lia.
Qed.

(** What is read from the file that [write_BART_hdr] has written. *)
Lemma read_written (filename : string) (DIMS : list Z) (fs : Files) (k : nat) :
  (List.length DIMS + k = 16)%nat ->
  read_BART_hdr
    (store (filename ++ ".hdr")
           ("# Dimensions" ++ String nl ""
            ++ stream_items (map to_size_t DIMS ++ repeat 1 k)%list) fs)
    filename
  = (parse_items (map to_string (map to_size_t DIMS ++ repeat 1 k)%list) [], []).
Proof.
  intros Hlen. unfold read_BART_hdr. rewrite store_same. cbv zeta.
  pose proof (padded_nonneg DIMS k) as Hnn.
  set (v := (map to_size_t DIMS ++ repeat 1 k)%list) in *.
  assert (Hne : stream_items v <> "").
  { destruct v as [|d v'] eqn:Hv.
    - assert (Hl : List.length v = 0%nat) by now rewrite Hv.
      unfold v in Hl. rewrite length_app, length_map, repeat_length in Hl. lia.
    - simpl. destruct (to_string d); discriminate. }
  unfold getlines at 1.
  change ("# Dimensions" ++ String nl "" ++ stream_items v)
    with ("# Dimensions" ++ String nl (stream_items v)).
  rewrite getline_loop_piece by reflexivity.
  rewrite getline_loop_last
    by (apply has_char_stream_items; [reflexivity | discriminate | exact Hnn]).
  simpl append.
  destruct (String.eqb_spec (stream_items v) "") as [E|_]; [contradiction|].
  simpl nth_error. cbv iota beta.
  rewrite getlines_stream_items by exact Hnn. reflexivity.
Qed.

End HeaderFacts.

(** X21: a header written by [write_BART_hdr] is read back by
    [read_BART_hdr] as the dimensions that were written, padded with
    ones to sixteen entries, provided there are fewer than sixteen
    dimensions, each one fits an [int], and the file can be written. *)
Theorem X21_header_round_trip
        (writable : string -> bool) (filename : string) (DIMS : list Z) (fs : Files) :
  Z.of_nat (List.length DIMS) < MAX_DIMS ->
  Forall (fun d => 0 <= d < 2 ^ 31) DIMS ->
  writable (filename ++ ".hdr") = true ->
  exists fs',
    write_BART_hdr writable filename DIMS fs = Some (fs', []) /\
    read_BART_hdr fs' filename
    = (Returns (DIMS ++ repeat 1 (16 - List.length DIMS))%list, []).
Proof.
  intros Hlen Hall Hw. unfold write_BART_hdr, MAX_DIMS in *.
  destruct (Z.ltb_spec (Z.of_nat (List.length DIMS)) 16) as [_|Hge]; [| lia].
  cbv zeta. rewrite Hw. eexists. split; [reflexivity|].
  change (Z.to_nat 16) with 16%nat.
  rewrite HeaderFacts.read_written by lia.
  assert (Hid : map to_size_t DIMS = DIMS).
  { clear Hlen. induction Hall as [|d l Hd _ IH]; [reflexivity|].
    simpl. rewrite IH. f_equal. unfold to_size_t. apply Z.mod_small.
    split; [lia|]. apply Z.lt_trans with (2 ^ 31); [lia | reflexivity]. }
  rewrite Hid.
  rewrite HeaderFacts.parse_items_to_string; [reflexivity|].
  apply Forall_app. split; [exact Hall|].
  apply Forall_forall. intros d Hd. apply repeat_spec in Hd. subst d.
  split; [lia | reflexivity].
Qed.

Lemma X21_header_round_trip_witness :
  exists fs',
    write_BART_hdr all_writable "/tmp/out" [128; 128; 1; 8] no_files = Some (fs', []) /\
    read_BART_hdr fs' "/tmp/out"
    = (Returns ([128; 128; 1; 8] ++ repeat 1 (16 - List.length [128; 128; 1; 8]))%list, []).
Proof.
  apply (X21_header_round_trip all_writable "/tmp/out" [128; 128; 1; 8] no_files).
  - reflexivity.
  - repeat (apply Forall_cons; [lia|]). apply Forall_nil.
  - reflexivity.
Defined.

(** X22: [write_BART_hdr] writes any [size_t], but [read_BART_hdr] reads
    with [std::stoi]: a header that holds a dimension of [2^31] or more
    cannot be read back, the call ends in [std::out_of_range]. *)
Theorem X22_large_dimension_is_not_read_back
        (writable : string -> bool) (filename : string) (DIMS : list Z) (fs : Files) :
  Z.of_nat (List.length DIMS) < MAX_DIMS ->
  Forall (fun d => 0 <= d < 2 ^ 64) DIMS ->
  Exists (fun d => 2 ^ 31 <= d) DIMS ->
  writable (filename ++ ".hdr") = true ->
  exists fs',
    write_BART_hdr writable filename DIMS fs = Some (fs', []) /\
    read_BART_hdr fs' filename = (Throws out_of_range, []).
Proof.
  intros Hlen Hall Hex Hw. unfold write_BART_hdr, MAX_DIMS in *.
  destruct (Z.ltb_spec (Z.of_nat (List.length DIMS)) 16) as [_|Hge]; [| lia].
  cbv zeta. rewrite Hw. eexists. split; [reflexivity|].
  change (Z.to_nat 16) with 16%nat.
  rewrite HeaderFacts.read_written by lia.
  assert (Hid : map to_size_t DIMS = DIMS).
  { clear Hlen Hex. induction Hall as [|d l Hd _ IH]; [reflexivity|].
    simpl. rewrite IH. f_equal. unfold to_size_t. now apply Z.mod_small. }
  rewrite Hid.
  rewrite HeaderFacts.parse_items_too_large; [reflexivity | |].
  - apply Forall_app. split.
    + eapply Forall_impl; [| exact Hall]. simpl. intros; lia.
    + apply Forall_forall. intros d Hd. apply repeat_spec in Hd. lia.
  - apply Exists_app. now left.
Qed.

Lemma X22_large_dimension_is_not_read_back_witness :
  exists fs',
    write_BART_hdr all_writable "/tmp/out" [128; 4294967296] no_files = Some (fs', []) /\
    read_BART_hdr fs' "/tmp/out" = (Throws out_of_range, []).
Proof.
  apply (X22_large_dimension_is_not_read_back
           all_writable "/tmp/out" [128; 4294967296] no_files).
  - reflexivity.
  - repeat (apply Forall_cons; [lia|]). apply Forall_nil.
  - apply Exists_cons_tl, Exists_cons_hd. lia.
  - reflexivity.
Defined.

(** X23: [read_BART_hdr] takes the dimensions from the second line of
    the file and from nothing else: the first line is not looked at, and
    whatever follows the second line is ignored. *)
Theorem X23_only_second_line_is_read
        (fs : Files) (filename first second rest : string) :
  has_char nl first = false ->
  has_char nl second = false ->
  read_BART_hdr
    (store (filename ++ ".hdr") (first ++ String nl (second ++ String nl rest)) fs)
    filename
  = (parse_items (getlines " " second) [], []).
Proof.
  intros H1 H2. unfold read_BART_hdr. rewrite HeaderFacts.store_same. cbv zeta.
  unfold getlines at 1.
  rewrite HeaderFacts.getline_loop_piece by exact H1.
  rewrite HeaderFacts.getline_loop_piece by exact H2.
  reflexivity.
Qed.

Lemma X23_only_second_line_is_read_witness :
  read_BART_hdr
    (store ("/tmp/out" ++ ".hdr")
           ("# Dimensions" ++ String nl ("128 128 1 8 " ++ String nl "# Command")) no_files)
    "/tmp/out"
  = (parse_items (getlines " " "128 128 1 8 ") [], []).
Proof.
  apply (X23_only_second_line_is_read no_files "/tmp/out" "# Dimensions" "128 128 1 8 "
                                      "# Command").
  - reflexivity.
  - reflexivity.
Defined.

(** X24: a header file of fewer than two lines is not reported as an
    error: [read_BART_hdr] indexes the vector of its lines at 1, past
    the end.  This is so for a file without a line break and for a file
    whose only line break is its last character. *)
Theorem X24_short_header_is_read_past_the_end
        (fs : Files) (filename line : string) :
  has_char nl line = false ->
  read_BART_hdr (store (filename ++ ".hdr") line fs) filename = (OutOfRange, []) /\
  read_BART_hdr (store (filename ++ ".hdr") (line ++ String nl "") fs) filename
  = (OutOfRange, []).
Proof.
  intros H. unfold read_BART_hdr. rewrite !HeaderFacts.store_same. cbv zeta.
  unfold getlines. split.
  - rewrite HeaderFacts.getline_loop_last by exact H.
    destruct (String.eqb ("" ++ line) ""); reflexivity.
  - rewrite HeaderFacts.getline_loop_piece by exact H. reflexivity.
Qed.

Lemma X24_short_header_is_read_past_the_end_witness :
  read_BART_hdr (store ("/tmp/out" ++ ".hdr") "# Dimensions" no_files) "/tmp/out"
  = (OutOfRange, []) /\
  read_BART_hdr (store ("/tmp/out" ++ ".hdr") ("# Dimensions" ++ String nl "") no_files)
                "/tmp/out"
  = (OutOfRange, []).
Proof.
  apply (X24_short_header_is_read_past_the_end no_files "/tmp/out" "# Dimensions").
  reflexivity.
Defined.
